(** * AI Pizza Palace: the dialogue engine and its knowledge base

    A shallow embedding of [backend/chatbot.py],
    [backend/knowledge_base.py] and the function [chat] of
    [backend/main.py], with the properties of the dialogue engine stated
    and proved over it.

    Conventions of the embedding.
    - A Python [str] is a Rocq [string]; its characters are the code
      points below 128, on which [str.lower], [str.isspace], and the
      regular-expression classes [\d], [\s], [\w] are the ASCII ones
      written out below.
    - A Python [int] is a [Z].  [int(s)] raises [ValueError] on a text
      of more than 4300 digits, the limit of the interpreter, which the
      program does not change; so does printing an integer of more than
      4300 digits.
    - A call that can raise returns an [outcome]: the value returned or
      the exception raised.  What the call wrote before it raised stays
      written.
    - Prices are Python floats.  The handlers are parametric in the
      numeric type and its operations (section variables); the product of
      a price by an integer quantity is partial, as it is on floats, where
      it raises [OverflowError] when the quantity is too large to be
      converted.  Adding two amounts and writing an amount with two
      decimals do not raise.  [PyFloat] is the instance of the floats, in
      the binary64 format, which the examples use.
    - The database is not modelled: the rows read from it are arguments
      of [chat], and so is what it does with the commits of [chat].  What
      [chat] returns is the value of the function, before the framework
      turns it into a response.
    - User-facing response texts are represented by one constructor per
      template of the source, carrying the values interpolated in it.
    - [time.sleep] and the clock are not modelled; [update_entry] and
      [add_entry] take the current time stamp as an argument. *)

From Stdlib Require Import ZArith NArith Ascii String List Lia Bool.
From Stdlib Require Import Sorted Permutation SpecFloat.
From stdpp Require Import gmap strings list.

Local Open Scope Z_scope.

(** ** Exceptions *)

(** The exceptions that the code below can raise: [ValueError], from
    [int] on a text of too many digits and from printing an integer of too
    many digits; [OverflowError], from the product of a float by an integer
    too large to be converted to a float; [DatabaseError], for whatever the
    database session raises when it refuses a commit. *)
Inductive exception : Type := ValueError | OverflowError | DatabaseError.

(** What a call does: it returns a value or it raises. *)
Inductive outcome (A : Type) : Type :=
| Returned (a : A)
| Raised (e : exception).

Arguments Returned {A} a.
Arguments Raised {A} e.

(** ** Python strings *)

Module PyStr.

Definition code (c : ascii) : N := N_of_ascii c.

Definition between (lo hi : N) (c : ascii) : bool :=
  ((lo <=? code c) && (code c <=? hi))%N.

(** [\d] and [str.isdigit] *)
Definition isdigit : ascii -> bool := between 48 57.
Definition isupper : ascii -> bool := between 65 90.
Definition islower : ascii -> bool := between 97 122.

(** [\s] and [str.isspace]: TAB, LF, VT, FF, CR, the four separators
    FS, GS, RS, US, and the blank. *)
Definition isspace (c : ascii) : bool := between 9 13 c || between 28 32 c.

(** [\w] *)
Definition isword (c : ascii) : bool :=
  isdigit c || isupper c || islower c || Ascii.eqb c "_".

Definition lower_char (c : ascii) : ascii :=
  if isupper c then ascii_of_N (code c + 32) else c.

Definition upper_char (c : ascii) : ascii :=
  if islower c then ascii_of_N (code c - 32) else c.

Fixpoint map_chars (f : ascii -> ascii) (s : string) : string :=
  match s with
  | EmptyString => EmptyString
  | String c s' => String (f c) (map_chars f s')
  end.

(** [s.lower()] *)
Definition lower : string -> string := map_chars lower_char.

(** [s.capitalize()] *)
Definition capitalize (s : string) : string :=
  match s with
  | EmptyString => EmptyString
  | String c s' => String (upper_char c) (lower s')
  end.

(** [s.startswith(p)] *)
Fixpoint startswith (p s : string) : bool :=
  match p, s with
  | EmptyString, _ => true
  | String a p', String b s' => Ascii.eqb a b && startswith p' s'
  | String _ _, EmptyString => false
  end.

(** [p in s] *)
Fixpoint contains (p s : string) : bool :=
  startswith p s ||
  match s with
  | EmptyString => false
  | String _ s' => contains p s'
  end.

(** [s.lstrip()], [s.rstrip()], [s.strip()] *)
Fixpoint lstrip (s : string) : string :=
  match s with
  | EmptyString => EmptyString
  | String c s' => if isspace c then lstrip s' else s
  end.

Fixpoint rstrip (s : string) : string :=
  match s with
  | EmptyString => EmptyString
  | String c s' =>
      match rstrip s' with
      | EmptyString => if isspace c then EmptyString else String c EmptyString
      | r => String c r
      end
  end.

Definition strip (s : string) : string := rstrip (lstrip s).

(** [s.split()]: the maximal runs of non-blank characters.  [cur] is the
    run being read. *)
Fixpoint split_go (cur : string) (s : string) : list string :=
  match s with
  | EmptyString => match cur with EmptyString => [] | _ => [cur] end
  | String c s' =>
      if isspace c
      then match cur with
           | EmptyString => split_go EmptyString s'
           | _ => cur :: split_go EmptyString s'
           end
      else split_go (cur +:+ String c EmptyString) s'
  end.

Definition split : string -> list string := split_go EmptyString.

(** [sep.join(l)] *)
Fixpoint join (sep : string) (l : list string) : string :=
  match l with
  | [] => EmptyString
  | [x] => x
  | x :: l' => x +:+ sep +:+ join sep l'
  end.

(** [re.sub(r'\s+', ' ', s)]: every maximal run of blanks becomes one
    space.  [inrun] says that the previous character was a blank. *)
Fixpoint squeeze_go (inrun : bool) (s : string) : string :=
  match s with
  | EmptyString => EmptyString
  | String c s' =>
      if isspace c
      then if inrun then squeeze_go true s'
           else String " " (squeeze_go true s')
      else String c (squeeze_go false s')
  end.

Definition squeeze : string -> string := squeeze_go false.

(** [re.findall(r'\d+', s)]: the maximal runs of digits, left to right. *)
Fixpoint findall_digits_go (cur : string) (s : string) : list string :=
  match s with
  | EmptyString => match cur with EmptyString => [] | _ => [cur] end
  | String c s' =>
      if isdigit c
      then findall_digits_go (cur +:+ String c EmptyString) s'
      else match cur with
           | EmptyString => findall_digits_go EmptyString s'
           | _ => cur :: findall_digits_go EmptyString s'
           end
  end.

Definition findall_digits : string -> list string :=
  findall_digits_go EmptyString.

(** [int(s)] on a run of digits.  The interpreter refuses a text of more
    than [sys.get_int_max_str_digits()] digits, leading zeros included;
    the limit is 4300 unless the program sets another, which this one does
    not. *)
Definition digit_value (c : ascii) : Z := Z.of_N (code c) - 48.

Fixpoint int_go (acc : Z) (s : string) : Z :=
  match s with
  | EmptyString => acc
  | String c s' => int_go (10 * acc + digit_value c) s'
  end.

Definition max_str_digits : Z := 4300.

Definition int (s : string) : outcome Z :=
  if Z.of_nat (String.length s) <=? max_str_digits
  then Returned (int_go 0 s)
  else Raised ValueError.

(** [str(q)], as an f-string writes the integer [q]: the same limit
    applies, and an integer of more than 4300 digits raises
    [ValueError]. *)
Definition printable (q : Z) : bool := Z.abs q <? 10 ^ max_str_digits.

Arguments printable : simpl never.

(** All characters of [s] satisfy [p]. *)
Fixpoint all_chars (p : ascii -> bool) (s : string) : bool :=
  match s with
  | EmptyString => true
  | String c s' => p c && all_chars p s'
  end.

End PyStr.

(** ** Quantity extraction ([RestaurantChatbot.extract_quantity]) *)

Definition number_words : list (string * Z) :=
  [ ("one", 1); ("two", 2); ("three", 3); ("four", 4); ("five", 5);
    ("six", 6); ("seven", 7); ("eight", 8); ("nine", 9); ("ten", 10) ].

(** The loop [for word, num in number_words.items(): if word in
    message_lower: return num]. *)
Fixpoint find_number_word (table : list (string * Z)) (message_lower : string)
  : option Z :=
  match table with
  | [] => None
  | (word, num) :: rest =>
      if PyStr.contains word message_lower then Some num
      else find_number_word rest message_lower
  end.

Definition extract_quantity (message : string) : outcome Z :=
  let message_lower := PyStr.lower message in
  match find_number_word number_words message_lower with
  | Some num => Returned num
  | None =>
      match PyStr.findall_digits message with
      | first :: _ => PyStr.int first
      | [] => Returned 1
      end
  end.

(** ** Regular expressions ([re.search])

    The fragment of Python's [re] syntax used by the pattern table:
    literals, [.], the classes [\s] and [\d], the assertion [\b], groups,
    alternation, the postfix operators [*], [+], [?], and the negative
    lookahead [(?!...)].  [re.search] only reports whether some match
    exists, so a pattern denotes a set of (start, end) position pairs and
    the matcher computes, for a start position, the set of end positions. *)

Module Re.

Inductive regex : Type :=
| Eps
| Chr (c : ascii)
| Dot
| Space
| Digit
| WordB
| Seq (r1 r2 : regex)
| Alt (r1 r2 : regex)
| Star (r : regex)
| NegLook (r : regex).

(** *** Compilation of a pattern string *)

Definition escape (c : ascii) : option regex :=
  if Ascii.eqb c "b" then Some WordB
  else if Ascii.eqb c "s" then Some Space
  else if Ascii.eqb c "d" then Some Digit
  else if PyStr.isword c then None
  else Some (Chr c).

Definition is_meta (c : ascii) : bool :=
  existsb (Ascii.eqb c) ["*"; "+"; "?"; ")"; "|"; "["; "]"; "{"; "}"; "^"; "$"]%char.

(** the postfix operators following an atom *)
Fixpoint postfix (r : regex) (s : string) : regex * string :=
  match s with
  | String "*" rest => postfix (Star r) rest
  | String "+" rest => postfix (Seq r (Star r)) rest
  | String "?" rest => postfix (Alt r Eps) rest
  | _ => (r, s)
  end.

Fixpoint parse_alt (fuel : nat) (s : string) : option (regex * string) :=
  match fuel with
  | O => None
  | S k =>
      match parse_seq k s with
      | Some (r, String "|" rest) =>
          match parse_alt k rest with
          | Some (r', rest') => Some (Alt r r', rest')
          | None => None
          end
      | other => other
      end
  end
with parse_seq (fuel : nat) (s : string) : option (regex * string) :=
  match fuel with
  | O => None
  | S k =>
      match s with
      | EmptyString | String "|" _ | String ")" _ => Some (Eps, s)
      | _ =>
          match parse_atom k s with
          | Some (r, rest) =>
              let (r1, rest1) := postfix r rest in
              match parse_seq k rest1 with
              | Some (r2, rest2) => Some (Seq r1 r2, rest2)
              | None => None
              end
          | None => None
          end
      end
  end
with parse_atom (fuel : nat) (s : string) : option (regex * string) :=
  match fuel with
  | O => None
  | S k =>
      match s with
      | String "(" (String "?" (String "!" rest)) =>
          match parse_alt k rest with
          | Some (r, String ")" rest') => Some (NegLook r, rest')
          | _ => None
          end
      | String "(" (String "?" _) => None
      | String "(" rest =>
          match parse_alt k rest with
          | Some (r, String ")" rest') => Some (r, rest')
          | _ => None
          end
      | String "\" (String c rest) =>
          match escape c with
          | Some r => Some (r, rest)
          | None => None
          end
      | String "." rest => Some (Dot, rest)
      | String c rest => if is_meta c then None else Some (Chr c, rest)
      | EmptyString => None
      end
  end.

(** [re.compile(pattern)]; [None] stands for [re.error] and for syntax
    outside the fragment. *)
Definition compile (pattern : string) : option regex :=
  match parse_alt (3 * String.length pattern + 3) pattern with
  | Some (r, EmptyString) => Some r
  | _ => None
  end.

(** *** Matching *)

Definition mem (i : nat) (l : list nat) : bool := existsb (Nat.eqb i) l.

Definition insert (i : nat) (l : list nat) : list nat :=
  if mem i l then l else i :: l.

(** union of two sets of positions *)
Definition union (l1 l2 : list nat) : list nat := fold_right insert l2 l1.

Definition class_at (p : ascii -> bool) (s : string) (i : nat) : list nat :=
  match String.get i s with
  | Some c => if p c then [S i] else []
  | None => []
  end.

Definition word_at (s : string) (i : nat) : bool :=
  match String.get i s with
  | Some c => PyStr.isword c
  | None => false
  end.

(** [\b]: exactly one of the characters before and after the position
    is a word character (the ends of the text count as non-word). *)
Definition boundary (s : string) (i : nat) : bool :=
  xorb (match i with O => false | S j => word_at s j end) (word_at s i).

Section Closure.
Variable f : nat -> list nat.

Definition image (l : list nat) : list nat :=
  fold_right (fun i acc => union (f i) acc) [] l.

(** the positions reachable from [frontier] by iterating [f], added
    to [seen] *)
Fixpoint closure (fuel : nat) (seen frontier : list nat) : list nat :=
  match fuel with
  | O => seen
  | S k =>
      match List.filter (fun j => negb (mem j seen)) (image frontier) with
      | [] => seen
      | fresh => closure k (seen ++ fresh) fresh
      end
  end.
End Closure.

(** [run r s i]: the positions [j] such that [r] matches [s] from [i]
    to [j].  Letters are compared case-insensitively ([re.IGNORECASE]). *)
Fixpoint run (r : regex) (s : string) (i : nat) : list nat :=
  match r with
  | Eps => [i]
  | Chr c =>
      class_at (fun d => Ascii.eqb (PyStr.lower_char c) (PyStr.lower_char d)) s i
  | Dot => class_at (fun d => negb (Ascii.eqb d "010")) s i
  | Space => class_at PyStr.isspace s i
  | Digit => class_at PyStr.isdigit s i
  | WordB => if boundary s i then [i] else []
  | Seq r1 r2 => image (run r2 s) (run r1 s i)
  | Alt r1 r2 => union (run r1 s i) (run r2 s i)
  | Star r1 => closure (run r1 s) (S (String.length s)) [i] [i]
  | NegLook r1 => match run r1 s i with [] => [i] | _ => [] end
  end.

Definition matches_at (r : regex) (s : string) (i : nat) : bool :=
  match run r s i with [] => false | _ => true end.

(** [re.search(r, s) is not None] *)
Definition search_regex (r : regex) (s : string) : bool :=
  existsb (matches_at r s) (seq 0 (S (String.length s))).

(** [bool(re.search(pattern, s, re.IGNORECASE))] *)
Definition search (pattern s : string) : bool :=
  match compile pattern with
  | Some r => search_regex r s
  | None => false
  end.

End Re.

(** ** Intent classification ([RestaurantChatbot.classify_intent]) *)

Inductive intent : Type :=
| GREETING | MENU_QUERY | CATEGORY_QUERY | ITEM_DETAILS | TRACK_ORDER
| CONFIRM_ORDER | CANCEL_ORDER | ORDER_INTENT | SUPPORT | PERSONA_QUERY
| KB_QUERY | UNKNOWN.

#[global] Instance intent_eq_dec : EqDecision intent.
Proof. solve_decision. Defined.

(** The pattern table, in the order of the source dictionary. *)
Definition INTENT_PATTERNS : list (intent * list string) :=
  [ (GREETING,
      ["\b(hi|hello|hey|good\s*(morning|afternoon|evening)|greetings)\b"]);
    (MENU_QUERY,
      ["\b(menu|show.*menu|what.*have|what.*offer|list.*items|food.*list|available|options)\b"]);
    (CATEGORY_QUERY,
      ["\b(pizza|drink|dessert|side|appetizer|beverage|category)\b"]);
    (ITEM_DETAILS,
      ["\b(tell.*about|describe|what.*is|details|ingredients|info.*about)\b"]);
    (TRACK_ORDER,
      ["\b(track|where.*(is|my)|order\s*(status|#|number)|status.*order|how\s*long|my\s*order)\b"]);
    (CONFIRM_ORDER,
      ["\b(yes|confirm|proceed|place.*order|go\s*ahead|sure|okay|ok|yep|yup)\b"]);
    (CANCEL_ORDER,
      ["\b(cancel|remove|delete|never\s*mind|forget\s*it|don\'?t\s*want)\b"]);
    (ORDER_INTENT,
      ["\b(want|i\'?d\s*like|get\s*me|give\s*me|buy|purchase|add.*cart)\b";
       "\border\b(?!\s*(status|#|number))"]);
    (SUPPORT,
      ["\b(help|support|problem|issue|complaint|speak.*human|manager|wrong)\b"]);
    (PERSONA_QUERY,
      ["\b(who.*are.*you|are.*you.*(real|ai|bot|human)|what.*can.*you.*do|your.*name|do.*you.*eat)\b"]);
    (KB_QUERY,
      ["\b(allergy|allergen|gluten|nutrition|calorie|ingredient|policy|refund|delivery.*time|hours|open|contact|phone|email|promo|deal|discount|coupon|loyalty|reward|custom|modify|topping|history|origin|fact|trivia|dough|rise|yeast|science|reaction|oven|temp|pineapple|deep.*dish|thin.*crust)\b"]) ].

(** [any(re.search(p, text) for p in patterns)] *)
Definition any_pattern (patterns : list string) (text : string) : bool :=
  existsb (fun pattern => Re.search pattern text) patterns.

(** The two nested loops with their [return intent]. *)
Fixpoint first_intent (table : list (intent * list string)) (text : string)
  : option intent :=
  match table with
  | [] => None
  | (i, patterns) :: rest =>
      if any_pattern patterns text then Some i else first_intent rest text
  end.

Definition classify_intent (message : string) : intent :=
  let message_lower := PyStr.strip (PyStr.lower message) in
  match first_intent INTENT_PATTERNS message_lower with
  | Some i => i
  | None => UNKNOWN
  end.

(** ** The knowledge base ([knowledge_base.KnowledgeBase]) *)

(** An entry is the dictionary built by [add_entry]; its keys are fixed. *)
Record entry : Type := Entry {
  e_id : Z;
  e_category : string;
  e_title : string;
  e_content : string;
  e_tags : list string;
  e_version : Z;
  e_created_at : string;
  e_updated_at : string
}.

Record KnowledgeBase : Type := KB {
  entries : list entry;
  _id_counter : Z
}.

(** The transient dictionary [{**entry, "_score": score}] of [search]. *)
Record scored : Type := Scored {
  s_entry : entry;
  _score : Z
}.

(** Python truth value of an optional string or list argument. *)
Definition truthy_str (o : option string) : bool :=
  match o with
  | Some (String _ _) => true
  | _ => false
  end.

Definition truthy_list {A : Type} (o : option (list A)) : bool :=
  match o with
  | Some (_ :: _) => true
  | _ => false
  end.

(** [l[:limit]] *)
Definition slice_to {A : Type} (l : list A) (limit : Z) : list A :=
  if 0 <=? limit then take (Z.to_nat limit) l
  else take (Z.to_nat (Z.of_nat (length l) + limit)) l.

Module KnowledgeBase.

Definition empty : KnowledgeBase := KB [] 0.

(** [created] and [updated] are the two readings of the clock. *)
Definition add_entry (kb : KnowledgeBase) (created updated : string)
    (category title content : string) (tags : option (list string))
  : KnowledgeBase * entry :=
  let counter := _id_counter kb + 1 in
  let e := {| e_id := counter;
              e_category := category;
              e_title := title;
              e_content := content;
              e_tags := if truthy_list tags then default [] tags else [];
              e_version := 1;
              e_created_at := created;
              e_updated_at := updated |} in
  (KB (entries kb ++ [e]) counter, e).

(** [word in tags] *)
Definition in_list (word : string) (l : list string) : bool :=
  existsb (String.eqb word) l.

(** the three loops [for word in query_words: if ...: score += w] *)
Definition add_per_word (w : Z) (test : string -> bool)
    (query_words : list string) (score : Z) : Z :=
  fold_left (fun score word => if test word then score + w else score)
    query_words score.

(** the relevance score computed for one entry *)
Definition score_of (query_lower : string) (query_words : list string)
    (e : entry) : Z :=
  let score := 0 in
  let title_lower := PyStr.lower (e_title e) in
  let content_lower := PyStr.lower (e_content e) in
  let tags := map PyStr.lower (e_tags e) in
  let score :=
    if PyStr.contains query_lower title_lower then score + 50 else score in
  let score :=
    if PyStr.contains query_lower content_lower then score + 30 else score in
  let score := add_per_word 20 (fun word => in_list word tags) query_words score in
  let score :=
    add_per_word 10 (fun word => PyStr.contains word title_lower) query_words score in
  let score :=
    add_per_word 5 (fun word => PyStr.contains word content_lower) query_words score in
  score.

(** [if category and entry["category"] != category: continue] *)
Definition skipped (category : option string) (e : entry) : bool :=
  truthy_str category && negb (String.eqb (e_category e) (default "" category)).

(** the entries that pass the category filter, in store order *)
Definition candidates (kb : KnowledgeBase) (category : option string)
  : list entry :=
  List.filter (fun e => negb (skipped category e)) (entries kb).

(** the loop that fills [results] *)
Fixpoint collect (query_lower : string) (query_words : list string)
    (category : option string) (l : list entry) : list scored :=
  match l with
  | [] => []
  | e :: rest =>
      if skipped category e then collect query_lower query_words category rest
      else
        let score := score_of query_lower query_words e in
        if 0 <? score
        then Scored e score :: collect query_lower query_words category rest
        else collect query_lower query_words category rest
  end.

(** [results.sort(key=lambda x: x["_score"], reverse=True)]: the sort is
    stable, so its result is the one of the insertion sort that puts an
    element before the first later element that does not score higher. *)
Fixpoint insert_desc (x : scored) (l : list scored) : list scored :=
  match l with
  | [] => [x]
  | y :: l' =>
      if _score x <? _score y then y :: insert_desc x l' else x :: l
  end.

Definition sort_desc (l : list scored) : list scored :=
  fold_right insert_desc [] l.

(** [set(query_lower.split())] *)
Definition words_of (query_lower : string) : list string :=
  remove_dups (PyStr.split query_lower).

Definition search (kb : KnowledgeBase) (query : string)
    (category : option string) (limit : Z) : list entry :=
  let query_lower := PyStr.lower query in
  let query_words := words_of query_lower in
  let results := collect query_lower query_words category (entries kb) in
  let results := sort_desc results in
  map s_entry (slice_to results limit).

Definition get_by_category (kb : KnowledgeBase) (category : string)
  : list entry :=
  List.filter (fun e => String.eqb (e_category e) category) (entries kb).

Definition get_by_id (kb : KnowledgeBase) (entry_id : Z) : option entry :=
  List.find (fun e => e_id e =? entry_id) (entries kb).

Definition get_all (kb : KnowledgeBase) : list entry := entries kb.

(** the body of the [if entry["id"] == entry_id] branch of [update_entry] *)
Definition updated (now : string) (title content : option string)
    (tags : option (list string)) (e : entry) : entry :=
  {| e_id := e_id e;
     e_category := e_category e;
     e_title := if truthy_str title then default "" title else e_title e;
     e_content := if truthy_str content then default "" content else e_content e;
     e_tags := if truthy_list tags then default [] tags else e_tags e;
     e_version := e_version e + 1;
     e_created_at := e_created_at e;
     e_updated_at := now |}.

Fixpoint update_in (now : string) (entry_id : Z) (title content : option string)
    (tags : option (list string)) (l : list entry)
  : list entry * option entry :=
  match l with
  | [] => ([], None)
  | e :: rest =>
      if e_id e =? entry_id
      then let e' := updated now title content tags e in (e' :: rest, Some e')
      else
        let (rest', r) := update_in now entry_id title content tags rest in
        (e :: rest', r)
  end.

Definition update_entry (kb : KnowledgeBase) (now : string) (entry_id : Z)
    (title content : option string) (tags : option (list string))
  : KnowledgeBase * option entry :=
  let (l, r) := update_in now entry_id title content tags (entries kb) in
  (KB l (_id_counter kb), r).

Fixpoint delete_in (entry_id : Z) (l : list entry) : list entry * bool :=
  match l with
  | [] => ([], false)
  | e :: rest =>
      if e_id e =? entry_id then (rest, true)
      else let (rest', r) := delete_in entry_id rest in (e :: rest', r)
  end.

Definition delete_entry (kb : KnowledgeBase) (entry_id : Z)
  : KnowledgeBase * bool :=
  let (l, r) := delete_in entry_id (entries kb) in
  (KB l (_id_counter kb), r).

End KnowledgeBase.

(** A small store, built with [add_entry] as the seeding does. *)
Definition sample_kb : KnowledgeBase :=
  let kb := KnowledgeBase.empty in
  let kb := fst (KnowledgeBase.add_entry kb "2024-01-01T00:00:00" "2024-01-01T00:00:00"
                   "nutrition" "Allergen Information"
                   "Our dough has gluten and the pesto has nuts."
                   (Some ["gluten"; "allergy"])) in
  let kb := fst (KnowledgeBase.add_entry kb "2024-01-01T00:00:00" "2024-01-01T00:00:00"
                   "menu" "Gluten free base"
                   "Every pizza can be made on a base without gluten." None) in
  let kb := fst (KnowledgeBase.add_entry kb "2024-01-01T00:00:00" "2024-01-01T00:00:00"
                   "policies" "Refunds" "Refunds are paid within three days."
                   (Some ["refund"])) in
  kb.

(** ** The chatbot ([chatbot.RestaurantChatbot]) *)

Section Chatbot.

(** The numeric type of prices and amounts, with the operations the
    handlers use: the integer [0] that starts a sum, addition, and the
    product of a price by an integer quantity, [None] when the product
    raises [OverflowError]. *)
Context {num : Type} {num_eq_dec : EqDecision num}.
Variable num_zero : num.
Variable num_add : num -> num -> num.
Variable num_mul : num -> Z -> option num.

(** a record of the menu snapshot built by the host *)
Record menu_item : Type := MenuItem {
  mi_id : Z;
  mi_item : string;
  mi_price : num;
  mi_category : string;
  mi_description : option string;
  mi_ingredients : option string
}.

#[global] Instance menu_item_eq_dec : EqDecision menu_item.
Proof. solve_decision. Defined.

(** a record of the order snapshot built by the host *)
Record order_rec : Type := Order {
  o_id : Z;
  o_status : string;
  o_total_amount : num;
  o_customer_phone : option string;
  o_created_at : option string
}.

(** a line of the cart: the dictionary [cart_item] *)
Record cart_item : Type := CartItem {
  menu_item_id : Z;
  ci_item : string;
  ci_price : num;
  quantity : Z
}.

(** the per-user dictionary of [get_user_context]; [pending_order] and
    [order_history] are never written after creation *)
Record context : Type := Context {
  cart : list cart_item;
  pending_order : option unit;
  last_intent : option intent;
  order_history : list unit
}.

Definition new_context : context :=
  {| cart := []; pending_order := None; last_intent := None;
     order_history := [] |}.

Definition get_user_context (user_contexts : gmap string context)
    (user_id : string) : gmap string context * context :=
  match user_contexts !! user_id with
  | Some c => (user_contexts, c)
  | None => (<[user_id := new_context]> user_contexts, new_context)
  end.

(** *** Menu item extraction *)

(** [if item not in found_items: found_items.append(item)] *)
Definition add_found (item : menu_item) (found_items : list menu_item)
  : list menu_item :=
  if bool_decide (item ∈ found_items) then found_items
  else found_items ++ [item].

Definition long_word (word : string) : bool :=
  (3 <? String.length word)%nat.

(** the body of the loop over [menu_items] *)
Definition check_item (message_normalized : string) (item : menu_item)
    (found_items : list menu_item) : list menu_item :=
  let item_name_lower := PyStr.lower (mi_item item) in
  let item_words := PyStr.split item_name_lower in
  if PyStr.contains item_name_lower message_normalized
  then add_found item found_items
  else
    let main_name := hd "" item_words in
    if long_word main_name && PyStr.contains main_name message_normalized
    then add_found item found_items
    else
      let found_items :=
        if existsb (fun word => long_word word
                                && PyStr.contains word message_normalized)
             item_words
        then add_found item found_items
        else found_items in
      if (2 <=? length item_words)%nat
      then
        let compound := PyStr.join " " (take 2 item_words) in
        if PyStr.contains compound message_normalized
        then add_found item found_items
        else found_items
      else found_items.

Definition extract_menu_items (message : string) (menu_items : list menu_item)
  : list menu_item :=
  let message_lower := PyStr.strip (PyStr.lower message) in
  let message_normalized := PyStr.squeeze message_lower in
  fold_left (fun found_items item => check_item message_normalized item found_items)
    menu_items [].

(** *** Replies *)

(** the [data] dictionary of a reply, one constructor per shape *)
Inductive payload : Type :=
| DataItems (items : list menu_item)
| DataCategory (category : option string)
| DataItem (item : menu_item)
| DataCart (cart : list cart_item)
| DataConfirm (cart : list cart_item) (total : num) (requires_details : bool)
| DataOrder (o : order_rec)
| DataEntries (entries : list entry).

(** the response text, one constructor per template; the texts of an
    order and of an order that was not found print its number *)
Inductive response : Type :=
| RPersona (e : entry)
| RPersonaDefault
| RGreeting
| RMenu (items : list menu_item) (category : option string)
| RItem (item : menu_item)
| RItemNotFound
| RAddedToCart (cart : list cart_item)
| RWhatToOrder
| ROrderConfirmed (cart : list cart_item)
| RCartEmpty
| RCartCleared
| RNothingToCancel
| ROrderStatus (o : order_rec)
| ROrderNotFound (order_id : Z)
| RNoOrdersFound
| RNoOrdersYet
| RKnowledge (result : entry) (related : option entry)
| RKnowledgeFallback
| RSupport
| RHelp.

Record reply : Type := Reply {
  r_response : response;
  action : option string;
  data : option payload
}.

(** *** The handlers *)

Definition known_categories : list string :=
  ["pizza"; "drink"; "dessert"; "side"; "appetizer"; "beverage"].

(** The sum of the products [price * quantity] of the lines, line by
    line from [total]; the first product that cannot be computed raises. *)
Fixpoint sum_from (total : num) (c : list cart_item) : outcome num :=
  match c with
  | [] => Returned total
  | i :: rest =>
      match num_mul (ci_price i) (quantity i) with
      | Some subtotal => sum_from (num_add total subtotal) rest
      | None => Raised OverflowError
      end
  end.

(** [sum(i["price"] * i["quantity"] for i in cart)] *)
Definition cart_total (c : list cart_item) : outcome num :=
  sum_from num_zero c.

(** The loop of [format_cart_response]: for each line the subtotal
    [price * quantity] is computed and added to the total, then the line
    is written, which prints the quantity. *)
Fixpoint cart_lines (total : num) (c : list cart_item) : outcome num :=
  match c with
  | [] => Returned total
  | i :: rest =>
      match num_mul (ci_price i) (quantity i) with
      | Some subtotal =>
          if PyStr.printable (quantity i)
          then cart_lines (num_add total subtotal) rest
          else Raised ValueError
      | None => Raised OverflowError
      end
  end.

(** [format_cart_response(cart)].  The text lists the lines of the cart
    with their quantities and subtotals and ends with the total: it is
    determined by the cart, and [Returned c] stands for the text written
    for the cart [c] (the line that the cart is empty, for the empty one).
    The call raises when a subtotal cannot be computed or a quantity
    cannot be printed. *)
Definition format_cart_response (c : list cart_item)
  : outcome (list cart_item) :=
  match cart_lines num_zero c with
  | Returned _ => Returned c
  | Raised e => Raised e
  end.

(** [existing = next(...)] followed by [existing["quantity"] += quantity]:
    the first line with this identifier is updated in place; [None] when
    there is no such line. *)
Fixpoint bump (item_id : Z) (q : Z) (c : list cart_item)
  : option (list cart_item) :=
  match c with
  | [] => None
  | i :: rest =>
      if menu_item_id i =? item_id
      then Some ({| menu_item_id := menu_item_id i; ci_item := ci_item i;
                    ci_price := ci_price i; quantity := quantity i + q |}
                 :: rest)
      else option_map (cons i) (bump item_id q rest)
  end.

(** the body of the loop over [found_items] *)
Definition add_to_cart (q : Z) (c : list cart_item) (item : menu_item)
  : list cart_item :=
  let new_line := {| menu_item_id := mi_id item; ci_item := mi_item item;
                     ci_price := mi_price item; quantity := q |} in
  match bump (mi_id item) q c with
  | Some c' => c'
  | None => c ++ [new_line]
  end.

(** [str(o.get("customer_phone"))] *)
Definition phone_str (o : order_rec) : string :=
  default "None" (o_customer_phone o).

(** [re.search(r'#?(\d+)', message)] and [int(group(1))]: the leftmost
    match ends with the first maximal run of digits of the message. *)
Definition order_id_of (message : string) : outcome (option Z) :=
  match PyStr.findall_digits message with
  | first :: _ =>
      match PyStr.int first with
      | Returned n => Returned (Some n)
      | Raised e => Raised e
      end
  | [] => Returned None
  end.

(** the order selected by the TRACK_ORDER handler on a non-empty
    snapshot, for the order number read from the message *)
Definition target_order (order_id : option Z) (user_id : string)
    (orders : list order_rec) : option order_rec :=
  match order_id with
  | Some n =>
      if negb (n =? 0)
      then List.find (fun o => o_id o =? n) orders
      else
        let user_orders :=
          List.filter (fun o => String.eqb (phone_str o) user_id) orders in
        match user_orders with
        | _ :: _ => last user_orders
        | [] => head orders
        end
  | None =>
      let user_orders :=
        List.filter (fun o => String.eqb (phone_str o) user_id) orders in
      match user_orders with
      | _ :: _ => last user_orders
      | [] => head orders
      end
  end.

Definition set_last_intent (c : context) (i : intent) : context :=
  {| cart := cart c; pending_order := pending_order c;
     last_intent := Some i; order_history := order_history c |}.

Definition set_cart (c : context) (l : list cart_item) : context :=
  {| cart := l; pending_order := pending_order c;
     last_intent := last_intent c; order_history := order_history c |}.

(** the dispatch on the intent: the context after the handler, and the
    reply or the exception raised *)
Definition handle (kb : KnowledgeBase) (i : intent) (c : context)
    (message user_id : string) (menu_items : list menu_item)
    (orders : option (list order_rec)) : context * outcome reply :=
  match i with
  | PERSONA_QUERY =>
      match KnowledgeBase.search kb message (Some "persona") 1 with
      | e :: _ =>
          (c, Returned (Reply (RPersona e) (Some "persona_response") None))
      | [] =>
          (c, Returned (Reply RPersonaDefault (Some "persona_response") None))
      end
  | GREETING => (c, Returned (Reply RGreeting None None))
  | MENU_QUERY =>
      (c, Returned (Reply (RMenu menu_items None) (Some "show_menu")
                      (Some (DataItems menu_items))))
  | CATEGORY_QUERY =>
      let message_lower := PyStr.lower message in
      let category :=
        option_map PyStr.capitalize
          (List.find (fun cat => PyStr.contains cat message_lower)
             known_categories) in
      (c, Returned (Reply (RMenu menu_items category) (Some "show_category")
                      (Some (DataCategory category))))
  | ITEM_DETAILS =>
      match extract_menu_items message menu_items with
      | item :: _ =>
          (c, Returned (Reply (RItem item) (Some "show_item")
                          (Some (DataItem item))))
      | [] => (c, Returned (Reply RItemNotFound None None))
      end
  | ORDER_INTENT =>
      let found_items := extract_menu_items message menu_items in
      match extract_quantity message with
      | Raised e => (c, Raised e)
      | Returned q =>
          match found_items with
          | _ :: _ =>
              let c' :=
                set_cart c (fold_left (add_to_cart q) found_items (cart c)) in
              match format_cart_response (cart c') with
              | Raised e => (c', Raised e)
              | Returned shown =>
                  (c', Returned (Reply (RAddedToCart shown) (Some "add_to_cart")
                                   (Some (DataCart (cart c')))))
              end
          | [] => (c, Returned (Reply RWhatToOrder None None))
          end
      end
  | CONFIRM_ORDER =>
      match cart c with
      | _ :: _ =>
          match cart_total (cart c) with
          | Raised e => (c, Raised e)
          | Returned total =>
              match format_cart_response (cart c) with
              | Raised e => (c, Raised e)
              | Returned shown =>
                  (c, Returned (Reply (ROrderConfirmed shown)
                                  (Some "confirm_order")
                                  (Some (DataConfirm (cart c) total true))))
              end
          end
      | [] => (c, Returned (Reply RCartEmpty None None))
      end
  | CANCEL_ORDER =>
      match cart c with
      | _ :: _ =>
          (set_cart c [],
           Returned (Reply RCartCleared (Some "clear_cart") None))
      | [] => (c, Returned (Reply RNothingToCancel None None))
      end
  | TRACK_ORDER =>
      match orders with
      | Some ((_ :: _) as os) =>
          match order_id_of message with
          | Raised e => (c, Raised e)
          | Returned order_id =>
              match target_order order_id user_id os with
              | Some o =>
                  if PyStr.printable (o_id o)
                  then (c, Returned (Reply (ROrderStatus o)
                                       (Some "show_order_status")
                                       (Some (DataOrder o))))
                  else (c, Raised ValueError)
              | None =>
                  match order_id with
                  | Some n =>
                      if negb (n =? 0)
                      then
                        if PyStr.printable n
                        then (c, Returned (Reply (ROrderNotFound n) None None))
                        else (c, Raised ValueError)
                      else (c, Returned (Reply RNoOrdersFound None None))
                  | None => (c, Returned (Reply RNoOrdersFound None None))
                  end
              end
          end
      | _ => (c, Returned (Reply RNoOrdersYet None None))
      end
  | KB_QUERY =>
      match KnowledgeBase.search kb message None 2 with
      | result :: more =>
          (c, Returned (Reply (RKnowledge result (head more))
                          (Some "kb_response")
                          (Some (DataEntries (result :: more)))))
      | [] =>
          (c, Returned (Reply RKnowledgeFallback (Some "kb_fallback") None))
      end
  | SUPPORT => (c, Returned (Reply RSupport (Some "support") None))
  | UNKNOWN => (c, Returned (Reply RHelp None None))
  end.

(** [process_message]: the session map after the call, and the reply or
    the exception raised.  The context is a dictionary shared with the
    map, so every write to it is a write to the map, also when the call
    raises afterwards. *)
Definition process_message (kb : KnowledgeBase)
    (user_contexts : gmap string context) (message user_id : string)
    (menu_items : list menu_item) (orders : option (list order_rec))
  : gmap string context * outcome reply :=
  let (user_contexts, c) := get_user_context user_contexts user_id in
  let i := classify_intent message in
  let c := set_last_intent c i in
  let (c, r) := handle kb i c message user_id menu_items orders in
  (<[user_id := c]> user_contexts, r).

(** The host's write [chatbot.user_contexts[user_id]["cart"] = []] after
    it has stored a confirmed order. *)
Definition clear_cart (user_contexts : gmap string context)
    (user_id : string) : gmap string context :=
  match user_contexts !! user_id with
  | Some c => <[user_id := set_cart c []]> user_contexts
  | None => user_contexts
  end.

End Chatbot.

(** ** Python floats *)

(** The floats of the interpreter: the binary64 format of IEEE 754, with
    rounding to nearest, ties to even. *)
Module PyFloat.

Definition float : Type := spec_float.

#[global] Instance float_eq_dec : EqDecision float.
Proof. solve_decision. Defined.

Definition prec : Z := 53.
Definition emax : Z := 1024.

(** [float(q)] for an integer [q]: the nearest float, and [None], for
    [OverflowError], when that is beyond the largest float. *)
Definition of_int (q : Z) : option float :=
  match binary_normalize prec emax q 0 false with
  | S754_infinity _ => None
  | x => Some x
  end.

(** the integer [0] that starts a sum, as the float it is added as *)
Definition zero : float := S754_zero false.

(** [x + y] *)
Definition add : float -> float -> float := SFadd prec emax.

(** [x * q] for a float [x] and an integer [q]: [q] is converted, which
    can raise, and the product of the two floats is rounded; a product
    beyond the largest float is an infinity, not an exception. *)
Definition mul (x : float) (q : Z) : option float :=
  option_map (SFmul prec emax x) (of_int q).

End PyFloat.

(** A menu and an order snapshot for the examples, with the prices 12.99,
    15.99 and 1.99 (the floats nearest to them).  The snapshot is sorted by
    creation time, newest first. *)
Definition price_12_99 : PyFloat.float :=
  S754_finite false 7312719894942843 (-49).

Definition price_15_99 : PyFloat.float :=
  S754_finite false 9001569755206779 (-49).

Definition price_1_99 : PyFloat.float :=
  S754_finite false 8962163258467287 (-52).

Definition sample_menu : list (@menu_item PyFloat.float) :=
  [ MenuItem 1 "Margherita Pizza" price_12_99 "Pizza" (Some "Classic") None;
    MenuItem 2 "BBQ Chicken Pizza" price_15_99 "Pizza" None None;
    MenuItem 3 "Cola" price_1_99 "Drink" None None ].

Definition order_new : @order_rec PyFloat.float :=
  Order 2 "Pending" price_12_99 (Some "555") (Some "2024-01-02T10:00:00").

Definition order_old : @order_rec PyFloat.float :=
  Order 1 "Delivered" price_15_99 (Some "555") (Some "2024-01-01T10:00:00").

Definition sample_orders : list (@order_rec PyFloat.float) :=
  [order_new; order_old].


(** ** The menu text and the chat endpoint *)

Section Host.

Context {num : Type} {num_eq_dec : EqDecision num}.
Variable num_zero : num.
Variable num_add : num -> num -> num.
Variable num_mul : num -> Z -> option num.

(** [format_menu_response], first step: the items kept, those whose
    lower-cased category is the lower-cased one asked for, or all of them
    when no category (or an empty one) is given. *)
Definition selected_items (menu_items : list (@menu_item num))
    (category : option string) : list menu_item :=
  if truthy_str category
  then List.filter
         (fun i => String.eqb (PyStr.lower (mi_category i))
                     (PyStr.lower (default "" category)))
         menu_items
  else menu_items.

(** [if cat not in categories: categories[cat] = []] followed by
    [categories[cat].append(item)], on a dictionary in insertion order. *)
Fixpoint group_add (cat : string) (item : @menu_item num)
    (categories : list (string * list menu_item))
  : list (string * list menu_item) :=
  match categories with
  | [] => [(cat, [item])]
  | (k, l) :: rest =>
      if String.eqb k cat then (k, l ++ [item]) :: rest
      else (k, l) :: group_add cat item rest
  end.

(** the loop [for item in items] that groups by category *)
Definition group_by_category (items : list (@menu_item num))
  : list (string * list menu_item) :=
  fold_left (fun categories item => group_add (mi_category item) item categories)
    items [].

(** What [format_menu_response] writes: [None] for the line that no item
    was found, otherwise the sections of the menu in order, each a
    category with its items. *)
Definition menu_sections (menu_items : list (@menu_item num))
    (category : option string) : option (list (string * list menu_item)) :=
  match selected_items menu_items category with
  | [] => None
  | items => Some (group_by_category items)
  end.

(** The order that the [/chat] endpoint stores, with its lines
    (item identifier, quantity, price). *)
Record stored_order : Type := StoredOrder {
  so_customer_name : string;
  so_customer_phone : option string;
  so_total_amount : num;
  so_status : string;
  so_items : list (Z * Z * num)
}.

(** What the function [chat] returns: the reply of the chatbot as it is,
    or, when it has stored an order, that reply with the identifier of the
    order added to its data and the text replaced by the order summary,
    which prints the identifier. *)
Inductive chat_response : Type :=
| Forwarded (r : @reply num)
| OrderPlaced (r : @reply num) (order_id : Z) (total : num).

(** What the database does with the two commits of the endpoint: the
    identifier it gives to the new order, or [None] when it refuses the
    commit of the order; and whether it accepts the commit of the lines of
    the order. *)
Record db_commits : Type := DbCommits {
  db_order_id : option Z;
  db_lines : bool
}.

(** [message.user_id or "anonymous"] *)
Definition chat_user (user_id : option string) : string :=
  if truthy_str user_id then default "" user_id else "anonymous".

(** [result["data"].get("cart", [])] *)
Definition payload_cart (d : @payload num) : list cart_item :=
  match d with
  | DataCart c => c
  | DataConfirm c _ _ => c
  | _ => []
  end.

(** The [/chat] endpoint, on the sessions of the chatbot: the session map
    after the request, the answer or the exception that ends the request,
    and the order stored in the database, if any, with the lines stored.
    [menu_data] and [orders_data] are the rows read from the database and
    [db] is what the database does with the commits.  The total is the
    same sum as in the handler, [sum(item["price"] * item["quantity"] for
    item in cart)]; the cart of the user is emptied after the second
    commit, and the order summary is written after that. *)
Definition chat (kb : KnowledgeBase) (user_contexts : gmap string (@context num))
    (message : string) (user_id : option string)
    (menu_data : list menu_item) (orders_data : list order_rec)
    (db : db_commits)
  : gmap string context * outcome chat_response * option stored_order :=
  let user_id := chat_user user_id in
  let (user_contexts, result) :=
    process_message num_zero num_add num_mul kb user_contexts message user_id
      menu_data (Some orders_data) in
  match result with
  | Raised e => (user_contexts, Raised e, None)
  | Returned result =>
      match action result, data result with
      | Some a, Some d =>
          if String.eqb a "confirm_order"
          then
            match payload_cart d with
            | (_ :: _) as c =>
                match cart_total num_zero num_add num_mul c with
                | Raised e => (user_contexts, Raised e, None)
                | Returned total =>
                    let db_order items :=
                      {| so_customer_name := "Chat User (" +:+ user_id +:+ ")";
                         so_customer_phone :=
                           if String.eqb user_id "anonymous" then None
                           else Some user_id;
                         so_total_amount := total;
                         so_status := "Pending";
                         so_items := items |} in
                    match db_order_id db with
                    | None => (user_contexts, Raised DatabaseError, None)
                    | Some order_id =>
                        if db_lines db
                        then
                          (clear_cart user_contexts user_id,
                           if PyStr.printable order_id
                           then Returned (OrderPlaced result order_id total)
                           else Raised ValueError,
                           Some (db_order
                                   (map (fun item =>
                                           (menu_item_id item, quantity item,
                                            ci_price item))
                                      c)))
                        else
                          (user_contexts, Raised DatabaseError,
                           Some (db_order []))
                    end
                end
            | [] => (user_contexts, Returned (Forwarded result), None)
            end
          else (user_contexts, Returned (Forwarded result), None)
      | _, _ => (user_contexts, Returned (Forwarded result), None)
      end
  end.

End Host.

(** * Properties *)

(** ** Vocabulary of the statements *)

(** [w] occurs in [s] as a contiguous piece, anywhere. *)
Definition occurs (w s : string) : Prop :=
  exists pre post, s = pre +:+ w +:+ post.

Definition digit_free (s : string) : Prop :=
  PyStr.all_chars (fun c => negb (PyStr.isdigit c)) s = true.

Definition all_digits (s : string) : Prop :=
  PyStr.all_chars PyStr.isdigit s = true.

(** [post] does not continue a run of digits. *)
Definition ends_run (post : string) : Prop :=
  match post with
  | EmptyString => True
  | String c _ => PyStr.isdigit c = false
  end.

(** [ds] is the first maximal run of decimal digits of [m]. *)
Definition first_digit_run (m ds : string) : Prop :=
  exists pre post,
    m = pre +:+ ds +:+ post /\ digit_free pre /\ ds <> EmptyString /\
    all_digits ds /\ ends_run post.

(** The number that a run of digits writes. *)
Definition digits_value (ds : string) : Z := PyStr.int_go 0 ds.

(** A run of digits that [int] reads: it has at most 4300 digits. *)
Definition readable (ds : string) : Prop :=
  Z.of_nat (String.length ds) <= PyStr.max_str_digits.

(** The text made of [n] times the character [c]. *)
Fixpoint run_of (c : ascii) (n : nat) : string :=
  match n with
  | O => EmptyString
  | S n' => String c (run_of c n')
  end.

(** A message that orders 10 to the power 400 pizzas. *)
Definition huge_order : string :=
  "order 1" +:+ run_of "0" 400 +:+ " margherita".

(** No word of the table occurs in the text. *)
Definition no_word (table : list (string * Z)) (text : string) : Prop :=
  Forall (fun wv => ~ occurs (fst wv) text) table.

(** [v] is the value of the first word of the table, in table order, that
    occurs in the text. *)
Definition first_word (table : list (string * Z)) (text : string) (v : Z)
  : Prop :=
  exists before w after,
    table = before ++ (w, v) :: after /\ occurs w text /\ no_word before text.

(** The entries of the store that pass the category filter with a
    positive score, in store order. *)
Definition hits (kb : KnowledgeBase) (query_lower : string)
    (query_words : list string) (category : option string) : list entry :=
  List.filter
    (fun e => negb (KnowledgeBase.skipped category e)
              && (0 <? KnowledgeBase.score_of query_lower query_words e))
    (entries kb).

(** The entries of [l] whose score is [v], in the order of [l]. *)
Definition with_score (sc : entry -> Z) (v : Z) (l : list entry) : list entry :=
  List.filter (fun e => sc e =? v) l.

(** [x] is ranked no lower than [y]. *)
Definition outranks (sc : entry -> Z) (x y : entry) : Prop := sc y <= sc x.

(** The value of a field after [update_entry]: the supplied one when it
    is supplied and not empty, the stored one otherwise. *)
Definition supplied_str (o : option string) (old : string) : string :=
  match o with
  | Some (String c s) => String c s
  | _ => old
  end.

Definition supplied_list (o : option (list string)) (old : list string)
  : list string :=
  match o with
  | Some (x :: l) => x :: l
  | _ => old
  end.

(** The creation time of an order, as the ISO text of the snapshot. *)
Definition created {num : Type} (o : @order_rec num) : string :=
  default "" (o_created_at o).

(** The snapshot is sorted by creation time, newest first. *)
Definition newest_first {num : Type} (orders : list (@order_rec num)) : Prop :=
  StronglySorted (fun a b => String.leb (created b) (created a) = true) orders.

(** The session of a user: the stored one, or the fresh one that the
    first message of the user creates. *)
Definition session_of {num : Type} (user_contexts : gmap string (@context num))
    (user_id : string) : @context num :=
  default new_context (user_contexts !! user_id).

(** The lines of a cart have pairwise distinct item identifiers and no
    negative quantity. *)
Definition cart_ok {num : Type} (c : list (@cart_item num)) : Prop :=
  NoDup (map menu_item_id c) /\ Forall (fun i => 0 <= quantity i) c.

(** What a compiled pattern denotes on a text [s]: the pairs of positions
    between which it matches. *)
Fixpoint denotes (s : string) (r : Re.regex) (i j : nat) : Prop :=
  match r with
  | Re.Eps => j = i
  | Re.Chr c =>
      exists d, String.get i s = Some d /\
                PyStr.lower_char c = PyStr.lower_char d /\ j = S i
  | Re.Dot => exists d, String.get i s = Some d /\ d <> "010"%char /\ j = S i
  | Re.Space =>
      exists d, String.get i s = Some d /\ PyStr.isspace d = true /\ j = S i
  | Re.Digit =>
      exists d, String.get i s = Some d /\ PyStr.isdigit d = true /\ j = S i
  | Re.WordB => j = i /\ Re.boundary s i = true
  | Re.Seq r1 r2 => exists k, denotes s r1 i k /\ denotes s r2 k j
  | Re.Alt r1 r2 => denotes s r1 i j \/ denotes s r2 i j
  | Re.Star r1 => rtc (denotes s r1) i j
  | Re.NegLook r1 => j = i /\ forall k, ~ denotes s r1 i k
  end.

(** [re.search] finds a match of the pattern: the pattern compiles and it
    matches between some position of the text and a later one. *)
Definition pattern_matches (pattern text : string) : Prop :=
  exists r i j,
    Re.compile pattern = Some r /\ (i <= String.length text)%nat /\
    denotes text r i j.

(** Some pattern of the category matches the text. *)
Definition category_matches (patterns : list string) (text : string) : Prop :=
  exists pattern, In pattern patterns /\ pattern_matches pattern text.

(** No category of the table matches the text. *)
Definition none_matches (table : list (intent * list string)) (text : string)
  : Prop :=
  Forall (fun ip => ~ category_matches (snd ip) text) table.

(** [x] precedes [y] in a list sorted by score, highest first. *)
Definition score_ge (x y : scored) : Prop := _score y <= _score x.

(** The score recorded in a transient result is the score of its entry. *)
Definition faithful (sc : entry -> Z) (x : scored) : Prop :=
  _score x = sc (s_entry x).

Section Sessions.

Context {num : Type} {num_eq_dec : EqDecision num}.
Variable num_zero : num.
Variable num_add : num -> num -> num.
Variable num_mul : num -> Z -> option num.

(** The session maps the chatbot can hold: it starts with no session, and
    changes by the messages it processes, whether the call returns or
    raises, and by the host emptying the cart of a user after it has stored
    a confirmed order. *)
Inductive reachable : gmap string (@context num) -> Prop :=
| reach_start : reachable ∅
| reach_message (st : gmap string context) (kb : KnowledgeBase)
    (message user_id : string) (menu_items : list menu_item)
    (orders : option (list order_rec)) :
    reachable st ->
    reachable
      (fst (process_message num_zero num_add num_mul kb st message user_id
              menu_items orders))
| reach_clear (st : gmap string context) (user_id : string) :
    reachable st -> reachable (clear_cart st user_id).

(** Every product of price and quantity of the cart can be computed. *)
Definition priced (c : list (@cart_item num)) : Prop :=
  Forall (fun i => is_Some (num_mul (ci_price i) (quantity i))) c.

End Sessions.

(** Every quantity of the cart can be printed. *)
Definition printed {num : Type} (c : list (@cart_item num)) : Prop :=
  Forall (fun i => PyStr.printable (quantity i) = true) c.

(** A text made of blanks only. *)
Definition blank (s : string) : Prop := PyStr.all_chars PyStr.isspace s = true.

(** The message text mentions the menu item: its whole lower-cased name
    occurs in it, or a word of the name longer than 3 characters, or the
    first two words of the name joined by a space. *)
Definition mentions {num : Type} (text : string) (item : @menu_item num) : Prop :=
  let name := PyStr.lower (mi_item item) in
  let words := PyStr.split name in
  occurs name text
  \/ (exists word, In word words /\ (3 < String.length word)%nat /\
                   occurs word text)
  \/ ((2 <= length words)%nat /\ occurs (PyStr.join " " (take 2 words)) text).

(** The text in which [extract_menu_items] looks for the items. *)
Definition normalized (message : string) : string :=
  PyStr.squeeze (PyStr.strip (PyStr.lower message)).


(** The stores the knowledge base can hold: the empty one, changed by
    [add_entry], [update_entry] and [delete_entry]. *)
Inductive reachable_kb : KnowledgeBase -> Prop :=
| kb_start : reachable_kb KnowledgeBase.empty
| kb_add (kb : KnowledgeBase) (created updated category title content : string)
    (tags : option (list string)) :
    reachable_kb kb ->
    reachable_kb
      (fst (KnowledgeBase.add_entry kb created updated category title content tags))
| kb_update (kb : KnowledgeBase) (now : string) (entry_id : Z)
    (title content : option string) (tags : option (list string)) :
    reachable_kb kb ->
    reachable_kb (fst (KnowledgeBase.update_entry kb now entry_id title content tags))
| kb_delete (kb : KnowledgeBase) (entry_id : Z) :
    reachable_kb kb -> reachable_kb (fst (KnowledgeBase.delete_entry kb entry_id)).

(** The identifiers of a store grow along it and are between 1 and the
    counter; every version is at least 1. *)
Definition kb_ok (kb : KnowledgeBase) : Prop :=
  StronglySorted Z.lt (map e_id (entries kb))
  /\ Forall (fun e => 1 <= e_id e <= _id_counter kb /\ 1 <= e_version e)
       (entries kb)
  /\ 0 <= _id_counter kb.

(** [mentions], as the four checks of [extract_menu_items] decide it. *)
Definition mentionsb {num : Type} (text : string) (item : @menu_item num) : bool :=
  let name := PyStr.lower (mi_item item) in
  let words := PyStr.split name in
  PyStr.contains name text
  || existsb (fun word => long_word word && PyStr.contains word text) words
  || ((2 <=? length words)%nat
      && PyStr.contains (PyStr.join " " (take 2 words)) text).

(** A text that does not start with a blank. *)
Definition headed (s : string) : Prop :=
  match s with
  | EmptyString => True
  | String c _ => PyStr.isspace c = false
  end.

(** The cart that the [/chat] endpoint takes from a reply to store an
    order: the one of the data, when the action is [confirm_order]. *)
Definition confirmed_cart {num : Type} (r : @reply num) : list cart_item :=
  match action r, data r with
  | Some a, Some d => if String.eqb a "confirm_order" then payload_cart d else []
  | _, _ => []
  end.

(** The keys of a list in the order of their first appearance. *)
Definition first_seen (l : list string) : list string :=
  fold_left
    (fun acc k => if existsb (String.eqb k) acc then acc else acc ++ [k]) l [].

(** The pattern of TRACK_ORDER in the table. *)
Definition track_pattern : string :=
  "\b(track|where.*(is|my)|order\s*(status|#|number)|status.*order|how\s*long|my\s*order)\b".

(** The word between [pre] and [post] is not continued on either side:
    [pre] is empty or ends with a character that is not a word character,
    and [post] is empty or starts with one. *)
Definition delimited (pre post : string) : Prop :=
  (pre = "" \/ exists p c, pre = p +:+ String c "" /\ PyStr.isword c = false)
  /\ (post = "" \/ exists c p, post = String c p /\ PyStr.isword c = false).

(** The number of words that pass a test. *)
Definition count_words (test : string -> bool) (words : list string) : Z :=
  Z.of_nat (length (List.filter test words)).

(** The query says something about the entry: the whole lower-cased
    query occurs in its title or content, or one of its words is a tag of
    the entry or occurs in its title or content (all lower-cased). *)
Definition relevant (query_lower : string) (e : entry) : Prop :=
  let title := PyStr.lower (e_title e) in
  let content := PyStr.lower (e_content e) in
  occurs query_lower title \/ occurs query_lower content
  \/ exists word,
       In word (PyStr.split query_lower)
       /\ (In word (map PyStr.lower (e_tags e)) \/ occurs word title
           \/ occurs word content).

(** ** Strings *)

Lemma app_nil_l (s : string) : "" +:+ s = s.
Proof. reflexivity. Qed.

Lemma app_cons (c : ascii) (s t : string) :
  String c s +:+ t = String c (s +:+ t).
Proof. reflexivity. Qed.

Lemma app_nil_r (s : string) : s +:+ "" = s.
Proof. induction s as [|c s IH]; [reflexivity|]. rewrite app_cons, IH. reflexivity. Qed.

Lemma app_assoc (a b c : string) : (a +:+ b) +:+ c = a +:+ b +:+ c.
Proof.
  induction a as [|x a IH]; [reflexivity|].
  rewrite !app_cons, IH. reflexivity.
Qed.

Lemma app_eq_nil (a b : string) : a +:+ b = "" -> a = "" /\ b = "".
Proof. destruct a; [rewrite app_nil_l; auto | rewrite app_cons; discriminate]. Qed.

Lemma startswith_spec (p s : string) :
  PyStr.startswith p s = true <-> exists post, s = p +:+ post.
Proof.
  revert s. induction p as [|a p IH]; intros s; simpl.
  - split; [intros _; exists s; reflexivity | reflexivity].
  - destruct s as [|b s].
    + split; [discriminate | intros [post H]; rewrite app_cons in H; discriminate].
    + rewrite andb_true_iff, IH, Ascii.eqb_eq. split.
      * intros [-> [post ->]]. exists post. reflexivity.
      * intros [post H]. rewrite app_cons in H. injection H as -> ->. eauto.
Qed.

Lemma contains_spec (p s : string) :
  PyStr.contains p s = true <-> occurs p s.
Proof.
  unfold occurs. induction s as [|c s IH]; simpl.
  - rewrite orb_false_r, startswith_spec. split.
    + intros [post H]. exists "", post. exact H.
    + intros (pre & post & H). symmetry in H.
      apply app_eq_nil in H as [-> H]. exists post. exact (eq_sym H).
  - rewrite orb_true_iff, startswith_spec, IH. split.
    + intros [[post H] | (pre & post & H)].
      * exists "", post. exact H.
      * exists (String c pre), post. rewrite app_cons, H. reflexivity.
    + intros (pre & post & H). destruct pre as [|x pre].
      * left. exists post. exact H.
      * right. rewrite app_cons in H. injection H as _ H. eauto.
Qed.

Lemma contains_empty (s : string) : PyStr.contains "" s = true.
Proof. destruct s; reflexivity. Qed.

Lemma not_contains (p s : string) :
  PyStr.contains p s = false <-> ~ occurs p s.
Proof. rewrite <- contains_spec. destruct (PyStr.contains p s); split; congruence. Qed.

(** *** Runs of digits *)

Lemma digit_value_range (c : ascii) :
  PyStr.isdigit c = true -> 0 <= PyStr.digit_value c <= 9.
Proof.
  unfold PyStr.isdigit, PyStr.between, PyStr.digit_value.
  rewrite andb_true_iff, !N.leb_le. lia.
Qed.

Lemma int_go_nonneg (s : string) (acc : Z) :
  all_digits s -> 0 <= acc -> 0 <= PyStr.int_go acc s.
Proof.
  unfold all_digits. revert acc. induction s as [|c s IH]; intros acc H Hacc; simpl in *.
  - exact Hacc.
  - apply andb_true_iff in H as [Hc Hs]. apply IH; [exact Hs|].
    pose proof (digit_value_range c Hc). lia.
Qed.

Lemma digits_value_nonneg (s : string) : all_digits s -> 0 <= digits_value s.
Proof. intros H. apply int_go_nonneg; [exact H | lia]. Qed.

Lemma int_readable (ds : string) :
  readable ds -> PyStr.int ds = Returned (digits_value ds).
Proof.
  unfold readable, PyStr.int. intros H. apply Z.leb_le in H. rewrite H.
  reflexivity.
Qed.

Lemma int_unreadable (ds : string) :
  ~ readable ds -> PyStr.int ds = Raised ValueError.
Proof.
  unfold readable, PyStr.int. intros H.
  destruct (Z.leb_spec (Z.of_nat (String.length ds)) PyStr.max_str_digits);
    [contradiction | reflexivity].
Qed.

Lemma readable_dec (ds : string) : readable ds \/ ~ readable ds.
Proof. unfold readable. lia. Qed.

Lemma int_go_bound (s : string) (acc : Z) :
  all_digits s -> 0 <= acc ->
  PyStr.int_go acc s < (acc + 1) * 10 ^ Z.of_nat (String.length s).
Proof.
  unfold all_digits. revert acc.
  induction s as [|c s IH]; intros acc H Hacc; simpl String.length; simpl in H.
  - simpl. lia.
  - apply andb_true_iff in H as [Hc Hs].
    pose proof (digit_value_range c Hc) as Hd.
    assert (0 <= 10 * acc + PyStr.digit_value c) as Hnext by lia.
    specialize (IH _ Hs Hnext). cbn [PyStr.int_go].
    rewrite Nat2Z.inj_succ, Z.pow_succ_r by lia.
    assert (0 < 10 ^ Z.of_nat (String.length s)) as Hpow
      by (apply Z.pow_pos_nonneg; lia).
    nia.
Qed.

(** The number read from a run of at most 4300 digits can be printed. *)
Lemma digits_value_printable (ds : string) :
  all_digits ds -> readable ds -> PyStr.printable (digits_value ds) = true.
Proof.
  intros Hds Hr. unfold PyStr.printable, digits_value.
  pose proof (int_go_nonneg ds 0 Hds (Z.le_refl 0)) as Hpos.
  pose proof (int_go_bound ds 0 Hds (Z.le_refl 0)) as Hlt.
  unfold readable in Hr.
  assert (10 ^ Z.of_nat (String.length ds) <= 10 ^ PyStr.max_str_digits) as Hle
    by (apply Z.pow_le_mono_r; lia).
  apply Z.ltb_lt. rewrite Z.abs_eq by exact Hpos.
  set (B := 10 ^ PyStr.max_str_digits) in *.
  set (b := 10 ^ Z.of_nat (String.length ds)) in *.
  lia.
Qed.

(** Every string starts with a maximal, possibly empty, run of digits. *)
Lemma leading_digits (s : string) :
  exists ds post, s = ds +:+ post /\ all_digits ds /\ ends_run post.
Proof.
  induction s as [|c s (ds & post & -> & Hds & Hpost)].
  - exists "", "". repeat split.
  - destruct (PyStr.isdigit c) eqn:Hc.
    + exists (String c ds), post. repeat split; [|exact Hpost].
      unfold all_digits in *. simpl. rewrite Hc, Hds. reflexivity.
    + exists "", (String c (ds +:+ post)). repeat split. exact Hc.
Qed.

(** A string has no digit, or it has a first maximal run of digits. *)
Lemma digit_free_or_run (m : string) :
  digit_free m \/ exists ds, first_digit_run m ds.
Proof.
  induction m as [|c m IH].
  - left. reflexivity.
  - destruct (PyStr.isdigit c) eqn:Hc.
    + right. destruct (leading_digits m) as (ds & post & -> & Hds & Hpost).
      exists (String c ds), "", post. repeat split; [discriminate| |exact Hpost].
      unfold all_digits in *. simpl. rewrite Hc, Hds. reflexivity.
    + destruct IH as [Hm | (ds & pre & post & -> & Hpre & Hne & Hds & Hpost)].
      * left. unfold digit_free in *. simpl. rewrite Hc, Hm. reflexivity.
      * right. exists ds, (String c pre), post. repeat split; try assumption.
        unfold digit_free in *. simpl. rewrite Hc, Hpre. reflexivity.
Qed.

Lemma findall_digits_go_run (ds : string) :
  all_digits ds ->
  forall cur post, ends_run post ->
    PyStr.findall_digits_go cur (ds +:+ post)
    = PyStr.findall_digits_go (cur +:+ ds) post.
Proof.
  unfold all_digits. induction ds as [|c ds IH]; intros H cur post Hpost.
  - rewrite app_nil_l, app_nil_r. reflexivity.
  - simpl in H. apply andb_true_iff in H as [Hc Hds].
    rewrite app_cons. simpl. rewrite Hc, (IH Hds _ _ Hpost), app_assoc.
    reflexivity.
Qed.

Lemma findall_digits_go_end (cur post : string) :
  cur <> "" -> ends_run post ->
  exists more, PyStr.findall_digits_go cur post = cur :: more.
Proof.
  intros Hcur Hpost. destruct post as [|c post]; simpl in *.
  - destruct cur; [congruence | eauto].
  - rewrite Hpost. destruct cur; [congruence | eauto].
Qed.

Lemma findall_digits_go_skip (pre s : string) :
  digit_free pre ->
  PyStr.findall_digits_go "" (pre +:+ s) = PyStr.findall_digits_go "" s.
Proof.
  unfold digit_free. induction pre as [|c pre IH]; intros H; [reflexivity|].
  simpl in H. apply andb_true_iff in H as [Hc Hpre].
  rewrite app_cons. simpl. apply negb_true_iff in Hc. rewrite Hc. auto.
Qed.

Lemma findall_digits_none (m : string) :
  digit_free m -> PyStr.findall_digits m = [].
Proof.
  intros H. unfold PyStr.findall_digits.
  rewrite <- (app_nil_r m), findall_digits_go_skip by exact H. reflexivity.
Qed.

Lemma findall_digits_first (m ds : string) :
  first_digit_run m ds -> exists more, PyStr.findall_digits m = ds :: more.
Proof.
  intros (pre & post & -> & Hpre & Hne & Hds & Hpost).
  unfold PyStr.findall_digits.
  rewrite findall_digits_go_skip, findall_digits_go_run by assumption.
  rewrite app_nil_l. apply findall_digits_go_end; assumption.
Qed.

(** *** The scan of the number words *)

Lemma find_number_word_some (table : list (string * Z)) (text : string) (v : Z) :
  find_number_word table text = Some v -> first_word table text v.
Proof.
  induction table as [|[w n] table IH]; simpl; [discriminate|].
  destruct (PyStr.contains w text) eqn:Hw.
  - intros [= ->]. exists [], w, table. repeat split.
    + apply contains_spec, Hw.
    + constructor.
  - intros H. destruct (IH H) as (before & w' & after & -> & Hocc & Hno).
    exists ((w, n) :: before), w', after. repeat split; [exact Hocc|].
    constructor; [apply not_contains, Hw | exact Hno].
Qed.

Lemma find_number_word_none (table : list (string * Z)) (text : string) :
  find_number_word table text = None -> no_word table text.
Proof.
  induction table as [|[w n] table IH]; simpl; [constructor|].
  destruct (PyStr.contains w text) eqn:Hw; [discriminate|].
  intros H. constructor; [apply not_contains, Hw | exact (IH H)].
Qed.

Lemma find_number_word_first (table : list (string * Z)) (text : string) (v : Z) :
  first_word table text v -> find_number_word table text = Some v.
Proof.
  intros (before & w & after & -> & Hocc & Hno).
  induction Hno as [|[w' n'] before Hw' _ IH]; simpl.
  - apply contains_spec in Hocc. rewrite Hocc. reflexivity.
  - apply not_contains in Hw'. simpl in Hw'. rewrite Hw'. exact IH.
Qed.

Lemma number_words_positive :
  Forall (fun wv : string * Z => 1 <= snd wv) number_words.
Proof. repeat constructor; simpl; lia. Qed.

Lemma first_word_positive (text : string) (v : Z) :
  first_word number_words text v -> 1 <= v.
Proof.
  intros (before & w & after & Heq & _).
  pose proof number_words_positive as H. rewrite Heq in H.
  apply Forall_app in H as [_ H]. inversion H; subst. assumption.
Qed.

(** ** Regular expressions *)

Lemma get_Some_lt (s : string) (i : nat) (d : ascii) :
  String.get i s = Some d -> (i < String.length s)%nat.
Proof.
  revert i. induction s as [|c s IH]; intros i; simpl; [discriminate|].
  destruct i as [|i]; [lia|]. intros H. apply IH in H. lia.
Qed.

Lemma mem_In (i : nat) (l : list nat) : Re.mem i l = true <-> In i l.
Proof.
  unfold Re.mem. rewrite existsb_exists. split.
  - intros (x & Hx & Heq). apply Nat.eqb_eq in Heq. subst. exact Hx.
  - intros H. exists i. split; [exact H | apply Nat.eqb_refl].
Qed.

Lemma insert_In (x i : nat) (l : list nat) :
  In x (Re.insert i l) <-> x = i \/ In x l.
Proof.
  unfold Re.insert. destruct (Re.mem i l) eqn:Hm; simpl.
  - apply mem_In in Hm. split; [auto | intros [-> | H]; assumption].
  - split; intros [H | H]; auto.
Qed.

Lemma insert_NoDup (i : nat) (l : list nat) :
  List.NoDup l -> List.NoDup (Re.insert i l).
Proof.
  intros H. unfold Re.insert. destruct (Re.mem i l) eqn:Hm; [exact H|].
  constructor; [|exact H]. rewrite <- mem_In, Hm. discriminate.
Qed.

Lemma union_In (x : nat) (l1 l2 : list nat) :
  In x (Re.union l1 l2) <-> In x l1 \/ In x l2.
Proof.
  unfold Re.union. induction l1 as [|i l1 IH]; simpl.
  - tauto.
  - rewrite insert_In, IH. intuition congruence.
Qed.

Lemma union_NoDup (l1 l2 : list nat) :
  List.NoDup l2 -> List.NoDup (Re.union l1 l2).
Proof.
  intros H. unfold Re.union. induction l1 as [|i l1 IH]; simpl; [exact H|].
  apply insert_NoDup, IH.
Qed.

Lemma image_In (f : nat -> list nat) (l : list nat) (j : nat) :
  In j (Re.image f l) <-> exists k, In k l /\ In j (f k).
Proof.
  unfold Re.image. induction l as [|i l IH]; simpl.
  - split; [tauto | intros (k & [] & _)].
  - rewrite union_In, IH. split.
    + intros [H | (k & Hk & Hj)]; eauto.
    + intros (k & [-> | Hk] & Hj); eauto.
Qed.

Lemma image_NoDup (f : nat -> list nat) (l : list nat) :
  List.NoDup (Re.image f l).
Proof.
  unfold Re.image. induction l as [|i l IH]; simpl; [constructor|].
  apply union_NoDup, IH.
Qed.

Lemma class_at_In (p : ascii -> bool) (s : string) (i j : nat) :
  In j (Re.class_at p s i) <->
  exists d, String.get i s = Some d /\ p d = true /\ j = S i.
Proof.
  unfold Re.class_at. destruct (String.get i s) as [d|]; simpl.
  - destruct (p d) eqn:Hp; simpl.
    + split; [intros [<- | []]; eauto | intros (d' & [= <-] & _ & ->); auto].
    + split; [tauto | intros (d' & [= <-] & H & _); congruence].
  - split; [tauto | intros (d' & H & _); discriminate].
Qed.

(** Positions up to [n] are fewer than [n + 2]. *)
Lemma bounded_length (n : nat) (l : list nat) :
  List.NoDup l -> (forall x, In x l -> (x <= n)%nat) -> (length l <= S n)%nat.
Proof.
  intros Hnd Hb.
  replace (S n) with (length (seq 0 (S n))) by apply List.length_seq.
  apply NoDup_incl_length; [exact Hnd|].
  intros x Hx. apply in_seq. specialize (Hb x Hx). lia.
Qed.

Section ClosureSpec.

Variable f : nat -> list nat.
Variable D : nat -> nat -> Prop.
Variable n : nat.
Hypothesis f_spec : forall x y, (x <= n)%nat -> In y (f x) <-> D x y.
Hypothesis D_bound : forall x y, (x <= n)%nat -> D x y -> (y <= n)%nat.

Lemma closure_spec (i : nat) (fuel : nat) :
  forall seen frontier,
    (n + 2 <= fuel + length seen)%nat ->
    List.NoDup seen ->
    (forall x, In x seen -> (x <= n)%nat /\ rtc D i x) ->
    In i seen ->
    (forall x, In x frontier -> In x seen) ->
    (forall x y, In x seen -> D x y -> In y seen \/ In x frontier) ->
    forall j, In j (Re.closure f fuel seen frontier) <-> rtc D i j.
Proof.
  induction fuel as [|fuel IH]; intros seen frontier Hfuel Hnd Hseen Hi Hfr Hcl j.
  - exfalso.
    pose proof (bounded_length n seen Hnd (fun x Hx => proj1 (Hseen x Hx))).
    lia.
  - simpl.
    remember (List.filter (fun j => negb (Re.mem j seen)) (Re.image f frontier))
      as fresh eqn:Hdef.
    assert (forall y, In y fresh <->
                      ~ In y seen /\ exists x, In x frontier /\ D x y) as Hfresh.
    { intros y. rewrite Hdef, filter_In, image_In, negb_true_iff.
      rewrite <- not_true_iff_false, mem_In. split.
      - intros [(x & Hx & Hy) Hn]. split; [exact Hn|]. exists x. split; [exact Hx|].
        apply f_spec; [apply Hseen, Hfr, Hx | exact Hy].
      - intros [Hn (x & Hx & Hy)]. split; [|exact Hn]. exists x. split; [exact Hx|].
        apply f_spec; [apply Hseen, Hfr, Hx | exact Hy]. }
    assert (List.NoDup fresh) as Hndf
      by (rewrite Hdef; apply List.NoDup_filter, image_NoDup).
    clear Hdef. destruct fresh as [|y0 rest].
    + assert (forall x y, In x seen -> D x y -> In y seen) as Hclosed.
      { intros x y Hx Hxy. destruct (Hcl x y Hx Hxy) as [H | H]; [exact H|].
        destruct (in_dec Nat.eq_dec y seen) as [Hin | Hout]; [exact Hin|].
        exfalso. apply (proj2 (Hfresh y)). split; eauto. }
      split; [intros Hj; apply Hseen, Hj|].
      assert (forall x, rtc D x j -> In x seen -> In j seen) as Hgen.
      { intros x Hr. induction Hr as [x | x y z Hxy _ IHr]; intros Hx;
          [exact Hx|]. apply IHr. exact (Hclosed _ _ Hx Hxy). }
      intros Hreach. exact (Hgen i Hreach Hi).
    + apply IH.
      * rewrite length_app. simpl. lia.
      * apply List.NoDup_app; [exact Hnd | exact Hndf|].
        intros x Hx Hx'. apply Hfresh in Hx' as [Hn _]. exact (Hn Hx).
      * intros x Hx. apply in_app_or in Hx as [Hx | Hx]; [exact (Hseen x Hx)|].
        apply Hfresh in Hx as [_ (x0 & Hx0 & Hd)].
        destruct (Hseen x0 (Hfr x0 Hx0)) as [Hb Hr].
        split; [exact (D_bound _ _ Hb Hd) | exact (rtc_r _ _ _ Hr Hd)].
      * apply in_or_app. left. exact Hi.
      * intros x Hx. apply in_or_app. right. exact Hx.
      * intros x y Hx Hxy. apply in_app_or in Hx as [Hx | Hx]; [|right; exact Hx].
        left. apply in_or_app.
        destruct (in_dec Nat.eq_dec y seen) as [Hin | Hout]; [left; exact Hin|].
        destruct (Hcl x y Hx Hxy) as [H | H]; [left; exact H|].
        right. apply Hfresh. split; eauto.
Qed.

End ClosureSpec.

Lemma denotes_bound (s : string) (r : Re.regex) :
  forall i j, (i <= String.length s)%nat -> denotes s r i j ->
              (j <= String.length s)%nat.
Proof.
  induction r as [| c | | | | | r1 IH1 r2 IH2 | r1 IH1 r2 IH2 | r1 IH1 | r1 IH1];
    intros i j Hi; simpl.
  - intros ->. exact Hi.
  - intros (d & Hd & _ & ->). apply get_Some_lt in Hd. lia.
  - intros (d & Hd & _ & ->). apply get_Some_lt in Hd. lia.
  - intros (d & Hd & _ & ->). apply get_Some_lt in Hd. lia.
  - intros (d & Hd & _ & ->). apply get_Some_lt in Hd. lia.
  - intros [-> _]. exact Hi.
  - intros (k & H1 & H2). eauto.
  - intros [H | H]; eauto.
  - intros H. induction H as [x | x y z Hxy _ IH]; [exact Hi|]. eauto.
  - intros [-> _]. exact Hi.
Qed.

(** The matcher computes the denotation. *)
Lemma run_denotes (s : string) (r : Re.regex) :
  forall i j, (i <= String.length s)%nat ->
              In j (Re.run r s i) <-> denotes s r i j.
Proof.
  induction r as [| c | | | | | r1 IH1 r2 IH2 | r1 IH1 r2 IH2 | r1 IH1 | r1 IH1];
    intros i j Hi; cbn [Re.run denotes].
  - split; [intros [<- | []]; reflexivity | intros ->; left; reflexivity].
  - rewrite class_at_In. split; intros (d & Hd & Hp & Hj); exists d;
      (split; [exact Hd|]); (split; [|exact Hj]);
      [apply Ascii.eqb_eq, Hp | apply Ascii.eqb_eq, Hp].
  - rewrite class_at_In. split; intros (d & Hd & Hp & Hj); exists d;
      (split; [exact Hd|]); (split; [|exact Hj]).
    + apply negb_true_iff, Ascii.eqb_neq in Hp. exact Hp.
    + apply negb_true_iff, Ascii.eqb_neq. exact Hp.
  - apply class_at_In.
  - apply class_at_In.
  - destruct (Re.boundary s i); simpl.
    + split; [intros [<- | []]; auto | intros [-> _]; auto].
    + split; [tauto | intros [_ H]; discriminate].
  - rewrite image_In. split.
    + intros (k & Hk & Hj). exists k. apply IH1 in Hk; [|exact Hi].
      split; [exact Hk|]. apply IH2; [|exact Hj].
      exact (denotes_bound s r1 i k Hi Hk).
    + intros (k & Hk & Hj). exists k. split; [apply IH1; assumption|].
      apply IH2; [|exact Hj]. exact (denotes_bound s r1 i k Hi Hk).
  - rewrite union_In, IH1, IH2 by exact Hi. reflexivity.
  - apply (closure_spec (Re.run r1 s) (denotes s r1) (String.length s)).
    + intros x y Hx. apply IH1, Hx.
    + intros x y Hx. apply denotes_bound, Hx.
    + simpl. lia.
    + repeat constructor. intros [].
    + intros x [<- | []]. split; [exact Hi | constructor].
    + left. reflexivity.
    + auto.
    + intros x y [<- | []] _. right. left. reflexivity.
  - destruct (Re.run r1 s i) as [|k l] eqn:Hrun.
    + split.
      * intros [<- | []]. split; [reflexivity|]. intros k Hk.
        apply IH1 in Hk; [|exact Hi]. rewrite Hrun in Hk. exact Hk.
      * intros [-> _]. left. reflexivity.
    + split; [intros [] | intros [_ H]]. apply (H k), IH1; [exact Hi|].
      rewrite Hrun. left. reflexivity.
Qed.

Lemma search_regex_spec (r : Re.regex) (s : string) :
  Re.search_regex r s = true <->
  exists i j, (i <= String.length s)%nat /\ denotes s r i j.
Proof.
  unfold Re.search_regex, Re.matches_at. rewrite existsb_exists. split.
  - intros (i & Hi & Hm). apply in_seq in Hi.
    destruct (Re.run r s i) as [|j l] eqn:Hrun; [discriminate|].
    exists i, j. split; [lia|]. apply run_denotes; [lia|].
    rewrite Hrun. left. reflexivity.
  - intros (i & j & Hi & Hd). exists i. split; [apply in_seq; lia|].
    apply run_denotes in Hd; [|exact Hi].
    destruct (Re.run r s i); [destruct Hd | reflexivity].
Qed.

Lemma search_spec (pattern text : string) :
  Re.search pattern text = true <-> pattern_matches pattern text.
Proof.
  unfold Re.search, pattern_matches.
  destruct (Re.compile pattern) as [r|].
  - rewrite search_regex_spec. split.
    + intros (i & j & H). exists r, i, j. auto.
    + intros (r' & i & j & [= <-] & H). eauto.
  - split; [discriminate | intros (r & i & j & H & _); discriminate].
Qed.

(** ** Quantity extraction *)

(** C3, as amended.  [extract_quantity] returns an integer that is at
    least 0, or raises [ValueError].  It returns the value of the first of
    the ten number words, in table order (which is the order of the values
    1 to 10), that occurs in the lower-cased message; when no number word
    occurs, it reads the first run of decimal digits of the message: it
    returns the integer the run writes when the run has at most 4300
    digits, and raises when the run is longer; when there is no digit
    either, it returns 1.  What it returns is at least 1 except when it is
    read from a digit run of value 0.  The three examples of the
    specification hold. *)
Theorem extract_quantity_spec (m : string) :
  let text := PyStr.lower m in
  ((exists q,
      extract_quantity m = Returned q
      /\ (first_word number_words text q
          \/ (no_word number_words text /\
              exists ds, first_digit_run m ds /\ readable ds
                         /\ q = digits_value ds)
          \/ (no_word number_words text /\ digit_free m /\ q = 1))
      /\ 0 <= q
      /\ (1 <= q
          \/ (no_word number_words text /\
              exists ds, first_digit_run m ds /\ digits_value ds = 0)))
   \/ (extract_quantity m = Raised ValueError
       /\ no_word number_words text
       /\ exists ds, first_digit_run m ds /\ ~ readable ds))
  /\ map snd number_words = [1; 2; 3; 4; 5; 6; 7; 8; 9; 10]
  /\ extract_quantity "two pepperoni pizzas" = Returned 2
  /\ extract_quantity "pizza" = Returned 1
  /\ extract_quantity "order 5" = Returned 5
  /\ extract_quantity ("order " +:+ run_of "9" 4301) = Raised ValueError.
Proof.
  cbv zeta. split; [|repeat split; vm_compute; reflexivity].
  unfold extract_quantity.
  destruct (find_number_word number_words (PyStr.lower m)) as [v|] eqn:Hfind.
  - apply find_number_word_some in Hfind.
    pose proof (first_word_positive _ _ Hfind).
    left. exists v. repeat split; [left; exact Hfind | lia | left; lia].
  - apply find_number_word_none in Hfind.
    destruct (digit_free_or_run m) as [Hfree | [ds Hrun]].
    + rewrite (findall_digits_none m Hfree).
      left. exists 1. repeat split; [right; right; auto | lia | left; lia].
    + destruct (findall_digits_first m ds Hrun) as [more ->].
      destruct (readable_dec ds) as [Hr | Hr].
      * rewrite (int_readable ds Hr). left. exists (digits_value ds).
        assert (0 <= digits_value ds) as Hpos.
        { destruct Hrun as (_ & _ & _ & _ & _ & Hds & _).
          apply digits_value_nonneg, Hds. }
        repeat split; [right; left; eauto | exact Hpos |].
        destruct (Z.eq_dec (digits_value ds) 0) as [H0 | H0];
          [right; eauto | left; lia].
      * rewrite (int_unreadable ds Hr). right. eauto.
Qed.

(** C3, the statement as written fails: a message whose first digit run
    is [0], and that has no number word, gives the quantity 0. *)
Lemma extract_quantity_zero :
  extract_quantity "order 0" = Returned 0
  /\ ~ (forall m, exists q, extract_quantity m = Returned q /\ 1 <= q).
Proof.
  split; [reflexivity|]. intros H. destruct (H "order 0") as (q & Hq & Hle).
  vm_compute in Hq. injection Hq as <-. lia.
Qed.

(** C10, as amended.  Number words are detected by plain containment in
    the lower-cased message, without word boundaries: when a number word
    occurs anywhere in it, also inside a longer word, and no earlier word
    of the table occurs, the result is the value of that word, whatever
    digit runs the message has.  So [extract_quantity "my phone is 042"]
    is 1, from the [one] inside [phone], and not 42. *)
Theorem number_word_inside_word (m pre post w : string) (v : Z)
    (before after : list (string * Z)) :
  number_words = before ++ (w, v) :: after ->
  PyStr.lower m = pre +:+ w +:+ post ->
  no_word before (PyStr.lower m) ->
  extract_quantity m = Returned v
  /\ extract_quantity "my phone is 042" = Returned 1
  /\ (exists ds, first_digit_run "my phone is 042" ds
                 /\ PyStr.int ds = Returned 42).
Proof.
  intros Htable Hocc Hbefore. split; [|split; [reflexivity|]].
  - unfold extract_quantity.
    rewrite (find_number_word_first number_words (PyStr.lower m) v);
      [reflexivity|].
    exists before, w, after. repeat split; [exact Htable | | exact Hbefore].
    exists pre, post. exact Hocc.
  - exists "042". split; [|reflexivity].
    exists "my phone is ", "". repeat split. discriminate.
Qed.

Lemma number_word_inside_word_witness :
  extract_quantity "my phone is 042" = Returned 1.
Proof.
  refine (proj1 (number_word_inside_word "my phone is 042" "my ph" " is 042"
                   "one" 1 [] (tl number_words) _ _ _)).
  - reflexivity.
  - reflexivity.
  - constructor.
Defined.

(** C10, the statement as written fails when the embedded word is not the
    first of the table that occurs: [ten] is inside [often], and the result
    is the 9 of [nine]. *)
Lemma embedded_word_not_first :
  PyStr.lower "often nine" = "of" +:+ "ten" +:+ " nine"
  /\ In ("ten", 10) number_words
  /\ extract_quantity "often nine" = Returned 9
  /\ ~ (forall (m pre post w : string) (v : Z),
          In (w, v) number_words ->
          PyStr.lower m = pre +:+ w +:+ post ->
          pre <> "" \/ post <> "" ->
          extract_quantity m = Returned v).
Proof.
  assert (In ("ten", 10) number_words) as Hin by (vm_compute; tauto).
  assert (PyStr.lower "often nine" = "of" +:+ "ten" +:+ " nine") as Hocc
    by (vm_compute; reflexivity).
  assert (extract_quantity "often nine" = Returned 9) as Hq
    by (vm_compute; reflexivity).
  split; [exact Hocc|]. split; [exact Hin|]. split; [exact Hq|].
  intros H.
  assert ("of" <> "" \/ " nine" <> "") as Hemb by (left; discriminate).
  pose proof (H "often nine" "of" " nine" "ten" 10 Hin Hocc Hemb) as H'.
  rewrite Hq in H'. discriminate H'.
Qed.

(** ** Intent classification *)

Lemma any_pattern_spec (patterns : list string) (text : string) :
  any_pattern patterns text = true <-> category_matches patterns text.
Proof.
  unfold any_pattern, category_matches. rewrite existsb_exists.
  split; intros (p & Hp & Hm); exists p; (split; [exact Hp|]);
    apply search_spec, Hm.
Qed.

Lemma first_intent_spec (table : list (intent * list string)) (text : string) :
  match first_intent table text with
  | Some i =>
      exists before patterns after,
        table = before ++ (i, patterns) :: after /\
        category_matches patterns text /\ none_matches before text
  | None => none_matches table text
  end.
Proof.
  induction table as [|[i patterns] table IH]; simpl; [constructor|].
  destruct (any_pattern patterns text) eqn:Hany.
  - exists [], patterns, table. repeat split.
    + apply any_pattern_spec, Hany.
    + constructor.
  - assert (~ category_matches patterns text) as Hno.
    { rewrite <- any_pattern_spec, Hany. discriminate. }
    destruct (first_intent table text) as [j|].
    + destruct IH as (before & ps & after & -> & Hm & Hnone).
      exists ((i, patterns) :: before), ps, after. repeat split; [exact Hm|].
      constructor; assumption.
    + constructor; assumption.
Qed.

(** C4.  [classify_intent] returns the first category, in the order of the
    pattern table, one of whose patterns matches the lower-cased and
    trimmed message, a single matching pattern being enough; it returns
    UNKNOWN when no pattern of any category matches.  A pattern matches
    when what it denotes holds between two positions of the text.  Every
    pattern of the table compiles, so the classification never fails, and
    the result is a function of the message and of the fixed table only. *)
Theorem classify_intent_first_match (m : string) :
  let text := PyStr.strip (PyStr.lower m) in
  ((exists before patterns after,
      INTENT_PATTERNS = before ++ (classify_intent m, patterns) :: after /\
      category_matches patterns text /\ none_matches before text)
   \/ (classify_intent m = UNKNOWN /\ none_matches INTENT_PATTERNS text))
  /\ map fst INTENT_PATTERNS
     = [GREETING; MENU_QUERY; CATEGORY_QUERY; ITEM_DETAILS; TRACK_ORDER;
        CONFIRM_ORDER; CANCEL_ORDER; ORDER_INTENT; SUPPORT; PERSONA_QUERY;
        KB_QUERY]
  /\ Forall (fun pattern => is_Some (Re.compile pattern))
       (concat (map snd INTENT_PATTERNS)).
Proof.
  cbv zeta. split; [|split; [reflexivity|]].
  - unfold classify_intent.
    pose proof (first_intent_spec INTENT_PATTERNS (PyStr.strip (PyStr.lower m))) as H.
    destruct (first_intent INTENT_PATTERNS (PyStr.strip (PyStr.lower m)));
      [left | right]; auto.
  - assert (forallb (fun pattern => match Re.compile pattern with
                                    | Some _ => true | None => false end)
              (concat (map snd INTENT_PATTERNS)) = true) as H
      by (vm_compute; reflexivity).
    rewrite forallb_forall in H. apply List.Forall_forall. intros p Hp.
    specialize (H p Hp). destruct (Re.compile p); [eauto | discriminate].
Qed.

(** Sample classifications.  The table order decides between categories
    that both match: a tracking phrase with the word [order] is
    TRACK_ORDER, and an order phrase with the word [pizza] is
    CATEGORY_QUERY. *)
Example classify_intent_samples :
  map classify_intent
    ["Hello there"; "show me the menu"; "where is my order";
     "track order #42"; "order status"; "I want a pizza";
     "I want a margherita"; "order 2 margherita"; "yes"; "cancel";
     "help"; "who are you"; "is it gluten free"; "asdf"; ""]
  = [GREETING; MENU_QUERY; TRACK_ORDER; TRACK_ORDER; TRACK_ORDER;
     CATEGORY_QUERY; ORDER_INTENT; ORDER_INTENT; CONFIRM_ORDER;
     CANCEL_ORDER; SUPPORT; PERSONA_QUERY; KB_QUERY; UNKNOWN; UNKNOWN].
Proof. vm_compute. reflexivity. Qed.


(** ** The knowledge base *)

Lemma slice_to_take {A : Type} (l : list A) (limit : Z) :
  slice_to l limit
  = take (Z.to_nat (if 0 <=? limit then limit
                    else Z.of_nat (length l) + limit)) l.
Proof. unfold slice_to. destruct (0 <=? limit); reflexivity. Qed.

Lemma slice_to_length {A : Type} (l : list A) (limit : Z) :
  Z.of_nat (length (slice_to l limit))
  = if 0 <=? limit then Z.min limit (Z.of_nat (length l))
    else Z.max 0 (Z.of_nat (length l) + limit).
Proof.
  unfold slice_to. destruct (0 <=? limit) eqn:H; rewrite length_take.
  - apply Z.leb_le in H. lia.
  - apply Z.leb_gt in H. lia.
Qed.

Lemma slice_to_prefix {A : Type} (l : list A) (limit : Z) :
  exists rest, l = slice_to l limit ++ rest.
Proof.
  rewrite slice_to_take. eexists. symmetry. apply take_drop.
Qed.

Lemma collect_map (ql : string) (qw : list string) (c : option string)
    (l : list entry) :
  KnowledgeBase.collect ql qw c l
  = map (fun e => Scored e (KnowledgeBase.score_of ql qw e))
      (List.filter
         (fun e => negb (KnowledgeBase.skipped c e)
                   && (0 <? KnowledgeBase.score_of ql qw e)) l).
Proof.
  induction l as [|e l IH]; simpl; [reflexivity|].
  destruct (KnowledgeBase.skipped c e); simpl; [exact IH|].
  destruct (0 <? KnowledgeBase.score_of ql qw e); simpl; [f_equal|]; exact IH.
Qed.

(** *** The stable sort *)

Lemma insert_desc_perm (x : scored) (l : list scored) :
  Permutation (KnowledgeBase.insert_desc x l) (x :: l).
Proof.
  induction l as [|y l IH]; simpl; [reflexivity|].
  destruct (_score x <? _score y); [|reflexivity].
  rewrite IH. apply perm_swap.
Qed.

Lemma sort_desc_perm (l : list scored) :
  Permutation (KnowledgeBase.sort_desc l) l.
Proof.
  induction l as [|x l IH]; simpl; [reflexivity|].
  rewrite insert_desc_perm, IH. reflexivity.
Qed.

Lemma insert_desc_sorted (x : scored) (l : list scored) :
  StronglySorted score_ge l ->
  StronglySorted score_ge (KnowledgeBase.insert_desc x l).
Proof.
  induction 1 as [|y l Hl IH Hy]; simpl.
  - repeat constructor.
  - destruct (_score x <? _score y) eqn:Hxy.
    + apply Z.ltb_lt in Hxy. constructor; [exact IH|].
      rewrite insert_desc_perm. constructor; [unfold score_ge; lia | exact Hy].
    + apply Z.ltb_ge in Hxy. constructor; [constructor; assumption|].
      constructor; [exact Hxy|].
      eapply List.Forall_impl; [|exact Hy]. unfold score_ge. intros z Hz. lia.
Qed.

Lemma sort_desc_sorted (l : list scored) :
  StronglySorted score_ge (KnowledgeBase.sort_desc l).
Proof.
  induction l as [|x l IH]; simpl; [constructor|].
  apply insert_desc_sorted, IH.
Qed.

(** The sort is stable: the elements of one score keep their order. *)
Lemma insert_desc_stable (v : Z) (x : scored) (l : list scored) :
  List.filter (fun y => _score y =? v) (KnowledgeBase.insert_desc x l)
  = List.filter (fun y => _score y =? v) (x :: l).
Proof.
  induction l as [|y l IH]; [reflexivity|]. simpl KnowledgeBase.insert_desc.
  destruct (_score x <? _score y) eqn:Hxy; [|reflexivity].
  apply Z.ltb_lt in Hxy. simpl in *. rewrite IH.
  destruct (_score x =? v) eqn:Hx; [|reflexivity].
  apply Z.eqb_eq in Hx.
  assert ((_score y =? v) = false) as -> by (apply Z.eqb_neq; lia).
  reflexivity.
Qed.

Lemma sort_desc_stable (v : Z) (l : list scored) :
  List.filter (fun y => _score y =? v) (KnowledgeBase.sort_desc l)
  = List.filter (fun y => _score y =? v) l.
Proof.
  induction l as [|x l IH]; [reflexivity|]. simpl KnowledgeBase.sort_desc.
  rewrite insert_desc_stable. simpl. rewrite IH. reflexivity.
Qed.

(** *** From scored results to the entries returned *)

Section Ranking.

Variable sc : entry -> Z.

Lemma faithful_sorted (l : list scored) :
  Forall (faithful sc) l -> StronglySorted score_ge l ->
  StronglySorted (outranks sc) (map s_entry l).
Proof.
  intros Hf Hs. induction Hs as [|x l Hl IH Hx]; simpl; [constructor|].
  inversion Hf as [|? ? Hfx Hfl]; subst. constructor; [auto|].
  apply List.Forall_forall. intros e He.
  apply in_map_iff in He as (y & <- & Hy).
  rewrite List.Forall_forall in Hx, Hfl.
  specialize (Hx y Hy). specialize (Hfl y Hy).
  unfold outranks, score_ge, faithful in *. lia.
Qed.

Lemma faithful_with_score (v : Z) (l : list scored) :
  Forall (faithful sc) l ->
  with_score sc v (map s_entry l)
  = map s_entry (List.filter (fun y => _score y =? v) l).
Proof.
  unfold with_score. induction 1 as [|x l Hx _ IH]; simpl; [reflexivity|].
  rewrite <- Hx, IH. destruct (_score x =? v); reflexivity.
Qed.

Lemma faithful_mk (l : list entry) :
  Forall (faithful sc) (map (fun e => Scored e (sc e)) l).
Proof. apply List.Forall_forall. intros x Hx. apply in_map_iff in Hx as (e & <- & _). reflexivity. Qed.

End Ranking.

Lemma sorted_app_l {A : Type} (R : A -> A -> Prop) (l1 l2 : list A) :
  StronglySorted R (l1 ++ l2) -> StronglySorted R l1.
Proof.
  induction l1 as [|x l1 IH]; simpl; intros H; [constructor|].
  inversion H as [|? ? Hs Hx]; subst. constructor; [auto|].
  apply Forall_app in Hx as [Hx _]. exact Hx.
Qed.

Lemma sort_desc_ties (v : Z) (l : list scored) :
  Forall (fun x => _score x = v) l -> KnowledgeBase.sort_desc l = l.
Proof.
  induction 1 as [|x l Hx Hl IH]; simpl; [reflexivity|]. rewrite IH.
  destruct Hl as [|y l Hy _]; simpl; [reflexivity|].
  rewrite Hx, Hy, Z.ltb_irrefl. reflexivity.
Qed.

(** [search] is the slice of the sorted list of the scored hits. *)
Lemma search_unfold (kb : KnowledgeBase) (query : string)
    (category : option string) (limit : Z) :
  let ql := PyStr.lower query in
  let qw := KnowledgeBase.words_of ql in
  KnowledgeBase.search kb query category limit
  = map s_entry
      (slice_to
         (KnowledgeBase.sort_desc
            (map (fun e => Scored e (KnowledgeBase.score_of ql qw e))
               (hits kb ql qw category)))
         limit).
Proof. cbv zeta. unfold KnowledgeBase.search. rewrite collect_map. reflexivity. Qed.

Lemma hits_spec (kb : KnowledgeBase) (ql : string) (qw : list string)
    (category : option string) (e : entry) :
  In e (hits kb ql qw category) <->
  In e (entries kb) /\ KnowledgeBase.skipped category e = false /\
  0 < KnowledgeBase.score_of ql qw e.
Proof.
  unfold hits. rewrite filter_In, andb_true_iff, negb_true_iff, Z.ltb_lt.
  tauto.
Qed.

Lemma search_in_hits (kb : KnowledgeBase) (query : string)
    (category : option string) (limit : Z) :
  let ql := PyStr.lower query in
  let qw := KnowledgeBase.words_of ql in
  Forall (fun e => In e (hits kb ql qw category))
    (KnowledgeBase.search kb query category limit).
Proof.
  cbv zeta. rewrite search_unfold. apply List.Forall_forall. intros e He.
  apply in_map_iff in He as (x & <- & Hx).
  destruct (slice_to_prefix
              (KnowledgeBase.sort_desc
                 (map (fun e => Scored e (KnowledgeBase.score_of (PyStr.lower query)
                                            (KnowledgeBase.words_of (PyStr.lower query)) e))
                    (hits kb (PyStr.lower query)
                       (KnowledgeBase.words_of (PyStr.lower query)) category)))
              limit) as [rest Hrest].
  assert (In x (KnowledgeBase.sort_desc
                  (map (fun e => Scored e (KnowledgeBase.score_of (PyStr.lower query)
                                             (KnowledgeBase.words_of (PyStr.lower query)) e))
                     (hits kb (PyStr.lower query)
                        (KnowledgeBase.words_of (PyStr.lower query)) category)))) as Hin.
  { rewrite Hrest. apply in_or_app. left. exact Hx. }
  apply (Permutation_in _ (sort_desc_perm _)) in Hin.
  apply in_map_iff in Hin as (e & <- & He). exact He.
Qed.

(** C7, as amended.  For every store, query, category filter and limit,
    the sequence returned by [search] (a) has [min limit n] entries when
    the limit is not negative, [n] being the number of entries that pass
    the filter with a positive score, so at most [limit] of them; for a
    negative limit the slice drops the last [-limit] results instead;
    (b) holds only entries that pass the filter and score more than 0;
    (c) is ordered by score, highest first, and the entries of one score
    appear in their order in the store; (d) holds entries of the store
    themselves, the score being a component of the transient results only. *)
Theorem search_ranked (kb : KnowledgeBase) (query : string)
    (category : option string) (limit : Z) :
  let ql := PyStr.lower query in
  let qw := KnowledgeBase.words_of ql in
  let sc := KnowledgeBase.score_of ql qw in
  let found := hits kb ql qw category in
  let result := KnowledgeBase.search kb query category limit in
  Z.of_nat (length result)
  = (if 0 <=? limit then Z.min limit (Z.of_nat (length found))
     else Z.max 0 (Z.of_nat (length found) + limit))
  /\ (limit < 0 \/ Z.of_nat (length result) <= limit)
  /\ Forall (fun e => 0 < sc e /\ KnowledgeBase.skipped category e = false) result
  /\ StronglySorted (outranks sc) result
  /\ (forall v, exists rest,
        with_score sc v found = with_score sc v result ++ rest)
  /\ Forall (fun e => In e (entries kb)) result.
Proof.
  cbv zeta.
  pose proof (search_in_hits kb query category limit) as Hhits. cbv zeta in Hhits.
  rewrite search_unfold in *.
  set (ql := PyStr.lower query) in *.
  set (qw := KnowledgeBase.words_of ql) in *.
  set (sc := KnowledgeBase.score_of ql qw) in *.
  set (found := hits kb ql qw category) in *.
  set (S := KnowledgeBase.sort_desc (map (fun e => Scored e (sc e)) found)) in *.
  assert (Z.of_nat (length (map s_entry (slice_to S limit)))
          = (if 0 <=? limit then Z.min limit (Z.of_nat (length found))
             else Z.max 0 (Z.of_nat (length found) + limit))) as Hlen.
  { rewrite length_map, slice_to_length. unfold S.
    rewrite (Permutation_length (sort_desc_perm _)), length_map. reflexivity. }
  destruct (slice_to_prefix S limit) as [rest HS].
  assert (Forall (faithful sc) S) as HfS.
  { unfold S. eapply Permutation_Forall;
      [symmetry; apply sort_desc_perm | apply faithful_mk]. }
  assert (Forall (faithful sc) (slice_to S limit)) as HfT.
  { rewrite HS in HfS. apply Forall_app in HfS as [H _]. exact H. }
  split; [exact Hlen|]. split.
  { rewrite Hlen. destruct (0 <=? limit) eqn:Hl.
    - right. lia.
    - left. apply Z.leb_gt in Hl. exact Hl. }
  split.
  { eapply List.Forall_impl; [|exact Hhits]. intros e He.
    apply hits_spec in He. tauto. }
  split.
  { apply faithful_sorted; [exact HfT|].
    apply (sorted_app_l _ _ rest). rewrite <- HS. apply sort_desc_sorted. }
  split.
  { intros v. exists (map s_entry (List.filter (fun y => _score y =? v) rest)).
    rewrite (faithful_with_score sc v _ HfT), <- List.map_app, <- List.filter_app, <- HS.
    unfold S. rewrite sort_desc_stable.
    rewrite <- (faithful_with_score sc v _ (faithful_mk sc found)).
    rewrite map_map. simpl. rewrite map_id. reflexivity. }
  eapply List.Forall_impl; [|exact Hhits]. intros e He.
  apply hits_spec in He. tauto.
Qed.

(** C7, the statement as written fails for a negative limit: the slice
    [results[:-1]] of two results has one entry, which is more than -1. *)
Lemma search_negative_limit :
  length (KnowledgeBase.search sample_kb "gluten" None (-1)) = 1%nat
  /\ ~ (forall kb query category limit,
          Z.of_nat (length (KnowledgeBase.search kb query category limit))
          <= limit).
Proof.
  assert (length (KnowledgeBase.search sample_kb "gluten" None (-1)) = 1%nat)
    as H by (vm_compute; reflexivity).
  split; [exact H|]. intros Hall.
  specialize (Hall sample_kb "gluten" None (-1)). rewrite H in Hall. lia.
Qed.

Lemma score_without_words (ql : string) (e : entry) :
  KnowledgeBase.score_of ql [] e
  = (if PyStr.contains ql (PyStr.lower (e_title e)) then 50 else 0)
    + (if PyStr.contains ql (PyStr.lower (e_content e)) then 30 else 0).
Proof.
  unfold KnowledgeBase.score_of, KnowledgeBase.add_per_word. simpl.
  destruct (PyStr.contains ql (PyStr.lower (e_title e)));
    destruct (PyStr.contains ql (PyStr.lower (e_content e))); reflexivity.
Qed.

Lemma slice_to_map {A B : Type} (f : A -> B) (l : list A) (limit : Z) :
  slice_to (map f l) limit = map f (slice_to l limit).
Proof. rewrite !slice_to_take, length_map. apply firstn_map. Qed.

(** C2, as amended.  For a query that splits into no word, no per-word
    score is added: the score of an entry is 50 when the lower-cased query
    occurs in its title, plus 30 when it occurs in its content, and
    [search] returns only entries in whose title or content it occurs.
    The empty query occurs in every text, so it scores every entry 80 and
    [search] returns the first [limit] entries that pass the category
    filter, in store order, not the empty sequence. *)
Theorem search_without_words (kb : KnowledgeBase) (query : string)
    (category : option string) (limit : Z) :
  PyStr.split (PyStr.lower query) = [] ->
  let ql := PyStr.lower query in
  (forall e,
     KnowledgeBase.score_of ql (KnowledgeBase.words_of ql) e
     = (if PyStr.contains ql (PyStr.lower (e_title e)) then 50 else 0)
       + (if PyStr.contains ql (PyStr.lower (e_content e)) then 30 else 0))
  /\ Forall (fun e => PyStr.contains ql (PyStr.lower (e_title e)) = true
                      \/ PyStr.contains ql (PyStr.lower (e_content e)) = true)
       (KnowledgeBase.search kb query category limit)
  /\ (forall e, KnowledgeBase.score_of "" (KnowledgeBase.words_of "") e = 80)
  /\ KnowledgeBase.search kb "" category limit
     = slice_to (KnowledgeBase.candidates kb category) limit.
Proof.
  intros Hsplit. cbv zeta.
  assert (KnowledgeBase.words_of (PyStr.lower query) = []) as Hwords
    by (unfold KnowledgeBase.words_of; rewrite Hsplit; reflexivity).
  assert (forall e, KnowledgeBase.score_of "" (KnowledgeBase.words_of "") e = 80)
    as H80.
  { intros e. change (KnowledgeBase.words_of "") with (@nil string).
    rewrite score_without_words, !contains_empty. reflexivity. }
  split; [intros e; rewrite Hwords; apply score_without_words|].
  split.
  { pose proof (search_in_hits kb query category limit) as H. cbv zeta in H.
    eapply List.Forall_impl; [|exact H]. intros e He.
    apply hits_spec in He as (_ & _ & Hpos).
    rewrite Hwords, score_without_words in Hpos.
    destruct (PyStr.contains (PyStr.lower query) (PyStr.lower (e_title e)));
      [left; reflexivity|].
    destruct (PyStr.contains (PyStr.lower query) (PyStr.lower (e_content e)));
      [right; reflexivity | lia]. }
  split; [exact H80|].
  rewrite search_unfold. change (PyStr.lower "") with "".
  assert (hits kb "" (KnowledgeBase.words_of "") category
          = KnowledgeBase.candidates kb category) as ->.
  { unfold hits, KnowledgeBase.candidates. apply filter_ext. intros e.
    rewrite H80. simpl. apply andb_true_r. }
  rewrite (sort_desc_ties 80).
  - rewrite slice_to_map, map_map. simpl. apply map_id.
  - apply List.Forall_forall. intros x Hx.
    apply in_map_iff in Hx as (e & <- & _). apply H80.
Qed.

Lemma search_without_words_witness :
  KnowledgeBase.search sample_kb "" (Some "menu") 5
  = slice_to (KnowledgeBase.candidates sample_kb (Some "menu")) 5.
Proof.
  refine (proj2 (proj2 (proj2
            (search_without_words sample_kb "   " (Some "menu") 5 _)))).
  vm_compute. reflexivity.
Defined.

(** C2, the statement as written fails: the empty query splits into no
    word and [search] returns every entry of the store. *)
Lemma search_empty_query :
  PyStr.split (PyStr.lower "") = []
  /\ KnowledgeBase.search sample_kb "" None 5 = entries sample_kb
  /\ ~ (forall kb query category limit,
          PyStr.split (PyStr.lower query) = [] ->
          KnowledgeBase.search kb query category limit = []).
Proof.
  assert (KnowledgeBase.search sample_kb "" None 5 = entries sample_kb) as H
    by (vm_compute; reflexivity).
  split; [reflexivity|]. split; [exact H|]. intros Hall.
  rewrite (Hall sample_kb "" None 5 eq_refl) in H. vm_compute in H.
  discriminate H.
Qed.

Lemma updated_fields (now : string) (title content : option string)
    (tags : option (list string)) (e : entry) :
  KnowledgeBase.updated now title content tags e
  = {| e_id := e_id e;
       e_category := e_category e;
       e_title := supplied_str title (e_title e);
       e_content := supplied_str content (e_content e);
       e_tags := supplied_list tags (e_tags e);
       e_version := e_version e + 1;
       e_created_at := e_created_at e;
       e_updated_at := now |}.
Proof.
  destruct title as [[|? ?]|], content as [[|? ?]|], tags as [[|? ?]|];
    reflexivity.
Qed.

Lemma update_in_spec (now : string) (entry_id : Z) (title content : option string)
    (tags : option (list string)) (l : list entry) :
  (exists before e after,
     l = before ++ e :: after /\ e_id e = entry_id /\
     Forall (fun x => e_id x <> entry_id) before /\
     KnowledgeBase.update_in now entry_id title content tags l
     = (before ++ KnowledgeBase.updated now title content tags e :: after,
        Some (KnowledgeBase.updated now title content tags e)))
  \/ (Forall (fun x => e_id x <> entry_id) l /\
      KnowledgeBase.update_in now entry_id title content tags l = (l, None)).
Proof.
  induction l as [|x l IH]; simpl.
  - right. split; [constructor | reflexivity].
  - destruct (e_id x =? entry_id) eqn:Hx.
    + apply Z.eqb_eq in Hx. left. exists [], x, l. repeat split; [exact Hx | constructor].
    + apply Z.eqb_neq in Hx.
      destruct IH as [(before & e & after & -> & He & Hb & ->) | [Hl ->]].
      * left. exists (x :: before), e, after. repeat split; [exact He|].
        constructor; assumption.
      * right. split; [constructor; assumption | reflexivity].
Qed.

(** C8, as amended.  When the store has an entry with the identifier,
    [update_entry] replaces the first such entry and returns it: the title,
    the content and the tags are overwritten by the supplied values that
    are not empty (a supplied empty text or empty tag list leaves the
    field as it is), the version grows by 1, the time of update becomes
    the current time, the other fields keep their values, and every other
    entry is unchanged.  When no entry has the identifier, it returns no
    entry and the store is unchanged. *)
Theorem update_entry_spec (kb : KnowledgeBase) (now : string) (entry_id : Z)
    (title content : option string) (tags : option (list string)) :
  (exists before e after,
     entries kb = before ++ e :: after /\ e_id e = entry_id /\
     Forall (fun x => e_id x <> entry_id) before /\
     let e' := {| e_id := e_id e;
                  e_category := e_category e;
                  e_title := supplied_str title (e_title e);
                  e_content := supplied_str content (e_content e);
                  e_tags := supplied_list tags (e_tags e);
                  e_version := e_version e + 1;
                  e_created_at := e_created_at e;
                  e_updated_at := now |} in
     KnowledgeBase.update_entry kb now entry_id title content tags
     = (KB (before ++ e' :: after) (_id_counter kb), Some e'))
  \/ (Forall (fun x => e_id x <> entry_id) (entries kb) /\
      KnowledgeBase.update_entry kb now entry_id title content tags
      = (kb, None)).
Proof.
  unfold KnowledgeBase.update_entry.
  destruct (update_in_spec now entry_id title content tags (entries kb))
    as [(before & e & after & Hl & He & Hb & ->) | [Hl ->]].
  - left. exists before, e, after. rewrite <- updated_fields. auto.
  - right. split; [exact Hl|]. destruct kb; reflexivity.
Qed.

(** C8, the statement as written fails for a supplied empty title: the
    stored title is kept. *)
Lemma update_entry_empty_title :
  (exists e', snd (KnowledgeBase.update_entry sample_kb "2024-02-01T00:00:00"
                     1 (Some "") None None) = Some e'
              /\ e_title e' = "Allergen Information")
  /\ ~ (forall kb now entry_id title content tags e',
          snd (KnowledgeBase.update_entry kb now entry_id (Some title)
                 content tags) = Some e' ->
          e_title e' = title).
Proof.
  split.
  - eexists. split; vm_compute; reflexivity.
  - intros Hall.
    specialize (Hall sample_kb "2024-02-01T00:00:00" 1 "" None None).
    vm_compute in Hall. specialize (Hall _ eq_refl). discriminate Hall.
Qed.

(** ** The dialogue manager *)

Lemma extract_quantity_nonneg (m : string) (q : Z) :
  extract_quantity m = Returned q -> 0 <= q.
Proof.
  unfold extract_quantity.
  destruct (find_number_word number_words (PyStr.lower m)) as [v|] eqn:Hfind.
  - apply find_number_word_some, first_word_positive in Hfind.
    intros [= <-]. lia.
  - destruct (digit_free_or_run m) as [Hfree | [ds Hrun]].
    + rewrite (findall_digits_none m Hfree). intros [= <-]. lia.
    + destruct (findall_digits_first m ds Hrun) as [more ->].
      destruct Hrun as (_ & _ & _ & _ & _ & Hds & _).
      unfold PyStr.int. destruct (_ <=? _); [|discriminate].
      intros [= <-]. apply (digits_value_nonneg ds Hds).
Qed.

Section ChatbotFacts.

Context {num : Type} {num_eq_dec : EqDecision num}.
Variable num_zero : num.
Variable num_add : num -> num -> num.
Variable num_mul : num -> Z -> option num.

Local Abbreviation dispatch := (handle num_zero num_add num_mul).
Local Abbreviation process := (process_message num_zero num_add num_mul).
Local Abbreviation reachable := (reachable num_zero num_add num_mul).

(** The session map after a message: the session of the user is replaced
    by the one the handler leaves. *)
Lemma process_message_state (kb : KnowledgeBase)
    (st : gmap string (@context num)) (message user_id : string)
    (menu_items : list menu_item) (orders : option (list order_rec)) :
  let i := classify_intent message in
  let h := dispatch kb i (set_last_intent (session_of st user_id) i)
             message user_id menu_items orders in
  process kb st message user_id menu_items orders
  = (<[user_id := fst h]> st, snd h).
Proof.
  cbv zeta. unfold process_message, get_user_context, session_of.
  destruct (st !! user_id) as [c|] eqn:Hc; simpl.
  - destruct (handle _ _ _ _ _ _ _ _ _ _) as [c' r]. reflexivity.
  - destruct (handle _ _ _ _ _ _ _ _ _ _) as [c' r]. simpl.
    rewrite insert_insert_eq. reflexivity.
Qed.

(** *** The cart *)

Lemma bump_spec (item_id q : Z) (c : list (@cart_item num)) :
  match bump item_id q c with
  | Some c' =>
      exists before line after,
        c = before ++ line :: after /\ menu_item_id line = item_id /\
        Forall (fun i => menu_item_id i <> item_id) before /\
        c' = before
             ++ CartItem (menu_item_id line) (ci_item line) (ci_price line)
                  (quantity line + q)
             :: after
  | None => Forall (fun i => menu_item_id i <> item_id) c
  end.
Proof.
  induction c as [|i c IH]; simpl; [constructor|].
  destruct (menu_item_id i =? item_id) eqn:Hi.
  - apply Z.eqb_eq in Hi. exists [], i, c. repeat split; [exact Hi | constructor].
  - apply Z.eqb_neq in Hi. destruct (bump item_id q c) as [c'|]; simpl.
    + destruct IH as (before & line & after & -> & Hl & Hb & ->).
      exists (i :: before), line, after. repeat split; [exact Hl|].
      constructor; assumption.
    + constructor; assumption.
Qed.

Lemma add_to_cart_ok (q : Z) (c : list (@cart_item num)) (item : menu_item) :
  0 <= q -> cart_ok c -> cart_ok (add_to_cart q c item).
Proof.
  intros Hq [Hnd Hpos]. unfold add_to_cart.
  pose proof (bump_spec (mi_id item) q c) as H.
  destruct (bump (mi_id item) q c) as [c'|].
  - destruct H as (before & line & after & -> & _ & _ & ->). split.
    + rewrite List.map_app in *. exact Hnd.
    + apply Forall_app in Hpos as [Hb Ha]. apply Forall_app. split; [exact Hb|].
      inversion Ha; subst. constructor; [simpl; lia | assumption].
  - split.
    + rewrite List.map_app. simpl. apply NoDup_app. split; [exact Hnd|].
      split; [|apply NoDup_singleton].
      intros x Hx Hx'. apply list_elem_of_singleton in Hx'. subst x.
      apply list_elem_of_In, in_map_iff in Hx as (i & Hi & Hin).
      rewrite List.Forall_forall in H. exact (H i Hin Hi).
    + apply Forall_app. split; [exact Hpos|]. constructor; [exact Hq | constructor].
Qed.

Lemma fold_add_to_cart_ok (q : Z) (items : list menu_item)
    (c : list (@cart_item num)) :
  0 <= q -> cart_ok c -> cart_ok (fold_left (add_to_cart q) items c).
Proof.
  intros Hq. revert c. induction items as [|item items IH]; intros c Hc; simpl.
  - exact Hc.
  - apply IH, add_to_cart_ok; assumption.
Qed.

Lemma cart_ok_nil : cart_ok (@nil (@cart_item num)).
Proof. split; constructor. Qed.

(** The cart that a handler leaves. *)
Lemma handle_cart (kb : KnowledgeBase) (i : intent) (c : @context num)
    (message user_id : string) (menu_items : list menu_item)
    (orders : option (list order_rec)) :
  cart (fst (dispatch kb i c message user_id menu_items orders))
  = match i with
    | ORDER_INTENT =>
        match extract_quantity message with
        | Returned q =>
            fold_left (add_to_cart q) (extract_menu_items message menu_items)
              (cart c)
        | Raised _ => cart c
        end
    | CANCEL_ORDER => []
    | _ => cart c
    end.
Proof.
  destruct i; unfold handle;
    repeat match goal with
           | |- context [match ?x with _ => _ end] => destruct x eqn:?
           end;
    simpl; try reflexivity; assumption.
Qed.

Lemma handle_cart_ok (kb : KnowledgeBase) (i : intent) (c : @context num)
    (message user_id : string) (menu_items : list menu_item)
    (orders : option (list order_rec)) :
  cart_ok (cart c) ->
  cart_ok (cart (fst (dispatch kb i c message user_id menu_items orders))).
Proof.
  intros Hc. rewrite handle_cart. destruct i; try exact Hc.
  - apply cart_ok_nil.
  - destruct (extract_quantity message) as [q|e] eqn:Hq; [|exact Hc].
    apply fold_add_to_cart_ok; [|exact Hc].
    exact (extract_quantity_nonneg message q Hq).
Qed.

Lemma session_of_ok (st : gmap string (@context num)) (user_id : string) :
  (forall u c, st !! u = Some c -> cart_ok (cart c)) ->
  cart_ok (cart (session_of st user_id)).
Proof.
  intros H. unfold session_of. destruct (st !! user_id) as [c|] eqn:Hc; simpl.
  - exact (H _ _ Hc).
  - apply cart_ok_nil.
Qed.

Lemma reachable_cart_ok (st : gmap string (@context num)) :
  reachable st -> forall u c, st !! u = Some c -> cart_ok (cart c).
Proof.
  induction 1 as [|st kb m user_id menu orders _ IH|st user_id _ IH]; intros u c Hu.
  - rewrite lookup_empty in Hu. discriminate.
  - rewrite process_message_state in Hu. simpl in Hu.
    destruct (decide (user_id = u)) as [->|Hne].
    + rewrite lookup_insert_eq in Hu. injection Hu as <-.
      apply handle_cart_ok. apply (session_of_ok st u IH).
    + rewrite lookup_insert_ne in Hu by exact Hne. exact (IH _ _ Hu).
  - unfold clear_cart in Hu. destruct (st !! user_id) as [c0|] eqn:Hc0.
    + destruct (decide (user_id = u)) as [->|Hne].
      * rewrite lookup_insert_eq in Hu. injection Hu as <-. apply cart_ok_nil.
      * rewrite lookup_insert_ne in Hu by exact Hne. exact (IH _ _ Hu).
    + exact (IH _ _ Hu).
Qed.

(** *** The handlers *)

Lemma session_of_insert (st : gmap string (@context num)) (user_id : string)
    (c : context) :
  session_of (<[user_id := c]> st) user_id = c.
Proof. unfold session_of. rewrite lookup_insert_eq. reflexivity. Qed.

(** The ORDER_INTENT handler adds every extracted item to the cart with the
    extracted quantity, unless reading the quantity raises. *)
Lemma order_intent_cart (kb : KnowledgeBase) (st : gmap string (@context num))
    (message user_id : string) (menu_items : list menu_item)
    (orders : option (list order_rec)) :
  classify_intent message = ORDER_INTENT ->
  cart (session_of
          (fst (process kb st message user_id menu_items orders))
          user_id)
  = match extract_quantity message with
    | Returned q =>
        fold_left (add_to_cart q) (extract_menu_items message menu_items)
          (cart (session_of st user_id))
    | Raised _ => cart (session_of st user_id)
    end.
Proof.
  intros Hi. rewrite process_message_state. cbv zeta. rewrite Hi.
  unfold fst at 1. rewrite session_of_insert, handle_cart. reflexivity.
Qed.

(** What the sum of a cart is: the sum, from 0 and in cart order, of the
    products of the lines when all of them can be computed, and the
    exception of a product that cannot. *)
Lemma sum_from_spec (c : list (@cart_item num)) :
  forall total,
    match sum_from num_add num_mul total c with
    | Returned t =>
        exists subtotals,
          Forall2 (fun i p => num_mul (ci_price i) (quantity i) = Some p)
            c subtotals
          /\ t = fold_left num_add subtotals total
    | Raised e =>
        e = OverflowError
        /\ Exists (fun i => num_mul (ci_price i) (quantity i) = None) c
    end.
Proof.
  induction c as [|i c IH]; intros total; simpl.
  - exists []. split; [constructor | reflexivity].
  - destruct (num_mul (ci_price i) (quantity i)) as [p|] eqn:Hp.
    + specialize (IH (num_add total p)).
      destruct (sum_from num_add num_mul (num_add total p) c) as [t|e].
      * destruct IH as (subtotals & Hall & ->).
        exists (p :: subtotals). split; [constructor; assumption | reflexivity].
      * destruct IH as [-> Hex]. split; [reflexivity|].
        apply Exists_cons_tl, Hex.
    + split; [reflexivity|]. apply Exists_cons_hd, Hp.
Qed.

Lemma priced_dec (c : list (@cart_item num)) :
  priced num_mul c \/ ~ priced num_mul c.
Proof.
  unfold priced.
  destruct (decide (Forall (fun i => is_Some (num_mul (ci_price i) (quantity i)))
                      c)); auto.
Qed.

Lemma printed_dec (c : list (@cart_item num)) : printed c \/ ~ printed c.
Proof.
  unfold printed.
  destruct (decide (Forall (fun i => PyStr.printable (quantity i) = true) c));
    auto.
Qed.

(** The sum of a cart is computed when, and only when, every product is. *)
Lemma cart_total_priced (c : list (@cart_item num)) :
  match cart_total num_zero num_add num_mul c with
  | Returned t =>
      priced num_mul c
      /\ exists subtotals,
           Forall2 (fun i p => num_mul (ci_price i) (quantity i) = Some p)
             c subtotals
           /\ t = fold_left num_add subtotals num_zero
  | Raised e => e = OverflowError /\ ~ priced num_mul c
  end.
Proof.
  unfold cart_total. pose proof (sum_from_spec c num_zero) as H.
  destruct (sum_from num_add num_mul num_zero c) as [t|e].
  - destruct H as (subtotals & Hall & ->). split; [|eauto].
    unfold priced. clear -Hall.
    induction Hall as [|i p l ps Hp _ IH]; constructor; [eauto | exact IH].
  - destruct H as [-> Hex]. split; [reflexivity|]. unfold priced. clear -Hex.
    intros Hall. induction Hex as [i l Hi | i l _ IH];
      inversion Hall as [|? ? [p Hp] Hrest]; subst; [congruence | auto].
Qed.

(** The loop that writes the cart: it ends when every product can be
    computed and every quantity printed, and stops at the first line for
    which one of the two fails. *)
Lemma cart_lines_spec (c : list (@cart_item num)) :
  forall total,
    match cart_lines num_add num_mul total c with
    | Returned t => priced num_mul c /\ printed c
    | Raised OverflowError => ~ priced num_mul c
    | Raised ValueError => ~ printed c
    | Raised DatabaseError => False
    end.
Proof.
  unfold priced, printed.
  induction c as [|i c IH]; intros total; simpl.
  - split; constructor.
  - destruct (num_mul (ci_price i) (quantity i)) as [p|] eqn:Hp.
    + destruct (PyStr.printable (quantity i)) eqn:Hq.
      * specialize (IH (num_add total p)).
        destruct (cart_lines num_add num_mul (num_add total p) c) as [t|[]].
        -- destruct IH as [H1 H2]. split; constructor; eauto.
        -- intros H. inversion H; subst. contradiction.
        -- intros H. inversion H; subst. contradiction.
        -- exact IH.
      * intros H. inversion H; subst. congruence.
    + intros H. inversion H as [|? ? [p' Hp'] _]; subst. congruence.
Qed.

Lemma format_cart_response_cases (c : list (@cart_item num)) :
  (priced num_mul c -> printed c ->
   format_cart_response num_zero num_add num_mul c = Returned c)
  /\ (priced num_mul c -> ~ printed c ->
      format_cart_response num_zero num_add num_mul c = Raised ValueError)
  /\ (~ (priced num_mul c /\ printed c) ->
      format_cart_response num_zero num_add num_mul c = Raised OverflowError
      \/ format_cart_response num_zero num_add num_mul c = Raised ValueError).
Proof.
  unfold format_cart_response. pose proof (cart_lines_spec c num_zero) as H.
  destruct (cart_lines num_add num_mul num_zero c) as [t|[]];
    repeat split; intros; try tauto; auto.
Qed.

(** The CONFIRM_ORDER handler: it leaves the context as it is; on a cart
    with lines it replies when the total and the cart text can be computed,
    and raises otherwise. *)
Lemma handle_confirm (kb : KnowledgeBase) (c : @context num)
    (message user_id : string) (menu_items : list menu_item)
    (orders : option (list order_rec)) :
  let h := dispatch kb CONFIRM_ORDER c message user_id menu_items orders in
  fst h = c
  /\ (cart c = [] -> snd h = Returned (Reply RCartEmpty None None))
  /\ (cart c <> [] ->
      (priced num_mul (cart c) -> printed (cart c) ->
       exists subtotals,
         Forall2 (fun i p => num_mul (ci_price i) (quantity i) = Some p)
           (cart c) subtotals
         /\ cart_total num_zero num_add num_mul (cart c)
            = Returned (fold_left num_add subtotals num_zero)
         /\ snd h
            = Returned
                (Reply (ROrderConfirmed (cart c)) (Some "confirm_order")
                   (Some (DataConfirm (cart c)
                            (fold_left num_add subtotals num_zero) true))))
      /\ (~ priced num_mul (cart c) -> snd h = Raised OverflowError)
      /\ (priced num_mul (cart c) -> ~ printed (cart c) ->
          snd h = Raised ValueError)).
Proof.
  cbv zeta. unfold handle.
  pose proof (cart_total_priced (cart c)) as Ht.
  destruct (format_cart_response_cases (cart c)) as (F1 & F2 & _).
  destruct (cart c) as [|line lines] eqn:Hcart.
  - split; [reflexivity|]. split; [reflexivity | congruence].
  - destruct (cart_total num_zero num_add num_mul (line :: lines)) as [total|e].
    + destruct Ht as [Hp (subtotals & Hall & ->)].
      destruct (printed_dec (line :: lines)) as [Hq | Hq].
      * rewrite (F1 Hp Hq). split; [reflexivity|]. split; [discriminate|].
        intros _. split; [|split; intros; contradiction].
        intros _ _. exists subtotals. auto.
      * rewrite (F2 Hp Hq). split; [reflexivity|]. split; [discriminate|].
        intros _. split; [|split]; intros; try contradiction. reflexivity.
    + destruct Ht as [-> Hp]. split; [reflexivity|]. split; [discriminate|].
      intros _. split; [|split]; intros; try contradiction. reflexivity.
Qed.

(** C5, as amended.  In every session the chatbot can reach, the lines of
    the cart have pairwise distinct item identifiers and every quantity is
    at least 0 (a line is created or increased with the extracted
    quantity, which is 0 for a message whose quantity is the digit run 0).
    The ORDER_INTENT handler adds each extracted item with the extracted
    quantity, and leaves the cart as it is when reading the quantity
    raises: for an item already in the cart it adds the quantity to the
    quantity of its line and appends no line.  So ordering the same item
    twice, one at a time, leaves one line of quantity 2. *)
Theorem cart_lines_unique (st : gmap string (@context num)) (u : string)
    (c : context) :
  reachable st -> st !! u = Some c ->
  NoDup (map menu_item_id (cart c))
  /\ Forall (fun i => 0 <= quantity i) (cart c)
  /\ (forall kb message user_id menu_items orders,
        classify_intent message = ORDER_INTENT ->
        cart (session_of
                (fst (process kb st message user_id menu_items orders))
                user_id)
        = match extract_quantity message with
          | Returned q =>
              fold_left (add_to_cart q)
                (extract_menu_items message menu_items)
                (cart (session_of st user_id))
          | Raised _ => cart (session_of st user_id)
          end)
  /\ (forall (item : menu_item) (q : Z),
        In (mi_id item) (map menu_item_id (cart c)) ->
        exists before line after,
          cart c = before ++ line :: after /\
          menu_item_id line = mi_id item /\
          add_to_cart q (cart c) item
          = before
            ++ CartItem (menu_item_id line) (ci_item line) (ci_price line)
                 (quantity line + q)
            :: after)
  /\ (forall kb1 kb2 user_id price orders1 orders2,
        let menu := [MenuItem 1 "Margherita Pizza" price "Pizza" None None] in
        let st1 :=
          fst (process kb1 ∅ "I want a margherita" user_id menu orders1) in
        let st2 :=
          fst (process kb2 st1 "I want a margherita" user_id menu orders2) in
        cart (session_of st2 user_id)
        = [CartItem 1 "Margherita Pizza" price 2]).
Proof.
  intros Hst Hu. destruct (reachable_cart_ok st Hst u c Hu) as [Hnd Hpos].
  split; [exact Hnd|]. split; [exact Hpos|]. split; [|split].
  - intros. apply order_intent_cart. assumption.
  - intros item q Hin. unfold add_to_cart.
    pose proof (bump_spec (mi_id item) q (cart c)) as H.
    destruct (bump (mi_id item) q (cart c)) as [c'|].
    + destruct H as (before & line & after & Hc & Hl & _ & ->).
      exists before, line, after. auto.
    + exfalso. apply in_map_iff in Hin as (i & Hi & Hin).
      rewrite List.Forall_forall in H. exact (H i Hin Hi).
  - intros kb1 kb2 user_id price orders1 orders2. cbv zeta.
    assert (classify_intent "I want a margherita" = ORDER_INTENT) as Hi
      by (vm_compute; reflexivity).
    assert (extract_quantity "I want a margherita" = Returned 1) as Hq
      by (vm_compute; reflexivity).
    assert (extract_menu_items "I want a margherita"
              [MenuItem 1 "Margherita Pizza" price "Pizza" None None]
            = [MenuItem 1 "Margherita Pizza" price "Pizza" None None]) as Hm
      by (vm_compute; reflexivity).
    rewrite !order_intent_cart by exact Hi. rewrite Hq, Hm.
    unfold session_of. rewrite lookup_empty. reflexivity.
Qed.

(** C6, as amended.  The CONFIRM_ORDER handler does not change the cart:
    after the call, whether it returns or raises, the session of the user
    is the one before with only the last intent recorded, and the other
    sessions are untouched.  On an empty cart the reply is the
    nothing-to-confirm one, without action, data or total.  On a cart with
    lines of which every product of price and quantity can be computed and
    every quantity printed, the reply carries the cart, the total (the
    sum, from 0 and in cart order, of these products) and the flag asking
    for the customer's details.  On a cart with a line whose product
    cannot be computed the call raises [OverflowError], and on one whose
    products can all be computed but with a quantity that cannot be
    printed it raises [ValueError]; it gives no reply then. *)
Theorem confirm_order_keeps_cart (kb : KnowledgeBase)
    (st : gmap string (@context num)) (message user_id : string)
    (menu_items : list menu_item) (orders : option (list order_rec)) :
  classify_intent message = CONFIRM_ORDER ->
  let before := session_of st user_id in
  let result := process kb st message user_id menu_items orders in
  fst result = <[user_id := set_last_intent before CONFIRM_ORDER]> st
  /\ cart (session_of (fst result) user_id) = cart before
  /\ (forall u, u <> user_id -> fst result !! u = st !! u)
  /\ (cart before = [] -> snd result = Returned (Reply RCartEmpty None None))
  /\ (cart before <> [] ->
      (priced num_mul (cart before) -> printed (cart before) ->
       exists subtotals,
         Forall2 (fun i p => num_mul (ci_price i) (quantity i) = Some p)
           (cart before) subtotals
         /\ snd result
            = Returned
                (Reply (ROrderConfirmed (cart before)) (Some "confirm_order")
                   (Some (DataConfirm (cart before)
                            (fold_left num_add subtotals num_zero) true))))
      /\ (~ priced num_mul (cart before) -> snd result = Raised OverflowError)
      /\ (priced num_mul (cart before) -> ~ printed (cart before) ->
          snd result = Raised ValueError)).
Proof.
  intros Hi. cbv zeta. rewrite process_message_state. cbv zeta. rewrite Hi.
  destruct (handle_confirm kb
              (set_last_intent (session_of st user_id) CONFIRM_ORDER)
              message user_id menu_items orders) as (Hf & He & Hn).
  change (cart (set_last_intent (session_of st user_id) CONFIRM_ORDER))
    with (cart (session_of st user_id)) in He, Hn.
  cbn [fst snd]. rewrite Hf, session_of_insert.
  split; [reflexivity|]. split; [reflexivity|].
  split; [intros u Hu; apply lookup_insert_ne; congruence|].
  split; [exact He|]. intros Hne. destruct (Hn Hne) as (H1 & H2 & H3).
  split; [|split; assumption].
  intros Hp Hq. destruct (H1 Hp Hq) as (subtotals & Hall & _ & Hr). eauto.
Qed.

(** C9.  For a message classified UNKNOWN, a second call with the same
    message and user leaves the whole session map, and so the cart, the
    last intent and the order history of the user, as the first call left
    it; the first call itself leaves the cart as it was, and both calls
    give the help reply. *)
Theorem unknown_twice (kb1 kb2 : KnowledgeBase)
    (st : gmap string (@context num)) (message user_id : string)
    (menu1 menu2 : list menu_item) (orders1 orders2 : option (list order_rec)) :
  classify_intent message = UNKNOWN ->
  let first := process kb1 st message user_id menu1 orders1 in
  let second := process kb2 (fst first) message user_id menu2 orders2 in
  fst second = fst first
  /\ session_of (fst second) user_id = session_of (fst first) user_id
  /\ cart (session_of (fst first) user_id) = cart (session_of st user_id)
  /\ snd first = Returned (Reply RHelp None None)
  /\ snd second = Returned (Reply RHelp None None).
Proof.
  intros Hi. cbv zeta. rewrite !process_message_state. cbv zeta. rewrite Hi.
  unfold handle, fst, snd. rewrite !session_of_insert.
  rewrite insert_insert_eq.
  repeat split; reflexivity.
Qed.

End ChatbotFacts.

(** ** Order tracking *)

(** Without an order number, and with orders of the user in the snapshot,
    the handler selects the last of them in snapshot order. *)
Lemma target_order_last_match {num : Type} (user_id : string)
    (orders : list (@order_rec num)) :
  List.filter (fun o => String.eqb (phone_str o) user_id) orders <> [] ->
  target_order None user_id orders
  = last (List.filter (fun o => String.eqb (phone_str o) user_id) orders).
Proof.
  intros Hne. unfold target_order.
  destruct (List.filter _ orders); [congruence | reflexivity].
Qed.

(** C1.  On a snapshot sorted newest first that holds two orders of the
    caller, and a tracking message without an order number, the handler
    returns the older of the two orders: it takes the last matching order
    of the snapshot, which is the most recent one only in a snapshot sorted
    oldest first. *)
Theorem track_order_selects_oldest :
  let result :=
    process_message PyFloat.zero PyFloat.add PyFloat.mul sample_kb ∅
      "track my order" "555" sample_menu (Some sample_orders) in
  classify_intent "track my order" = TRACK_ORDER
  /\ order_id_of "track my order" = Returned None
  /\ newest_first sample_orders
  /\ List.filter (fun o => String.eqb (phone_str o) "555") sample_orders
     = [order_new; order_old]
  /\ String.ltb (created order_old) (created order_new) = true
  /\ target_order None "555" sample_orders = Some order_old
  /\ snd result
     = Returned (Reply (ROrderStatus order_old) (Some "show_order_status")
                  (Some (DataOrder order_old))).
Proof.
  cbv zeta. split; [vm_compute; reflexivity|]. split; [vm_compute; reflexivity|].
  split.
  { unfold newest_first, sample_orders.
    repeat constructor; vm_compute; reflexivity. }
  repeat split; vm_compute; reflexivity.
Qed.

(** ** Examples in concrete sessions *)

(** C5, the statement as written fails: a message ordering [0] of an item
    creates a line of quantity 0. *)
Lemma cart_quantity_zero :
  let st :=
    fst (process_message PyFloat.zero PyFloat.add PyFloat.mul sample_kb ∅
           "order 0 margherita" "555" sample_menu None) in
  reachable PyFloat.zero PyFloat.add PyFloat.mul st
  /\ st !! "555"
     = Some (Context [CartItem 1 "Margherita Pizza" price_12_99 0] None
               (Some ORDER_INTENT) [])
  /\ ~ (forall st u c,
          reachable PyFloat.zero PyFloat.add PyFloat.mul st -> st !! u = Some c ->
          Forall (fun i => 1 <= quantity i) (cart c)).
Proof.
  cbv zeta.
  assert (reachable PyFloat.zero PyFloat.add PyFloat.mul
            (fst (process_message PyFloat.zero PyFloat.add PyFloat.mul sample_kb ∅
                    "order 0 margherita" "555" sample_menu None))) as Hr
    by (apply reach_message, reach_start).
  assert (fst (process_message PyFloat.zero PyFloat.add PyFloat.mul sample_kb ∅
                 "order 0 margherita" "555" sample_menu None) !! "555"
          = Some (Context [CartItem 1 "Margherita Pizza" price_12_99 0] None
                    (Some ORDER_INTENT) [])) as Hl
    by (vm_compute; reflexivity).
  split; [exact Hr|]. split; [exact Hl|]. intros Hall.
  specialize (Hall _ _ _ Hr Hl). simpl in Hall.
  inversion Hall as [|? ? Hq _]; subst. simpl in Hq. lia.
Qed.

Lemma cart_lines_unique_witness :
  NoDup (map menu_item_id
           [@CartItem PyFloat.float 1 "Margherita Pizza" price_12_99 2;
            CartItem 3 "Cola" price_1_99 2]).
Proof.
  refine (proj1 (cart_lines_unique PyFloat.zero PyFloat.add PyFloat.mul
                   (fst (process_message PyFloat.zero PyFloat.add PyFloat.mul sample_kb ∅
                           "order two cola and margherita" "555" sample_menu
                           None))
                   "555"
                   (Context [CartItem 1 "Margherita Pizza" price_12_99 2;
                             CartItem 3 "Cola" price_1_99 2]
                      None (Some ORDER_INTENT) [])
                   _ _)).
  - apply reach_message, reach_start.
  - vm_compute. reflexivity.
Defined.

(** C6, the statement as written fails: a quantity too large to be
    converted to a float enters the cart (the line is written before the
    cart text is computed, which raises), and from then on a confirmation
    raises [OverflowError] on a cart that is not empty. *)
Lemma confirm_order_overflow :
  let st :=
    fst (process_message PyFloat.zero PyFloat.add PyFloat.mul sample_kb ∅ huge_order "555" sample_menu None) in
  reachable PyFloat.zero PyFloat.add PyFloat.mul st
  /\ cart (session_of st "555")
     = [CartItem 1 "Margherita Pizza" price_12_99 (10 ^ 400)]
  /\ classify_intent "yes" = CONFIRM_ORDER
  /\ snd (process_message PyFloat.zero PyFloat.add PyFloat.mul sample_kb st "yes" "555" sample_menu None)
     = Raised OverflowError
  /\ ~ (forall st message user_id,
          reachable PyFloat.zero PyFloat.add PyFloat.mul st ->
          classify_intent message = CONFIRM_ORDER ->
          cart (session_of st user_id) <> [] ->
          exists r,
            snd (process_message PyFloat.zero PyFloat.add PyFloat.mul sample_kb st message user_id sample_menu
                   None)
            = Returned r).
Proof.
  cbv zeta.
  assert (reachable PyFloat.zero PyFloat.add PyFloat.mul
            (fst (process_message PyFloat.zero PyFloat.add PyFloat.mul sample_kb ∅ huge_order "555" sample_menu
                    None))) as Hr
    by (apply reach_message, reach_start).
  assert (cart (session_of
                  (fst (process_message PyFloat.zero PyFloat.add PyFloat.mul sample_kb ∅ huge_order "555"
                          sample_menu None)) "555")
          = [CartItem 1 "Margherita Pizza" price_12_99 (10 ^ 400)]) as Hc
    by (vm_compute; reflexivity).
  assert (classify_intent "yes" = CONFIRM_ORDER) as Hi
    by (vm_compute; reflexivity).
  assert (snd (process_message PyFloat.zero PyFloat.add PyFloat.mul sample_kb
                 (fst (process_message PyFloat.zero PyFloat.add PyFloat.mul sample_kb ∅ huge_order "555"
                         sample_menu None))
                 "yes" "555" sample_menu None)
          = Raised OverflowError) as Ho
    by (vm_compute; reflexivity).
  split; [exact Hr|]. split; [exact Hc|]. split; [exact Hi|].
  split; [exact Ho|]. intros Hall.
  destruct (Hall _ "yes" "555" Hr Hi) as [r Hret].
  - rewrite Hc. discriminate.
  - rewrite Ho in Hret. discriminate.
Qed.

Lemma confirm_order_keeps_cart_witness :
  let st :=
    fst (process_message PyFloat.zero PyFloat.add PyFloat.mul sample_kb ∅ "order two cola" "555" sample_menu
           None) in
  cart (session_of
          (fst (process_message PyFloat.zero PyFloat.add PyFloat.mul sample_kb st "yes" "555" sample_menu None))
          "555")
  = cart (session_of st "555").
Proof.
  refine (proj1 (proj2
            (confirm_order_keeps_cart PyFloat.zero PyFloat.add PyFloat.mul sample_kb _ "yes" "555"
               sample_menu None _))).
  vm_compute. reflexivity.
Defined.

Lemma unknown_twice_witness :
  let first :=
    process_message PyFloat.zero PyFloat.add PyFloat.mul sample_kb ∅ "asdf" "555" sample_menu None in
  fst (process_message PyFloat.zero PyFloat.add PyFloat.mul sample_kb (fst first) "asdf" "555"
         sample_menu (Some sample_orders))
  = fst first.
Proof.
  refine (proj1 (unknown_twice PyFloat.zero PyFloat.add PyFloat.mul sample_kb sample_kb ∅ "asdf" "555"
                   sample_menu sample_menu None (Some sample_orders) _)).
  vm_compute. reflexivity.
Defined.


(** * Further properties of the code *)

(** ** Case and blanks *)

Lemma lower_char_idem (c : ascii) :
  PyStr.lower_char (PyStr.lower_char c) = PyStr.lower_char c.
Proof. destruct c as [[|] [|] [|] [|] [|] [|] [|] [|]]; reflexivity. Qed.

Lemma isspace_lower_char (c : ascii) :
  PyStr.isspace (PyStr.lower_char c) = PyStr.isspace c.
Proof. destruct c as [[|] [|] [|] [|] [|] [|] [|] [|]]; reflexivity. Qed.

Lemma isdigit_lower_char (c : ascii) :
  PyStr.isdigit (PyStr.lower_char c) = PyStr.isdigit c.
Proof. destruct c as [[|] [|] [|] [|] [|] [|] [|] [|]]; reflexivity. Qed.

Lemma digit_lower_char (c : ascii) :
  PyStr.isdigit c = true -> PyStr.lower_char c = c.
Proof. destruct c as [[|] [|] [|] [|] [|] [|] [|] [|]]; (reflexivity || discriminate). Qed.

Lemma lower_idem (s : string) : PyStr.lower (PyStr.lower s) = PyStr.lower s.
Proof.
  induction s as [|c s IH]; [reflexivity|].
  unfold PyStr.lower in *. simpl. rewrite lower_char_idem, IH. reflexivity.
Qed.

Lemma lower_cons (c : ascii) (s : string) :
  PyStr.lower (String c s) = String (PyStr.lower_char c) (PyStr.lower s).
Proof. reflexivity. Qed.

Lemma lstrip_lower (s : string) :
  PyStr.lstrip (PyStr.lower s) = PyStr.lower (PyStr.lstrip s).
Proof.
  induction s as [|c s IH]; [reflexivity|].
  rewrite lower_cons. simpl. rewrite isspace_lower_char.
  destruct (PyStr.isspace c); [exact IH | reflexivity].
Qed.

Lemma rstrip_lower (s : string) :
  PyStr.rstrip (PyStr.lower s) = PyStr.lower (PyStr.rstrip s).
Proof.
  induction s as [|c s IH]; [reflexivity|].
  rewrite lower_cons. simpl. rewrite IH, isspace_lower_char.
  destruct (PyStr.rstrip s) as [|d r]; simpl.
  - destruct (PyStr.isspace c); reflexivity.
  - reflexivity.
Qed.

Lemma strip_lower (s : string) :
  PyStr.strip (PyStr.lower s) = PyStr.lower (PyStr.strip s).
Proof. unfold PyStr.strip. rewrite lstrip_lower, rstrip_lower. reflexivity. Qed.

Lemma lstrip_headed (s : string) : headed (PyStr.lstrip s).
Proof.
  induction s as [|c s IH]; simpl; [exact I|].
  destruct (PyStr.isspace c) eqn:Hc; [exact IH | exact Hc].
Qed.

Lemma lstrip_of_headed (s : string) : headed s -> PyStr.lstrip s = s.
Proof. destruct s as [|c s]; simpl; [reflexivity|]. intros ->. reflexivity. Qed.

Lemma rstrip_headed (s : string) : headed s -> headed (PyStr.rstrip s).
Proof.
  destruct s as [|c s]; simpl; [auto|]. intros Hc.
  destruct (PyStr.rstrip s); simpl; [rewrite Hc|]; exact Hc.
Qed.

Lemma rstrip_idem (s : string) : PyStr.rstrip (PyStr.rstrip s) = PyStr.rstrip s.
Proof.
  induction s as [|c s IH]; [reflexivity|]. simpl.
  destruct (PyStr.rstrip s) as [|d r] eqn:Hr.
  - destruct (PyStr.isspace c) eqn:Hc; simpl; [reflexivity|].
    rewrite Hc. reflexivity.
  - change (PyStr.rstrip (String c (String d r)))
      with (match PyStr.rstrip (String d r) with
            | EmptyString =>
                if PyStr.isspace c then EmptyString else String c EmptyString
            | String a r' => String c (String a r')
            end).
    rewrite IH. reflexivity.
Qed.

Lemma strip_idem (s : string) : PyStr.strip (PyStr.strip s) = PyStr.strip s.
Proof.
  unfold PyStr.strip.
  rewrite (lstrip_of_headed (PyStr.rstrip (PyStr.lstrip s)))
    by apply rstrip_headed, lstrip_headed.
  apply rstrip_idem.
Qed.

Lemma lstrip_blank (s : string) : blank s -> PyStr.lstrip s = "".
Proof.
  unfold blank. induction s as [|c s IH]; simpl; [reflexivity|].
  intros H. apply andb_true_iff in H as [-> Hs]. exact (IH Hs).
Qed.

Lemma blank_lower (s : string) : blank s -> blank (PyStr.lower s).
Proof.
  unfold blank. induction s as [|c s IH]; simpl; [reflexivity|].
  intros H. apply andb_true_iff in H as [Hc Hs].
  rewrite isspace_lower_char, Hc. exact (IH Hs).
Qed.

(** X1.  The classification looks at the message without its case and
    without the blanks around it: lower-casing the message, or trimming
    it, does not change the intent. *)
Theorem classify_intent_normalised (m : string) :
  classify_intent (PyStr.lower m) = classify_intent m
  /\ classify_intent (PyStr.strip m) = classify_intent m.
Proof.
  unfold classify_intent. split.
  - rewrite lower_idem. reflexivity.
  - rewrite <- strip_lower, strip_idem. reflexivity.
Qed.

(** ** Menu item extraction *)

Lemma mentionsb_spec {num : Type} (text : string) (item : @menu_item num) :
  mentionsb text item = true <-> mentions text item.
Proof.
  unfold mentionsb, mentions. cbv zeta.
  rewrite !orb_true_iff, andb_true_iff, existsb_exists, Nat.leb_le,
    !contains_spec.
  split.
  - intros [[H | (w & Hw & Hl)] | H]; [auto | | auto].
    apply andb_true_iff in Hl as [Hlen Hc]. right. left. exists w.
    unfold long_word in Hlen. apply Nat.ltb_lt in Hlen.
    apply contains_spec in Hc. auto.
  - intros [H | [(w & Hw & Hlen & Hc) | H]]; [auto | | auto].
    left. right. exists w. split; [exact Hw|]. apply andb_true_iff.
    split; [apply Nat.ltb_lt, Hlen | apply contains_spec, Hc].
Qed.

Section Extraction.

Context {num : Type} {num_eq_dec : EqDecision num}.

Lemma add_found_idem (item : @menu_item num) (found : list menu_item) :
  add_found item (add_found item found) = add_found item found.
Proof.
  unfold add_found. destruct (bool_decide (item ∈ found)) eqn:H.
  - rewrite H. reflexivity.
  - rewrite bool_decide_true; [reflexivity|].
    apply list_elem_of_In, in_or_app. right. left. reflexivity.
Qed.

(** The four checks amount to one test. *)
Lemma check_item_spec (text : string) (item : @menu_item num)
    (found : list menu_item) :
  check_item text item found
  = if mentionsb text item then add_found item found else found.
Proof.
  unfold check_item, mentionsb. cbv zeta.
  generalize (PyStr.split (PyStr.lower (mi_item item))). intros words.
  destruct (PyStr.contains (PyStr.lower (mi_item item)) text); [reflexivity|].
  cbn [orb].
  assert (long_word (hd "" words) && PyStr.contains (hd "" words) text = true ->
          existsb (fun word => long_word word && PyStr.contains word text) words
          = true) as H2.
  { destruct words as [|w ws]; simpl; [discriminate|]. intros ->. reflexivity. }
  destruct (long_word (hd "" words) && PyStr.contains (hd "" words) text).
  - rewrite (H2 eq_refl). reflexivity.
  - clear H2.
    destruct (existsb (fun word => long_word word && PyStr.contains word text)
                words);
      destruct (2 <=? length words)%nat; cbn [orb andb]; try reflexivity;
      destruct (PyStr.contains (PyStr.join " " (take 2 words)) text);
      try reflexivity.
    apply add_found_idem.
Qed.

Lemma fold_check_item (text : string) (menu : list (@menu_item num)) :
  forall acc : list menu_item,
    NoDup acc ->
    let r := fold_left (fun found item => check_item text item found) menu acc in
    NoDup r
    /\ (forall x, In x r <-> In x acc \/ (In x menu /\ mentionsb text x = true))
    /\ exists tl, r = acc ++ tl /\ sublist tl menu.
Proof.
  induction menu as [|i menu IH]; intros acc Hnd; cbv zeta; simpl.
  - split; [exact Hnd|]. split; [intros x; tauto|].
    exists []. split; [symmetry; apply List.app_nil_r | constructor].
  - rewrite check_item_spec. destruct (mentionsb text i) eqn:Hm.
    + unfold add_found. destruct (bool_decide (i ∈ acc)) eqn:Hin.
      * apply bool_decide_eq_true, list_elem_of_In in Hin.
        destruct (IH acc Hnd) as (H1 & H2 & tl & H3 & H4).
        split; [exact H1|]. split.
        -- intros x. rewrite H2. split; [intros [H | [H H']]; auto|].
           intros [H | [[<- | H] H']]; auto.
        -- exists tl. split; [exact H3 | constructor; exact H4].
      * apply bool_decide_eq_false in Hin.
        assert (NoDup (acc ++ [i])) as Hnd'.
        { apply NoDup_app. split; [exact Hnd|]. split; [|apply NoDup_singleton].
          intros x Hx Hx'. apply list_elem_of_singleton in Hx'. subst. auto. }
        destruct (IH (acc ++ [i]) Hnd') as (H1 & H2 & tl & H3 & H4).
        split; [exact H1|]. split.
        -- intros x. rewrite H2, in_app_iff. simpl. split.
           ++ intros [[H | [<- | []]] | [H H']]; auto.
           ++ intros [H | [[<- | H] H']]; auto.
        -- exists (i :: tl). split; [rewrite H3, <- List.app_assoc; reflexivity|].
           constructor. exact H4.
    + destruct (IH acc Hnd) as (H1 & H2 & tl & H3 & H4).
      split; [exact H1|]. split.
      * intros x. rewrite H2. split; [intros [H | [H H']]; auto|].
        intros [H | [[<- | H] H']]; auto. congruence.
      * exists tl. split; [exact H3 | constructor; exact H4].
Qed.

Lemma extract_menu_items_In (m : string) (menu : list (@menu_item num))
    (item : menu_item) :
  In item (extract_menu_items m menu) <->
  In item menu /\ mentions (normalized m) item.
Proof.
  unfold extract_menu_items. cbv zeta.
  destruct (fold_check_item (normalized m) menu [] NoDup_nil_2) as (_ & H2 & _).
  unfold normalized in *. cbv zeta in H2.
  rewrite H2, mentionsb_spec. simpl. tauto.
Qed.

Lemma fold_check_item_head (text : string) (menu : list (@menu_item num)) :
  forall acc : list menu_item,
    NoDup acc ->
    head (fold_left (fun found item => check_item text item found) menu acc)
    = match acc with
      | a :: _ => Some a
      | [] => List.find (mentionsb text) menu
      end.
Proof.
  intros acc Hnd.
  destruct acc as [|a acc].
  - induction menu as [|i menu IH]; simpl; [reflexivity|].
    rewrite check_item_spec. destruct (mentionsb text i); [|exact IH].
    unfold add_found. simpl.
    destruct (fold_check_item text menu [i] (NoDup_singleton i))
      as (_ & _ & tl & H & _).
    cbv zeta in H. rewrite H. reflexivity.
  - destruct (fold_check_item text menu (a :: acc) Hnd) as (_ & _ & tl & H & _).
    cbv zeta in H. rewrite H. reflexivity.
Qed.

(** The first item returned is the first item of the menu that the
    message mentions. *)
Lemma extract_menu_items_head (m : string) (menu : list (@menu_item num)) :
  head (extract_menu_items m menu)
  = List.find (mentionsb (normalized m)) menu.
Proof.
  unfold extract_menu_items. cbv zeta.
  apply (fold_check_item_head (normalized m) menu [] NoDup_nil_2).
Qed.

(** X2.  [extract_menu_items] returns exactly the items of the menu that
    the normalized message mentions, each once, in the order of the menu. *)
Theorem extract_menu_items_spec (m : string) (menu : list (@menu_item num)) :
  (forall item,
     In item (extract_menu_items m menu) <->
     In item menu /\ mentions (normalized m) item)
  /\ NoDup (extract_menu_items m menu)
  /\ sublist (extract_menu_items m menu) menu.
Proof.
  unfold extract_menu_items. cbv zeta.
  destruct (fold_check_item (normalized m) menu [] NoDup_nil_2)
    as (H1 & H2 & tl & H3 & H4).
  unfold normalized in *. cbv zeta in *. split; [|split].
  - intros item. rewrite H2, mentionsb_spec. simpl. tauto.
  - exact H1.
  - rewrite H3. exact H4.
Qed.

End Extraction.

(** ** Sessions and handlers *)

Section SessionFacts.

Context {num : Type} {num_eq_dec : EqDecision num}.
Variable num_zero : num.
Variable num_add : num -> num -> num.
Variable num_mul : num -> Z -> option num.

Local Abbreviation dispatch := (handle num_zero num_add num_mul).
Local Abbreviation process := (process_message num_zero num_add num_mul).
Local Abbreviation reachable := (reachable num_zero num_add num_mul).
Local Abbreviation talk := (chat num_zero num_add num_mul).

Ltac handler_cases :=
  repeat match goal with
         | |- context [match ?x with _ => _ end] => destruct x eqn:?
         end.

(** A handler writes nothing but the cart, and only the ORDER_INTENT and
    CANCEL_ORDER handlers write it. *)
Lemma handle_frame (kb : KnowledgeBase) (i : intent) (c : @context num)
    (message user_id : string) (menu_items : list menu_item)
    (orders : option (list order_rec)) :
  let c' := fst (dispatch kb i c message user_id menu_items orders) in
  pending_order c' = pending_order c
  /\ order_history c' = order_history c
  /\ last_intent c' = last_intent c
  /\ (i <> ORDER_INTENT -> i <> CANCEL_ORDER -> c' = c).
Proof.
  cbv zeta. destruct i; unfold handle; handler_cases; simpl;
    repeat split; try reflexivity; try congruence.
Qed.

Lemma process_message_session (kb : KnowledgeBase)
    (st : gmap string (@context num)) (message user_id : string)
    (menu_items : list menu_item) (orders : option (list order_rec)) :
  session_of (fst (process kb st message user_id menu_items orders)) user_id
  = fst (dispatch kb (classify_intent message)
           (set_last_intent (session_of st user_id) (classify_intent message))
           message user_id menu_items orders).
Proof.
  rewrite (process_message_state num_zero num_add num_mul). cbv zeta. simpl fst.
  apply session_of_insert.
Qed.

Lemma process_message_reply (kb : KnowledgeBase)
    (st : gmap string (@context num)) (message user_id : string)
    (menu_items : list menu_item) (orders : option (list order_rec)) :
  snd (process kb st message user_id menu_items orders)
  = snd (dispatch kb (classify_intent message)
           (set_last_intent (session_of st user_id) (classify_intent message))
           message user_id menu_items orders).
Proof.
  rewrite (process_message_state num_zero num_add num_mul). reflexivity.
Qed.

Lemma process_message_others (kb : KnowledgeBase)
    (st : gmap string (@context num)) (message user_id : string)
    (menu_items : list menu_item) (orders : option (list order_rec))
    (u : string) :
  u <> user_id ->
  fst (process kb st message user_id menu_items orders) !! u = st !! u.
Proof.
  intros Hu. rewrite (process_message_state num_zero num_add num_mul).
  cbv zeta. simpl fst. apply lookup_insert_ne. congruence.
Qed.

(** X3.  A message of one user leaves the session of every other user as
    it is; after it the user has a session, whose last intent is the
    intent of the message and whose pending order and order history are
    as before. *)
Theorem process_message_own_session (kb : KnowledgeBase)
    (st : gmap string (@context num)) (message user_id : string)
    (menu_items : list menu_item) (orders : option (list order_rec)) :
  let st' := fst (process kb st message user_id menu_items orders) in
  (forall u, u <> user_id -> st' !! u = st !! u)
  /\ st' !! user_id = Some (session_of st' user_id)
  /\ last_intent (session_of st' user_id) = Some (classify_intent message)
  /\ pending_order (session_of st' user_id)
     = pending_order (session_of st user_id)
  /\ order_history (session_of st' user_id)
     = order_history (session_of st user_id).
Proof.
  cbv zeta. split; [intros u Hu; apply process_message_others, Hu|].
  split.
  { rewrite (process_message_state num_zero num_add num_mul). cbv zeta.
    simpl fst. rewrite session_of_insert. apply lookup_insert_eq. }
  rewrite process_message_session.
  destruct (handle_frame kb (classify_intent message)
              (set_last_intent (session_of st user_id) (classify_intent message))
              message user_id menu_items orders) as (H1 & H2 & H3 & _).
  cbv zeta in *. rewrite H1, H2, H3. repeat split.
Qed.

(** X4.  The reply to a message and the session it leaves depend on the
    session map only through the session of the user: with two session
    maps that agree on it, they are the same. *)
Theorem process_message_reads_own_session (kb : KnowledgeBase)
    (st1 st2 : gmap string (@context num)) (message user_id : string)
    (menu_items : list menu_item) (orders : option (list order_rec)) :
  session_of st1 user_id = session_of st2 user_id ->
  snd (process kb st1 message user_id menu_items orders)
  = snd (process kb st2 message user_id menu_items orders)
  /\ session_of (fst (process kb st1 message user_id menu_items orders)) user_id
     = session_of (fst (process kb st2 message user_id menu_items orders)) user_id.
Proof.
  intros H. rewrite !process_message_reply, !process_message_session, H.
  split; reflexivity.
Qed.

(** X5.  In every session the chatbot can reach, the pending order is
    unset and the order history is empty: no handler ever writes them. *)
Theorem unused_fields_stay_empty (st : gmap string (@context num))
    (u : string) (c : context) :
  reachable st -> st !! u = Some c ->
  pending_order c = None /\ order_history c = [].
Proof.
  intros Hst. revert u c.
  induction Hst as [|st kb m user_id menu orders _ IH|st user_id _ IH];
    intros u c Hu.
  - rewrite lookup_empty in Hu. discriminate.
  - destruct (decide (u = user_id)) as [->|Hne].
    + assert (c = session_of
                    (fst (process kb st m user_id menu orders)) user_id) as ->.
      { unfold session_of. rewrite Hu. reflexivity. }
      rewrite process_message_session.
      destruct (handle_frame kb (classify_intent m)
                  (set_last_intent (session_of st user_id) (classify_intent m))
                  m user_id menu orders) as (H1 & H2 & _).
      cbv zeta in *. rewrite H1, H2. simpl. unfold session_of.
      destruct (st !! user_id) as [c0|] eqn:Hc0; simpl; [|auto].
      exact (IH _ _ Hc0).
    + rewrite process_message_others in Hu by exact Hne. exact (IH _ _ Hu).
  - unfold clear_cart in Hu. destruct (st !! user_id) as [c0|] eqn:Hc0.
    + destruct (decide (user_id = u)) as [->|Hne].
      * rewrite lookup_insert_eq in Hu. injection Hu as <-. simpl.
        exact (IH _ _ Hc0).
      * rewrite lookup_insert_ne in Hu by exact Hne. exact (IH _ _ Hu).
    + exact (IH _ _ Hu).
Qed.

(** X6.  Only an ORDER_INTENT or a CANCEL_ORDER message changes a cart:
    after a message of any other intent the cart of the user is the one
    before. *)
Theorem cart_changes_only_by_order_or_cancel (kb : KnowledgeBase)
    (st : gmap string (@context num)) (message user_id : string)
    (menu_items : list menu_item) (orders : option (list order_rec)) :
  classify_intent message <> ORDER_INTENT ->
  classify_intent message <> CANCEL_ORDER ->
  cart (session_of (fst (process kb st message user_id menu_items orders))
          user_id)
  = cart (session_of st user_id).
Proof.
  intros H1 H2. rewrite process_message_session.
  destruct (handle_frame kb (classify_intent message)
              (set_last_intent (session_of st user_id) (classify_intent message))
              message user_id menu_items orders) as (_ & _ & _ & H).
  cbv zeta in H. rewrite (H H1 H2). reflexivity.
Qed.

Lemma set_last_intent_same (c : @context num) (i : intent) :
  last_intent c = Some i -> set_last_intent c i = c.
Proof. destruct c. simpl. intros ->. reflexivity. Qed.

Lemma handle_cancel (kb : KnowledgeBase) (c : @context num)
    (message user_id : string) (menu_items : list menu_item)
    (orders : option (list order_rec)) :
  dispatch kb CANCEL_ORDER c message user_id menu_items orders
  = match cart c with
    | [] => (c, Returned (Reply RNothingToCancel None None))
    | _ :: _ =>
        (set_cart c [], Returned (Reply RCartCleared (Some "clear_cart") None))
    end.
Proof. reflexivity. Qed.

(** X7.  After a CANCEL_ORDER message the cart of the user is empty.  The
    reply says that the cart was cleared, with the action [clear_cart],
    when it had lines, and that there is nothing to cancel otherwise; a
    second cancel message gets the latter reply and changes nothing. *)
Theorem cancel_order_empties_cart (kb kb' : KnowledgeBase)
    (st : gmap string (@context num)) (message user_id : string)
    (menu_items menu_items' : list menu_item)
    (orders orders' : option (list order_rec)) :
  classify_intent message = CANCEL_ORDER ->
  let first := process kb st message user_id menu_items orders in
  let second := process kb' (fst first) message user_id menu_items' orders' in
  cart (session_of (fst first) user_id) = []
  /\ snd first
     = match cart (session_of st user_id) with
       | [] => Returned (Reply RNothingToCancel None None)
       | _ :: _ => Returned (Reply RCartCleared (Some "clear_cart") None)
       end
  /\ snd second = Returned (Reply RNothingToCancel None None)
  /\ fst second = fst first.
Proof.
  intros Hi. cbv zeta.
  rewrite (process_message_state num_zero num_add num_mul kb st). cbv zeta.
  rewrite (process_message_state num_zero num_add num_mul kb'). cbv zeta.
  rewrite Hi. cbn [fst snd]. rewrite !session_of_insert.
  set (c0 := set_last_intent (session_of st user_id) CANCEL_ORDER).
  assert (cart c0 = cart (session_of st user_id)) as Hc0 by reflexivity.
  assert (last_intent c0 = Some CANCEL_ORDER) as Hl0 by reflexivity.
  rewrite (handle_cancel kb c0). rewrite Hc0.
  destruct (cart (session_of st user_id)) as [|line lines]; cbn [fst snd].
  - rewrite (set_last_intent_same c0 _ Hl0), (handle_cancel kb' c0), Hc0.
    cbn [fst snd]. rewrite insert_insert_eq. auto.
  - rewrite (set_last_intent_same (set_cart c0 []) CANCEL_ORDER Hl0).
    rewrite (handle_cancel kb' (set_cart c0 [])). cbn [fst snd cart set_cart].
    rewrite insert_insert_eq. auto.
Qed.

(** *** Orders into the cart *)







(** *** Order tracking *)

Lemma order_id_of_run (m ds : string) :
  first_digit_run m ds ->
  order_id_of m
  = match PyStr.int ds with
    | Returned n => Returned (Some n)
    | Raised e => Raised e
    end.
Proof.
  intros Hrun. unfold order_id_of.
  destruct (findall_digits_first m ds Hrun) as [more ->]. reflexivity.
Qed.

Lemma order_id_of_none (m : string) :
  digit_free m -> order_id_of m = Returned None.
Proof.
  intros H. unfold order_id_of. rewrite (findall_digits_none m H). reflexivity.
Qed.

Lemma handle_track (kb : KnowledgeBase) (c : @context num)
    (message user_id : string) (menu_items : list menu_item)
    (o0 : order_rec) (os : list order_rec) :
  snd (dispatch kb TRACK_ORDER c message user_id menu_items (Some (o0 :: os)))
  = match order_id_of message with
    | Raised e => Raised e
    | Returned order_id =>
        match target_order order_id user_id (o0 :: os) with
        | Some o =>
            if PyStr.printable (o_id o)
            then Returned (Reply (ROrderStatus o) (Some "show_order_status")
                             (Some (DataOrder o)))
            else Raised ValueError
        | None =>
            match order_id with
            | Some n =>
                if negb (n =? 0)
                then
                  if PyStr.printable n
                  then Returned (Reply (ROrderNotFound n) None None)
                  else Raised ValueError
                else Returned (Reply RNoOrdersFound None None)
            | None => Returned (Reply RNoOrdersFound None None)
            end
        end
    end.
Proof.
  unfold handle. destruct (order_id_of message) as [order_id|e]; [|reflexivity].
  destruct (target_order order_id user_id (o0 :: os)) as [o|].
  - destruct (PyStr.printable (o_id o)); reflexivity.
  - destruct order_id as [n|]; [|reflexivity].
    destruct (negb (n =? 0)); [|reflexivity].
    destruct (PyStr.printable n); reflexivity.
Qed.

(** X9.  A TRACK_ORDER message with a run of digits is answered, on a
    snapshot that is not empty, from its first run of digits alone.  When
    the run has at most 4300 digits and writes a number other than 0, the
    answer is the first order of the snapshot that has the number, wherever
    it is and whoever asks, and the order-not-found reply when no order has
    it.  When the run is longer, the call raises [ValueError].  On an
    empty snapshot the reply is that there are no orders yet, whatever the
    run. *)
Theorem track_order_by_number (kb : KnowledgeBase)
    (st : gmap string (@context num)) (message user_id : string)
    (menu_items : list menu_item) (orders : list order_rec) (ds : string) :
  classify_intent message = TRACK_ORDER ->
  first_digit_run message ds ->
  let r := snd (process kb st message user_id menu_items (Some orders)) in
  let n := digits_value ds in
  match orders with
  | [] => r = Returned (Reply RNoOrdersYet None None)
  | _ :: _ =>
      (~ readable ds -> r = Raised ValueError)
      /\ (readable ds -> n <> 0 ->
          match List.find (fun o => o_id o =? n) orders with
          | Some o =>
              o_id o = n /\ In o orders
              /\ r = Returned (Reply (ROrderStatus o) (Some "show_order_status")
                                 (Some (DataOrder o)))
          | None =>
              (forall o, In o orders -> o_id o <> n)
              /\ r = Returned (Reply (ROrderNotFound n) None None)
          end)
  end.
Proof.
  intros Hi Hrun. cbv zeta. rewrite process_message_reply, Hi.
  destruct orders as [|o0 os]; [reflexivity|].
  rewrite handle_track, (order_id_of_run message ds Hrun). split.
  - intros Hr. rewrite (int_unreadable ds Hr). reflexivity.
  - intros Hr Hn. rewrite (int_readable ds Hr). unfold target_order.
    assert (PyStr.printable (digits_value ds) = true) as Hprint.
    { destruct Hrun as (_ & _ & _ & _ & _ & Hds & _).
      apply digits_value_printable; assumption. }
    assert ((digits_value ds =? 0) = false) as Hz by (apply Z.eqb_neq, Hn).
    rewrite Hz. cbn [negb].
    destruct (List.find (fun o => o_id o =? digits_value ds) (o0 :: os))
      as [o|] eqn:Hf.
    + apply find_some in Hf as [Hin Ho]. apply Z.eqb_eq in Ho.
      rewrite Ho, Hprint. auto.
    + rewrite Hprint. split; [|reflexivity]. intros o Ho.
      apply (find_none _ _ Hf) in Ho. apply Z.eqb_neq, Ho.
Qed.

(** X10.  A TRACK_ORDER message without a digit, or whose first run of
    digits has at most 4300 digits and writes the number 0, on a snapshot
    that is not empty and whose order numbers can be printed, as those
    given by a database can, always shows an order: the last order of the
    snapshot whose customer phone is the user's identifier, or, when there
    is none, the first order of the snapshot. *)
Theorem track_order_without_number (kb : KnowledgeBase)
    (st : gmap string (@context num)) (message user_id : string)
    (menu_items : list menu_item) (orders : list order_rec) :
  classify_intent message = TRACK_ORDER ->
  digit_free message
  \/ (exists ds, first_digit_run message ds /\ readable ds
                 /\ digits_value ds = 0) ->
  orders <> [] ->
  Forall (fun o => PyStr.printable (o_id o) = true) orders ->
  let mine :=
    List.filter (fun o => String.eqb (phone_str o) user_id) orders in
  exists o,
    snd (process kb st message user_id menu_items (Some orders))
    = Returned (Reply (ROrderStatus o) (Some "show_order_status")
                  (Some (DataOrder o)))
    /\ In o orders
    /\ match mine with
       | [] => head orders = Some o
       | _ :: _ => last mine = Some o /\ phone_str o = user_id
       end.
Proof.
  intros Hi Hid Hne Hprint. cbv zeta. rewrite process_message_reply, Hi.
  destruct orders as [|o0 os]; [congruence|].
  rewrite handle_track.
  assert (exists order_id,
            order_id_of message = Returned order_id
            /\ target_order order_id user_id (o0 :: os)
               = match List.filter (fun o => String.eqb (phone_str o) user_id)
                         (o0 :: os) with
                 | [] => head (o0 :: os)
                 | _ :: _ =>
                     last (List.filter
                             (fun o => String.eqb (phone_str o) user_id)
                             (o0 :: os))
                 end) as (order_id & -> & ->).
  { destruct Hid as [Hfree | (ds & Hrun & Hr & Hz)].
    - exists None. split; [apply order_id_of_none, Hfree | reflexivity].
    - exists (Some 0). split; [|reflexivity].
      rewrite (order_id_of_run message ds Hrun), (int_readable ds Hr), Hz.
      reflexivity. }
  rewrite List.Forall_forall in Hprint.
  destruct (List.filter (fun o => String.eqb (phone_str o) user_id) (o0 :: os))
    as [|x l] eqn:Hf.
  - exists o0. cbn [head]. rewrite (Hprint o0) by (left; reflexivity).
    repeat split. left. reflexivity.
  - destruct (last (x :: l)) as [o|] eqn:Hl.
    + exists o.
      assert (In o (x :: l)) as Hin.
      { apply last_Some in Hl as [l' Hl']. rewrite Hl'.
        apply in_or_app. right. left. reflexivity. }
      rewrite <- Hf in Hin. apply filter_In in Hin as [Hin Hp].
      apply String.eqb_eq in Hp. rewrite (Hprint o Hin). auto.
    + apply last_None in Hl. discriminate.
Qed.

Lemma target_order_none (order_id : option Z) (user_id : string)
    (orders : list (@order_rec num)) :
  orders <> [] -> target_order order_id user_id orders = None ->
  exists n, order_id = Some n /\ (n =? 0) = false.
Proof.
  intros Hne. unfold target_order.
  assert (match List.filter (fun o => String.eqb (phone_str o) user_id) orders with
          | [] => head orders
          | _ :: _ =>
              last (List.filter (fun o => String.eqb (phone_str o) user_id) orders)
          end <> None) as Hsome.
  { destruct (List.filter _ orders) as [|x l].
    - intros H. apply head_None in H. contradiction.
    - intros H. apply last_None in H. discriminate. }
  destruct order_id as [n|]; [|intros H; contradiction].
  destruct (n =? 0) eqn:Hz; cbn [negb]; [intros H; contradiction|].
  intros _. eauto.
Qed.

(** X11.  The reply that no order could be found at all is never given:
    with an order snapshot that is not empty a tracking message gets an
    order or the order-not-found reply for its number, and with an empty or
    absent snapshot it gets the reply that there are no orders yet. *)
Theorem no_orders_found_never_replied (kb : KnowledgeBase)
    (st : gmap string (@context num)) (message user_id : string)
    (menu_items : list menu_item) (orders : option (list order_rec)) :
  (forall r,
     snd (process kb st message user_id menu_items orders) = Returned r ->
     r_response r <> RNoOrdersFound)
  /\ (classify_intent message = TRACK_ORDER ->
      snd (process kb st message user_id menu_items None)
      = Returned (Reply RNoOrdersYet None None)
      /\ snd (process kb st message user_id menu_items (Some []))
         = Returned (Reply RNoOrdersYet None None)).
Proof.
  split.
  - rewrite process_message_reply.
    destruct (classify_intent message) eqn:Hi;
      try (unfold handle; handler_cases; intros r Hr; cbn [snd] in Hr;
           first [discriminate Hr | injection Hr as <-; discriminate]).
    destruct orders as [[|o0 os]|];
      try (unfold handle; intros r Hr; cbn [snd] in Hr; injection Hr as <-;
           discriminate).
    rewrite handle_track.
    destruct (order_id_of message) as [order_id|e]; [|discriminate].
    destruct (target_order order_id user_id (o0 :: os)) as [o|] eqn:Ht.
    + destruct (PyStr.printable (o_id o)); [|discriminate].
      intros r [= <-]. discriminate.
    + apply target_order_none in Ht as (n & -> & Hz); [|discriminate].
      rewrite Hz. cbn [negb].
      destruct (PyStr.printable n); [|discriminate].
      intros r [= <-]. discriminate.
  - intros Hi. rewrite !process_message_reply, Hi. split; reflexivity.
Qed.

(** *** Confirmation and the chat endpoint *)

Lemma handle_confirmed_cart (kb : KnowledgeBase) (i : intent) (c : @context num)
    (message user_id : string) (menu_items : list menu_item)
    (orders : option (list order_rec)) (r : reply) :
  snd (dispatch kb i c message user_id menu_items orders) = Returned r ->
  confirmed_cart r = match i with CONFIRM_ORDER => cart c | _ => [] end
  /\ (action r = Some "confirm_order" <-> i = CONFIRM_ORDER /\ cart c <> []).
Proof.
  destruct i; unfold handle; cbv beta iota; handler_cases;
    cbn [snd]; intros Hr; try discriminate Hr; injection Hr as <-;
    unfold confirmed_cart; simpl;
    (split; [try reflexivity; try congruence
            | split; [intros H; try discriminate H; split; congruence
                     | intros [H1 H2]; congruence]]).
Qed.

(** The reply to a CONFIRM_ORDER message, and the cart it leaves. *)
Lemma confirm_reply (kb : KnowledgeBase) (st : gmap string (@context num))
    (message user_id : string) (menu_items : list menu_item)
    (orders : option (list order_rec)) :
  classify_intent message = CONFIRM_ORDER ->
  let before := cart (session_of st user_id) in
  let result := process kb st message user_id menu_items orders in
  cart (session_of (fst result) user_id) = before
  /\ (before = [] -> snd result = Returned (Reply RCartEmpty None None))
  /\ (before <> [] ->
      (priced num_mul before -> printed before ->
       exists subtotals,
         Forall2 (fun i p => num_mul (ci_price i) (quantity i) = Some p)
           before subtotals
         /\ cart_total num_zero num_add num_mul before
            = Returned (fold_left num_add subtotals num_zero)
         /\ snd result
            = Returned
                (Reply (ROrderConfirmed before) (Some "confirm_order")
                   (Some (DataConfirm before
                            (fold_left num_add subtotals num_zero) true))))
      /\ (~ priced num_mul before -> snd result = Raised OverflowError)
      /\ (priced num_mul before -> ~ printed before ->
          snd result = Raised ValueError)).
Proof.
  intros Hi. cbv zeta.
  rewrite process_message_reply, process_message_session, Hi.
  destruct (handle_confirm num_zero num_add num_mul kb
              (set_last_intent (session_of st user_id) CONFIRM_ORDER)
              message user_id menu_items orders) as (Hf & He & Hn).
  rewrite Hf. split; [reflexivity|]. split; [exact He | exact Hn].
Qed.

(** X12.  A reply carries the action [confirm_order] exactly when the
    message is a CONFIRM_ORDER one, the cart of the user has lines, every
    product of price and quantity of the cart can be computed and every
    quantity printed; the cart that the endpoint reads from the reply is
    then that cart.  For a CONFIRM_ORDER message on a cart with lines, the
    call raises [OverflowError] when a product cannot be computed, and
    [ValueError] when the products can but a quantity cannot be printed. *)
Theorem confirm_action_means_cart (kb : KnowledgeBase)
    (st : gmap string (@context num)) (message user_id : string)
    (menu_items : list menu_item) (orders : option (list order_rec)) :
  let out := snd (process kb st message user_id menu_items orders) in
  let before := cart (session_of st user_id) in
  ((exists r, out = Returned r /\ action r = Some "confirm_order") <->
   classify_intent message = CONFIRM_ORDER /\ before <> []
   /\ priced num_mul before /\ printed before)
  /\ (forall r,
        out = Returned r ->
        confirmed_cart r
        = match classify_intent message with
          | CONFIRM_ORDER => before
          | _ => []
          end)
  /\ (classify_intent message = CONFIRM_ORDER -> before <> [] ->
      (~ priced num_mul before -> out = Raised OverflowError)
      /\ (priced num_mul before -> ~ printed before ->
          out = Raised ValueError)).
Proof.
  cbv zeta. split; [|split].
  - split.
    + intros (r & Hr & Ha).
      rewrite process_message_reply in Hr.
      destruct (handle_confirmed_cart kb _ _ message user_id menu_items orders
                  r Hr) as [_ H].
      apply H in Ha as [Hi Hne].
      change (cart (session_of st user_id) <> []) in Hne.
      split; [exact Hi|]. split; [exact Hne|].
      destruct (confirm_reply kb st message user_id menu_items orders Hi)
        as (_ & _ & Hn).
      destruct (Hn Hne) as (_ & H2 & H3). rewrite <- process_message_reply in Hr.
      destruct (priced_dec num_mul (cart (session_of st user_id))) as [Hp | Hp];
        [|rewrite (H2 Hp) in Hr; discriminate].
      destruct (printed_dec (cart (session_of st user_id))) as [Hq | Hq];
        [auto | rewrite (H3 Hp Hq) in Hr; discriminate].
    + intros (Hi & Hne & Hp & Hq).
      destruct (confirm_reply kb st message user_id menu_items orders Hi)
        as (_ & _ & Hn).
      destruct (Hn Hne) as (H1 & _).
      destruct (H1 Hp Hq) as (subtotals & _ & _ & ->).
      eexists. split; reflexivity.
  - intros r Hr. rewrite process_message_reply in Hr.
    destruct (handle_confirmed_cart kb _ _ message user_id menu_items orders
                r Hr) as [H _].
    rewrite H. reflexivity.
  - intros Hi Hne.
    destruct (confirm_reply kb st message user_id menu_items orders Hi)
      as (_ & _ & Hn).
    destruct (Hn Hne) as (_ & H2 & H3). split; assumption.
Qed.

Lemma chat_unfold (kb : KnowledgeBase) (st : gmap string (@context num))
    (message : string) (user_id : option string) (menu_data : list menu_item)
    (orders_data : list order_rec) (db : db_commits) :
  let u := chat_user user_id in
  let p := process kb st message u menu_data (Some orders_data) in
  talk kb st message user_id menu_data orders_data db
  = match snd p with
    | Raised e => (fst p, Raised e, None)
    | Returned r =>
        match confirmed_cart r with
        | [] => (fst p, Returned (Forwarded r), None)
        | (_ :: _) as c =>
            match cart_total num_zero num_add num_mul c with
            | Raised e => (fst p, Raised e, None)
            | Returned total =>
                let db_order items :=
                  {| so_customer_name := "Chat User (" +:+ u +:+ ")";
                     so_customer_phone :=
                       if String.eqb u "anonymous" then None else Some u;
                     so_total_amount := total;
                     so_status := "Pending";
                     so_items := items |} in
                match db_order_id db with
                | None => (fst p, Raised DatabaseError, None)
                | Some order_id =>
                    if db_lines db
                    then
                      (clear_cart (fst p) u,
                       if PyStr.printable order_id
                       then Returned (OrderPlaced r order_id total)
                       else Raised ValueError,
                       Some (db_order
                               (map (fun item =>
                                       (menu_item_id item, quantity item,
                                        ci_price item)) c)))
                    else (fst p, Raised DatabaseError, Some (db_order []))
                end
            end
        end
    end.
Proof.
  cbv zeta. unfold chat, confirmed_cart.
  destruct (process kb st message (chat_user user_id) menu_data (Some orders_data))
    as [st' [r|e]]; [|reflexivity].
  cbn [fst snd]. destruct (action r) as [a|]; [|reflexivity].
  destruct (data r) as [d|]; [|reflexivity].
  destruct (String.eqb a "confirm_order"); [|reflexivity].
  destruct (payload_cart d); [reflexivity|].
  destruct (cart_total _ _ _ _); reflexivity.
Qed.

Lemma clear_cart_session (st : gmap string (@context num)) (u : string) :
  is_Some (st !! u) ->
  cart (session_of (clear_cart st u) u) = []
  /\ forall u', u' <> u -> clear_cart st u !! u' = st !! u'.
Proof.
  intros [c Hc]. unfold clear_cart. rewrite Hc. split.
  - rewrite session_of_insert. reflexivity.
  - intros u' Hu. apply lookup_insert_ne. congruence.
Qed.

Lemma process_message_is_Some (kb : KnowledgeBase)
    (st : gmap string (@context num)) (message user_id : string)
    (menu_items : list menu_item) (orders : option (list order_rec)) :
  is_Some (fst (process kb st message user_id menu_items orders) !! user_id).
Proof.
  rewrite (process_message_state num_zero num_add num_mul). cbv zeta.
  cbn [fst]. rewrite lookup_insert_eq. eauto.
Qed.

(** What the endpoint does when the database accepts the commits: it
    stores the cart of the user, with its total, for a confirmation on a
    cart with lines that the chatbot answers, and forwards what the chatbot
    does otherwise. *)
Lemma chat_cases (kb : KnowledgeBase) (st : gmap string (@context num))
    (message : string) (user_id : option string) (menu_data : list menu_item)
    (orders_data : list order_rec) (db : db_commits) (order_id : Z) :
  db_order_id db = Some order_id -> db_lines db = true ->
  let u := chat_user user_id in
  let before := cart (session_of st u) in
  let p := process kb st message u menu_data (Some orders_data) in
  let out := talk kb st message user_id menu_data orders_data db in
  (classify_intent message = CONFIRM_ORDER /\ before <> []
   /\ priced num_mul before /\ printed before
   /\ exists total r,
        cart_total num_zero num_add num_mul before = Returned total
        /\ snd p = Returned r
        /\ out
           = (clear_cart (fst p) u,
              if PyStr.printable order_id
              then Returned (OrderPlaced r order_id total)
              else Raised ValueError,
              Some {| so_customer_name := "Chat User (" +:+ u +:+ ")";
                      so_customer_phone :=
                        if String.eqb u "anonymous" then None else Some u;
                      so_total_amount := total;
                      so_status := "Pending";
                      so_items :=
                        map (fun item =>
                               (menu_item_id item, quantity item,
                                ci_price item)) before |}))
  \/ ((classify_intent message <> CONFIRM_ORDER \/ before = []
       \/ ~ (priced num_mul before /\ printed before))
      /\ out
         = (fst p,
            match snd p with
            | Returned r => Returned (Forwarded r)
            | Raised e => Raised e
            end,
            None)).
Proof.
  intros Hid Hlines. cbv zeta. rewrite chat_unfold. cbv zeta.
  rewrite Hid, Hlines.
  set (u := chat_user user_id).
  set (p := process kb st message u menu_data (Some orders_data)).
  destruct (snd p) as [r|e] eqn:Hp.
  - assert (confirmed_cart r
            = match classify_intent message with
              | CONFIRM_ORDER => cart (session_of st u)
              | _ => []
              end) as Hc.
    { unfold p in Hp. rewrite process_message_reply in Hp.
      apply handle_confirmed_cart in Hp as [Hp _]. exact Hp. }
    destruct (classify_intent message) eqn:Hi;
      try (rewrite Hc; right; split; [left; discriminate | reflexivity]).
    destruct (confirm_reply kb st message u menu_data (Some orders_data) Hi)
      as (_ & _ & Hn).
    fold p in Hn. rewrite Hp in Hn. rewrite Hc.
    destruct (cart (session_of st u)) as [|line lines] eqn:Hcart.
    + right. split; [right; left; reflexivity | reflexivity].
    + assert (line :: lines <> []) as Hne by discriminate.
      destruct (Hn Hne) as (H1 & H2 & H3).
      destruct (priced_dec num_mul (line :: lines)) as [Hpr | Hpr];
        [|specialize (H2 Hpr); discriminate].
      destruct (printed_dec (line :: lines)) as [Hq | Hq];
        [|specialize (H3 Hpr Hq); discriminate].
      destruct (H1 Hpr Hq) as (subtotals & _ & Ht & _). rewrite Ht.
      left. split; [reflexivity|]. split; [exact Hne|].
      split; [exact Hpr|]. split; [exact Hq|].
      exists (fold_left num_add subtotals num_zero), r. repeat split.
  - right. split; [|reflexivity].
    destruct (classify_intent message) eqn:Hi; try (left; discriminate).
    destruct (confirm_reply kb st message u menu_data (Some orders_data) Hi)
      as (_ & He & Hn).
    fold p in He, Hn. rewrite Hp in He, Hn. right.
    destruct (cart (session_of st u)) as [|line lines] eqn:Hcart;
      [left; reflexivity|].
    right. intros [Hpr Hq].
    assert (line :: lines <> []) as Hne by discriminate.
    destruct (Hn Hne) as (H1 & _).
    destruct (H1 Hpr Hq) as (subtotals & _ & _ & Hr). discriminate.
Qed.

(** X13.  When the database accepts the commits, the [/chat] endpoint
    stores an order exactly for a CONFIRM_ORDER message of a user whose
    cart has lines, of which every product of price and quantity can be
    computed and every quantity printed.  The order has a line for every
    line of the cart, with its item, quantity and price, the total of the
    cart, the status Pending, and the user's identifier as phone unless the
    user is the anonymous one; after it the cart of the user is empty, and
    the request is answered with the order summary, or ends with
    [ValueError] when the number of the order cannot be printed.
    Otherwise no order is stored, the sessions are those the chatbot
    leaves, and the request is answered with the reply of the chatbot or
    ends with the exception it raised.  The sessions of the other users
    are never touched. *)
Theorem chat_stores_confirmed_cart (kb : KnowledgeBase)
    (st : gmap string (@context num)) (message : string)
    (user_id : option string) (menu_data : list menu_item)
    (orders_data : list order_rec) (db : db_commits) (order_id : Z) :
  db_order_id db = Some order_id -> db_lines db = true ->
  let u := chat_user user_id in
  let before := cart (session_of st u) in
  let p := process kb st message u menu_data (Some orders_data) in
  let out := talk kb st message user_id menu_data orders_data db in
  match snd out with
  | Some o =>
      classify_intent message = CONFIRM_ORDER /\ before <> []
      /\ priced num_mul before /\ printed before
      /\ cart_total num_zero num_add num_mul before
         = Returned (so_total_amount o)
      /\ so_items o
         = map (fun item => (menu_item_id item, quantity item, ci_price item))
             before
      /\ so_status o = "Pending"
      /\ so_customer_phone o
         = (if String.eqb u "anonymous" then None else Some u)
      /\ cart (session_of (fst (fst out)) u) = []
      /\ exists r,
           snd p = Returned r
           /\ snd (fst out)
              = if PyStr.printable order_id
                then Returned (OrderPlaced r order_id (so_total_amount o))
                else Raised ValueError
  | None =>
      (classify_intent message <> CONFIRM_ORDER \/ before = []
       \/ ~ (priced num_mul before /\ printed before))
      /\ fst (fst out) = fst p
      /\ snd (fst out)
         = match snd p with
           | Returned r => Returned (Forwarded r)
           | Raised e => Raised e
           end
  end
  /\ forall u', u' <> u -> fst (fst out) !! u' = st !! u'.
Proof.
  intros Hid Hlines. cbv zeta.
  destruct (chat_cases kb st message user_id menu_data orders_data db order_id
              Hid Hlines)
    as [(Hi & Hne & Hpr & Hq & total & r & Ht & Hp & ->) | [Hwhy ->]];
    cbn [fst snd].
  - destruct (clear_cart_session
                (fst (process kb st message (chat_user user_id) menu_data
                        (Some orders_data)))
                (chat_user user_id) (process_message_is_Some _ _ _ _ _ _))
      as [Hclear Hother].
    split.
    + split; [exact Hi|]. split; [exact Hne|]. split; [exact Hpr|].
      split; [exact Hq|]. split; [exact Ht|].
      split; [reflexivity|]. split; [reflexivity|]. split; [reflexivity|].
      split; [exact Hclear|]. exists r. split; [exact Hp | reflexivity].
    + intros u' Hu. rewrite Hother by exact Hu.
      apply process_message_others, Hu.
  - split; [split; [exact Hwhy | split; reflexivity]|].
    intros u' Hu. apply process_message_others, Hu.
Qed.

(** X14.  Confirming twice stores at most one order.  When the database
    accepts the commits of a CONFIRM_ORDER request, the chat request of the
    same user with the same message that follows it stores no order,
    whatever the database does then: when the first request stored an
    order, the second is answered that the cart is empty, and when it
    stored none, the second ends as the first did, with the same reply or
    the same exception. *)
Theorem chat_confirm_twice (kb kb' : KnowledgeBase)
    (st : gmap string (@context num)) (message : string)
    (user_id : option string) (menu_data menu_data' : list menu_item)
    (orders_data orders_data' : list order_rec) (db db' : db_commits)
    (order_id : Z) :
  classify_intent message = CONFIRM_ORDER ->
  db_order_id db = Some order_id -> db_lines db = true ->
  let first := talk kb st message user_id menu_data orders_data db in
  let second :=
    talk kb' (fst (fst first)) message user_id menu_data' orders_data' db' in
  snd second = None
  /\ (is_Some (snd first) ->
      snd (fst second) = Returned (Forwarded (Reply RCartEmpty None None)))
  /\ (snd first = None -> snd (fst second) = snd (fst first)).
Proof.
  intros Hi Hid Hlines. cbv zeta.
  set (u := chat_user user_id).
  destruct (confirm_reply kb st message u menu_data (Some orders_data) Hi)
    as (Hkeep & He & Hn).
  destruct (chat_cases kb st message user_id menu_data orders_data db order_id
              Hid Hlines)
    as [(_ & Hne & Hpr & Hq & total & r & Ht & Hp & ->) | [Hwhy ->]];
    cbn [fst snd]; fold u.
  - set (st1 := clear_cart
                  (fst (process kb st message u menu_data (Some orders_data)))
                  u).
    assert (cart (session_of st1 u) = []) as Hempty
      by (apply clear_cart_session, process_message_is_Some).
    destruct (confirm_reply kb' st1 message u menu_data' (Some orders_data') Hi)
      as (_ & He' & _).
    specialize (He' Hempty).
    rewrite (chat_unfold kb'). cbv zeta. fold u. rewrite He'.
    unfold confirmed_cart. cbn.
    split; [reflexivity|]. split; [reflexivity | discriminate].
  - set (st1 := fst (process kb st message u menu_data (Some orders_data))).
    fold u in Hwhy.
    destruct (confirm_reply kb' st1 message u menu_data' (Some orders_data') Hi)
      as (_ & He' & Hn').
    fold st1 in Hkeep. rewrite Hkeep in He', Hn'.
    assert (snd (process kb' st1 message u menu_data' (Some orders_data'))
            = snd (process kb st message u menu_data (Some orders_data))
            /\ (forall r,
                  snd (process kb st message u menu_data (Some orders_data))
                  = Returned r ->
                  confirmed_cart r = [])) as [Hsame Hnone].
    { destruct (cart (session_of st u)) as [|line lines] eqn:Hcart.
      - rewrite He', He by reflexivity. split; [reflexivity|].
        intros r [= <-]. reflexivity.
      - assert (line :: lines <> []) as Hne by discriminate.
        destruct (Hn Hne) as (_ & H2 & H3).
        destruct (Hn' Hne) as (_ & H2' & H3').
        destruct (priced_dec num_mul (line :: lines)) as [Hpr | Hpr].
        + destruct (printed_dec (line :: lines)) as [Hq | Hq].
          * destruct Hwhy as [H | [H | H]]; [congruence | congruence | tauto].
          * rewrite (H3 Hpr Hq), (H3' Hpr Hq). split; [reflexivity|].
            discriminate.
        + rewrite (H2 Hpr), (H2' Hpr). split; [reflexivity | discriminate]. }
    rewrite (chat_unfold kb'). cbv zeta. fold u. rewrite Hsame.
    destruct (snd (process kb st message u menu_data (Some orders_data)))
      as [r|e].
    + rewrite (Hnone r eq_refl).
      split; [reflexivity|]. split; [intros [o Ho]; discriminate | reflexivity].
    + split; [reflexivity|]. split; [intros [o Ho]; discriminate | reflexivity].
Qed.

(** *** Handlers that only read *)

Lemma search_length (kb : KnowledgeBase) (query : string)
    (category : option string) (limit : Z) :
  0 <= limit ->
  Z.of_nat (length (KnowledgeBase.search kb query category limit)) <= limit.
Proof.
  intros Hl. rewrite search_unfold. cbv zeta. rewrite length_map, slice_to_length.
  apply Z.leb_le in Hl. rewrite Hl. lia.
Qed.

Lemma search_from_store (kb : KnowledgeBase) (query : string)
    (category : option string) (limit : Z) :
  Forall (fun e => In e (entries kb)
                   /\ KnowledgeBase.skipped category e = false)
    (KnowledgeBase.search kb query category limit).
Proof.
  pose proof (search_in_hits kb query category limit) as H. cbv zeta in H.
  eapply List.Forall_impl; [|exact H]. intros e He. cbv beta in He.
  apply hits_spec in He as (H1 & H2 & _). split; assumption.
Qed.

(** X15.  The reply to a PERSONA_QUERY message always has the action
    [persona_response] and no data; the entry it quotes, if any, is an
    entry of the store in the category [persona], the best match of the
    message there; without a match the default line is given. *)
Theorem persona_reply_from_persona_entries (kb : KnowledgeBase)
    (st : gmap string (@context num)) (message user_id : string)
    (menu_items : list menu_item) (orders : option (list order_rec)) :
  classify_intent message = PERSONA_QUERY ->
  exists r,
    snd (process kb st message user_id menu_items orders) = Returned r
    /\ action r = Some "persona_response" /\ data r = None
    /\ match KnowledgeBase.search kb message (Some "persona") 1 with
       | e :: _ =>
           r_response r = RPersona e /\ e_category e = "persona"
           /\ In e (entries kb)
       | [] => r_response r = RPersonaDefault
       end.
Proof.
  intros Hi. rewrite process_message_reply, Hi. unfold handle.
  pose proof (search_from_store kb message (Some "persona") 1) as H.
  destruct (KnowledgeBase.search kb message (Some "persona") 1) as [|e l];
    (eexists; split; [reflexivity|]);
    cbn [action data r_response]; [auto|].
  inversion H as [|? ? [Hin Hs] _]; subst.
  repeat split; [|exact Hin].
  unfold KnowledgeBase.skipped in Hs. cbn in Hs.
  apply negb_false_iff, String.eqb_eq in Hs. exact Hs.
Qed.

(** X16.  The reply to a KB_QUERY message carries at most two entries,
    all of them entries of the store: the best match of the message as the
    answer and the second as the related one; without a match the reply
    is the fallback, with the action [kb_fallback] and no data. *)
Theorem kb_query_reply (kb : KnowledgeBase)
    (st : gmap string (@context num)) (message user_id : string)
    (menu_items : list menu_item) (orders : option (list order_rec)) :
  classify_intent message = KB_QUERY ->
  let found := KnowledgeBase.search kb message None 2 in
  (length found <= 2)%nat
  /\ Forall (fun e => In e (entries kb)) found
  /\ snd (process kb st message user_id menu_items orders)
     = match found with
       | [] => Returned (Reply RKnowledgeFallback (Some "kb_fallback") None)
       | result :: more =>
           Returned (Reply (RKnowledge result (head more)) (Some "kb_response")
                       (Some (DataEntries found)))
       end.
Proof.
  intros Hi. cbv zeta. split; [|split].
  - pose proof (search_length kb message None 2). lia.
  - eapply List.Forall_impl; [|apply (search_from_store kb message None 2)].
    intros e He. cbv beta in He. apply He.
  - rewrite process_message_reply, Hi. unfold handle.
    destruct (KnowledgeBase.search kb message None 2); reflexivity.
Qed.

Lemma find_split {A : Type} (f : A -> bool) (l : list A) :
  match List.find f l with
  | Some x =>
      exists before after,
        l = before ++ x :: after /\ f x = true /\
        Forall (fun y => f y = false) before
  | None => Forall (fun y => f y = false) l
  end.
Proof.
  induction l as [|a l IH]; simpl; [constructor|].
  destruct (f a) eqn:Ha.
  - exists [], l. repeat split; [exact Ha | constructor].
  - destruct (List.find f l) as [x|].
    + destruct IH as (before & after & -> & Hx & Hb).
      exists (a :: before), after. repeat split; [exact Hx|].
      constructor; assumption.
    + constructor; assumption.
Qed.

Lemma not_mentionsb (text : string) (item : @menu_item num) :
  mentionsb text item = false <-> ~ mentions text item.
Proof.
  rewrite <- mentionsb_spec. destruct (mentionsb text item); split; congruence.
Qed.

(** X17.  The reply to an ITEM_DETAILS message shows the first item of
    the menu that the message mentions; when the message mentions no item
    of the menu the reply is that the item was not found, with no action. *)
Theorem item_details_first_mentioned (kb : KnowledgeBase)
    (st : gmap string (@context num)) (message user_id : string)
    (menu_items : list menu_item) (orders : option (list order_rec)) :
  classify_intent message = ITEM_DETAILS ->
  let r := snd (process kb st message user_id menu_items orders) in
  (exists before item after,
     menu_items = before ++ item :: after
     /\ mentions (normalized message) item
     /\ Forall (fun i => ~ mentions (normalized message) i) before
     /\ r = Returned (Reply (RItem item) (Some "show_item")
                        (Some (DataItem item))))
  \/ (Forall (fun i => ~ mentions (normalized message) i) menu_items
      /\ r = Returned (Reply RItemNotFound None None)).
Proof.
  intros Hi. cbv zeta. rewrite process_message_reply, Hi. unfold handle.
  pose proof (extract_menu_items_head message menu_items) as Hh.
  pose proof (find_split (mentionsb (normalized message)) menu_items) as Hf.
  destruct (List.find (mentionsb (normalized message)) menu_items) as [x|].
  - destruct Hf as (before & after & Hm & Hx & Hb).
    destruct (extract_menu_items message menu_items) as [|item l];
      [discriminate|].
    injection Hh as ->. left. exists before, x, after.
    split; [exact Hm|]. split; [apply mentionsb_spec, Hx|].
    split; [|reflexivity].
    eapply List.Forall_impl; [|exact Hb]. intros i. apply not_mentionsb.
  - destruct (extract_menu_items message menu_items) as [|item l];
      [|discriminate].
    right. split; [|reflexivity].
    eapply List.Forall_impl; [|exact Hf]. intros i. apply not_mentionsb.
Qed.

End SessionFacts.

(** ** The knowledge store *)

Lemma find_app_split {A : Type} (f : A -> bool) (a b : list A) :
  List.find f (a ++ b)
  = match List.find f a with
    | Some x => Some x
    | None => List.find f b
    end.
Proof.
  induction a as [|x a IH]; simpl; [reflexivity|].
  destruct (f x); [reflexivity | exact IH].
Qed.

Lemma find_all_false {A : Type} (f : A -> bool) (l : list A) :
  Forall (fun y => f y = false) l -> List.find f l = None.
Proof.
  induction 1 as [|x l Hx _ IH]; simpl; [reflexivity|]. rewrite Hx. exact IH.
Qed.

Lemma sorted_snoc (l : list Z) (x : Z) :
  StronglySorted Z.lt l -> Forall (fun y => y < x) l ->
  StronglySorted Z.lt (l ++ [x]).
Proof.
  induction 1 as [|y l Hl IH Hy]; intros Hx; simpl.
  - repeat constructor.
  - inversion Hx as [|? ? Hyx Hlx]; subst. constructor; [auto|].
    apply Forall_app. split; [exact Hy | repeat constructor; exact Hyx].
Qed.

Lemma sorted_remove {A : Type} (R : A -> A -> Prop) (a b : list A) (x : A) :
  StronglySorted R (a ++ x :: b) ->
  StronglySorted R (a ++ b) /\ Forall (R x) b.
Proof.
  induction a as [|y a IH]; simpl; intros H.
  - inversion H; subst. auto.
  - inversion H as [|? ? Hs Hy]; subst. destruct (IH Hs) as [H1 H2].
    split; [|exact H2]. constructor; [exact H1|].
    apply Forall_app in Hy as [Ha Hb]. inversion Hb; subst.
    apply Forall_app. auto.
Qed.

Lemma delete_in_spec (entry_id : Z) (l : list entry) :
  (exists before e after,
     l = before ++ e :: after /\ e_id e = entry_id /\
     Forall (fun x => e_id x <> entry_id) before /\
     KnowledgeBase.delete_in entry_id l = (before ++ after, true))
  \/ (Forall (fun x => e_id x <> entry_id) l /\
      KnowledgeBase.delete_in entry_id l = (l, false)).
Proof.
  induction l as [|x l IH]; simpl.
  - right. split; [constructor | reflexivity].
  - destruct (e_id x =? entry_id) eqn:Hx.
    + apply Z.eqb_eq in Hx. left. exists [], x, l.
      repeat split; [exact Hx | constructor].
    + apply Z.eqb_neq in Hx.
      destruct IH as [(before & e & after & -> & He & Hb & ->) | [Hl ->]].
      * left. exists (x :: before), e, after. repeat split; [exact He|].
        constructor; assumption.
      * right. split; [constructor; assumption | reflexivity].
Qed.

Lemma updated_keeps (now : string) (title content : option string)
    (tags : option (list string)) (e : entry) :
  e_id (KnowledgeBase.updated now title content tags e) = e_id e
  /\ e_category (KnowledgeBase.updated now title content tags e) = e_category e
  /\ e_version (KnowledgeBase.updated now title content tags e) = e_version e + 1.
Proof. repeat split. Qed.

Lemma reachable_kb_ok (kb : KnowledgeBase) : reachable_kb kb -> kb_ok kb.
Proof.
  induction 1 as [|kb created upd category title content tags _ IH
                  |kb now entry_id title content tags _ IH
                  |kb entry_id _ IH].
  - repeat split; simpl; try constructor; lia.
  - destruct IH as (Hs & Hf & Hc). unfold kb_ok. simpl.
    rewrite List.map_app. simpl. split; [|split; [|lia]].
    + apply sorted_snoc; [exact Hs|].
      apply List.Forall_forall. intros y Hy.
      apply in_map_iff in Hy as (e & <- & He).
      rewrite List.Forall_forall in Hf. specialize (Hf e He). lia.
    + apply Forall_app. split.
      * eapply List.Forall_impl; [|exact Hf]. intros e He. simpl in He. lia.
      * repeat constructor; simpl; lia.
  - destruct IH as (Hs & Hf & Hc). unfold kb_ok, KnowledgeBase.update_entry.
    destruct (update_in_spec now entry_id title content tags (entries kb))
      as [(before & e & after & Hl & He & Hb & ->) | [Hl ->]]; simpl.
    + rewrite Hl in Hs, Hf. rewrite List.map_app in *. simpl in *.
      split; [exact Hs|]. split; [|exact Hc].
      apply Forall_app in Hf as [Hf1 Hf2]. inversion Hf2; subst.
      apply Forall_app. split; [exact Hf1|]. constructor; [simpl; lia | assumption].
    + auto.
  - destruct IH as (Hs & Hf & Hc). unfold kb_ok, KnowledgeBase.delete_entry.
    destruct (delete_in_spec entry_id (entries kb))
      as [(before & e & after & Hl & He & Hb & ->) | [Hl ->]]; simpl.
    + rewrite Hl in Hs, Hf. rewrite List.map_app in *. simpl in Hs.
      apply sorted_remove in Hs as [Hs _].
      split; [exact Hs|]. split; [|exact Hc].
      apply Forall_app in Hf as [Hf1 Hf2]. inversion Hf2; subst.
      apply Forall_app. auto.
    + auto.
Qed.

Lemma get_by_id_absent (kb : KnowledgeBase) (entry_id : Z) :
  Forall (fun e => e_id e <> entry_id) (entries kb) ->
  KnowledgeBase.get_by_id kb entry_id = None.
Proof.
  intros H. apply find_all_false. eapply List.Forall_impl; [|exact H].
  intros e He. apply Z.eqb_neq, He.
Qed.

(** X18.  In every store the knowledge base can reach, the identifiers
    grow strictly along the store, so no two entries share one; every
    identifier is between 1 and the counter and every version is at least
    1.  An added entry gets the counter plus 1, which no entry of the store
    has, and updating or deleting leaves the counter as it is: an
    identifier is not given twice. *)
Theorem kb_identifiers_unique (kb : KnowledgeBase) :
  reachable_kb kb ->
  StronglySorted Z.lt (map e_id (entries kb))
  /\ Forall (fun e => 1 <= e_id e <= _id_counter kb /\ 1 <= e_version e)
       (entries kb)
  /\ (forall created updated category title content tags,
        let out :=
          KnowledgeBase.add_entry kb created updated category title content tags in
        e_id (snd out) = _id_counter kb + 1
        /\ _id_counter (fst out) = _id_counter kb + 1
        /\ ~ In (e_id (snd out)) (map e_id (entries kb)))
  /\ (forall now entry_id title content tags,
        _id_counter
          (fst (KnowledgeBase.update_entry kb now entry_id title content tags))
        = _id_counter kb)
  /\ (forall entry_id,
        _id_counter (fst (KnowledgeBase.delete_entry kb entry_id))
        = _id_counter kb).
Proof.
  intros Hr. destruct (reachable_kb_ok kb Hr) as (Hs & Hf & Hc).
  split; [exact Hs|]. split; [exact Hf|]. split; [|split].
  - intros. cbv zeta. simpl. repeat split. intros Hin.
    apply in_map_iff in Hin as (e & He & Hin).
    rewrite List.Forall_forall in Hf. specialize (Hf e Hin). lia.
  - intros. unfold KnowledgeBase.update_entry.
    destruct (KnowledgeBase.update_in _ _ _ _ _ _). reflexivity.
  - intros. unfold KnowledgeBase.delete_entry.
    destruct (KnowledgeBase.delete_in _ _). reflexivity.
Qed.

(** X19.  In a reachable store, an entry just added is the one found
    under its identifier, and every other identifier finds what it found
    before; the entry is appended to the store with version 1 and with no
    tags when none were given. *)
Theorem add_entry_then_get (kb : KnowledgeBase)
    (created updated category title content : string)
    (tags : option (list string)) :
  reachable_kb kb ->
  let out :=
    KnowledgeBase.add_entry kb created updated category title content tags in
  KnowledgeBase.get_by_id (fst out) (e_id (snd out)) = Some (snd out)
  /\ (forall entry_id,
        entry_id <> e_id (snd out) ->
        KnowledgeBase.get_by_id (fst out) entry_id
        = KnowledgeBase.get_by_id kb entry_id)
  /\ KnowledgeBase.get_all (fst out) = KnowledgeBase.get_all kb ++ [snd out]
  /\ e_version (snd out) = 1
  /\ e_tags (snd out) = default [] tags.
Proof.
  intros Hr. destruct (reachable_kb_ok kb Hr) as (_ & Hf & _). cbv zeta.
  unfold KnowledgeBase.get_by_id, KnowledgeBase.get_all. simpl.
  split; [|split; [|split; [reflexivity|split; [reflexivity|]]]].
  - rewrite find_app_split, find_all_false.
    + simpl. rewrite Z.eqb_refl. reflexivity.
    + eapply List.Forall_impl; [|exact Hf]. intros e He. simpl in He.
      apply Z.eqb_neq. lia.
  - intros entry_id Hne. rewrite find_app_split.
    destruct (List.find (fun e => e_id e =? entry_id) (entries kb));
      [reflexivity|].
    simpl. assert ((_id_counter kb + 1 =? entry_id) = false) as ->
      by (apply Z.eqb_neq; congruence).
    reflexivity.
  - destruct tags as [[|t l]|]; reflexivity.
Qed.

(** X20.  In a reachable store, after [delete_entry] no entry is found
    under the identifier; the call answers whether there was one, the
    other identifiers find what they found before, and when there was none
    the store is unchanged. *)
Theorem delete_entry_then_get (kb : KnowledgeBase) (entry_id : Z) :
  reachable_kb kb ->
  let out := KnowledgeBase.delete_entry kb entry_id in
  KnowledgeBase.get_by_id (fst out) entry_id = None
  /\ snd out
     = match KnowledgeBase.get_by_id kb entry_id with
       | Some _ => true
       | None => false
       end
  /\ (forall other,
        other <> entry_id ->
        KnowledgeBase.get_by_id (fst out) other
        = KnowledgeBase.get_by_id kb other)
  /\ (if snd out
      then S (length (entries (fst out))) = length (entries kb)
      else fst out = kb).
Proof.
  intros Hr. destruct (reachable_kb_ok kb Hr) as (Hs & _ & _). cbv zeta.
  unfold KnowledgeBase.delete_entry.
  destruct (delete_in_spec entry_id (entries kb))
    as [(before & e & after & Hl & He & Hb & ->) | [Hl ->]];
    cbn [fst snd entries].
  - rewrite Hl in Hs. rewrite List.map_app in Hs. simpl in Hs.
    apply sorted_remove in Hs as [_ Hafter].
    unfold KnowledgeBase.get_by_id. cbn [entries]. rewrite Hl.
    assert (Forall (fun x => (e_id x =? entry_id) = false) before) as Hb'.
    { eapply List.Forall_impl; [|exact Hb]. intros x Hx. apply Z.eqb_neq, Hx. }
    assert (Forall (fun x => (e_id x =? entry_id) = false) after) as Ha'.
    { apply List.Forall_forall. intros x Hx. apply Z.eqb_neq.
      rewrite List.Forall_forall in Hafter.
      specialize (Hafter (e_id x) (in_map e_id _ _ Hx)). lia. }
    split; [|split; [|split]].
    + rewrite find_app_split, (find_all_false _ _ Hb'). apply find_all_false, Ha'.
    + rewrite find_app_split, (find_all_false _ _ Hb'). simpl.
      rewrite (proj2 (Z.eqb_eq _ _) He). reflexivity.
    + intros other Hne. rewrite !find_app_split. simpl.
      assert ((e_id e =? other) = false) as ->
        by (apply Z.eqb_neq; congruence).
      reflexivity.
    + rewrite !length_app. simpl. lia.
  - split; [apply get_by_id_absent, Hl|]. split; [|split].
    + rewrite (get_by_id_absent kb entry_id Hl). reflexivity.
    + intros. destruct kb; reflexivity.
    + destruct kb; reflexivity.
Qed.

(** X21.  After [update_entry] the entry found under the identifier is
    the entry the call returned (none when the identifier was absent);
    every other identifier finds what it found before, and the
    identifiers and categories of the store, in order, are as they were. *)
Theorem update_entry_then_get (kb : KnowledgeBase) (now : string) (entry_id : Z)
    (title content : option string) (tags : option (list string)) :
  let out := KnowledgeBase.update_entry kb now entry_id title content tags in
  KnowledgeBase.get_by_id (fst out) entry_id = snd out
  /\ (forall other,
        other <> entry_id ->
        KnowledgeBase.get_by_id (fst out) other
        = KnowledgeBase.get_by_id kb other)
  /\ map e_id (entries (fst out)) = map e_id (entries kb)
  /\ map e_category (entries (fst out)) = map e_category (entries kb).
Proof.
  cbv zeta. unfold KnowledgeBase.update_entry.
  destruct (update_in_spec now entry_id title content tags (entries kb))
    as [(before & e & after & Hl & He & Hb & ->) | [Hl ->]];
    cbn [fst snd entries].
  - unfold KnowledgeBase.get_by_id. cbn [entries]. rewrite Hl.
    assert (Forall (fun x => (e_id x =? entry_id) = false) before) as Hb'.
    { eapply List.Forall_impl; [|exact Hb]. intros x Hx. apply Z.eqb_neq, Hx. }
    split; [|split; [|split]].
    + rewrite find_app_split, (find_all_false _ _ Hb'). simpl.
      rewrite (proj2 (Z.eqb_eq _ _) He). reflexivity.
    + intros other Hne. rewrite !find_app_split. simpl.
      assert ((e_id e =? other) = false) as ->
        by (apply Z.eqb_neq; congruence).
      reflexivity.
    + rewrite !List.map_app. reflexivity.
    + rewrite !List.map_app. reflexivity.
  - split; [apply get_by_id_absent, Hl|]. repeat split.
Qed.

(** *** Search *)

(** X22.  A search with a smaller limit returns the first results of the
    search with a larger one: for limits that are not negative, the result
    for [l1] is the result for [l2] cut after [l1] entries. *)
Theorem search_limit_prefix (kb : KnowledgeBase) (query : string)
    (category : option string) (l1 l2 : Z) :
  0 <= l1 -> l1 <= l2 ->
  KnowledgeBase.search kb query category l1
  = take (Z.to_nat l1) (KnowledgeBase.search kb query category l2).
Proof.
  intros H1 H2. rewrite !search_unfold. cbv zeta.
  rewrite !slice_to_take.
  assert ((0 <=? l1) = true) as -> by (apply Z.leb_le; lia).
  assert ((0 <=? l2) = true) as -> by (apply Z.leb_le; lia).
  rewrite <- firstn_map, <- (firstn_map s_entry (Z.to_nat l2)).
  rewrite take_take. f_equal. lia.
Qed.

Lemma collect_in_category (ql : string) (qw : list string) (c : string)
    (l : list entry) :
  c <> "" ->
  KnowledgeBase.collect ql qw (Some c) l
  = KnowledgeBase.collect ql qw None
      (List.filter (fun e => String.eqb (e_category e) c) l).
Proof.
  intros Hc. destruct c as [|a c]; [congruence|].
  induction l as [|e l IH]; [reflexivity|].
  cbn [KnowledgeBase.collect List.filter].
  change (KnowledgeBase.skipped (Some (String a c)) e)
    with (negb (String.eqb (e_category e) (String a c))).
  destruct (String.eqb (e_category e) (String a c)); cbn [negb].
  - cbn [KnowledgeBase.collect].
    change (KnowledgeBase.skipped None e) with false. cbv iota.
    rewrite IH. reflexivity.
  - exact IH.
Qed.

Lemma collect_empty_category (ql : string) (qw : list string) (l : list entry) :
  KnowledgeBase.collect ql qw (Some "") l = KnowledgeBase.collect ql qw None l.
Proof.
  induction l as [|e l IH]; [reflexivity|].
  cbn [KnowledgeBase.collect].
  change (KnowledgeBase.skipped (Some "") e) with false.
  change (KnowledgeBase.skipped None e) with false. cbv iota.
  rewrite IH. reflexivity.
Qed.

(** X23.  Searching with a category is searching the entries of that
    category: the result is the one of the search without category on the
    store reduced to [get_by_category].  An empty category is no
    category. *)
Theorem search_in_category (kb : KnowledgeBase) (query c : string) (limit : Z) :
  c <> "" ->
  KnowledgeBase.search kb query (Some c) limit
  = KnowledgeBase.search
      (KB (KnowledgeBase.get_by_category kb c) (_id_counter kb)) query None limit
  /\ KnowledgeBase.search kb query (Some "") limit
     = KnowledgeBase.search kb query None limit.
Proof.
  intros Hc. unfold KnowledgeBase.search, KnowledgeBase.get_by_category.
  cbn [entries]. split.
  - rewrite collect_in_category by exact Hc. reflexivity.
  - rewrite collect_empty_category. reflexivity.
Qed.

(** ** Case of the message, blank messages *)

Lemma findall_digits_go_lower (m : string) :
  forall cur,
    PyStr.findall_digits_go cur (PyStr.lower m) = PyStr.findall_digits_go cur m.
Proof.
  induction m as [|c m IH]; intros cur; [reflexivity|].
  rewrite lower_cons. simpl. rewrite isdigit_lower_char.
  destruct (PyStr.isdigit c) eqn:Hc.
  - rewrite (digit_lower_char c Hc). apply IH.
  - destruct cur; rewrite IH; reflexivity.
Qed.

Section MessageFacts.

Context {num : Type} {num_eq_dec : EqDecision num}.
Variable num_zero : num.
Variable num_add : num -> num -> num.
Variable num_mul : num -> Z -> option num.

Local Abbreviation process := (process_message num_zero num_add num_mul).

(** X24.  The quantity, the menu items and the entries found do not
    depend on the case of the message: lower-casing it changes none of
    them. *)
Theorem message_case_ignored (kb : KnowledgeBase) (m : string)
    (menu : list (@menu_item num)) (category : option string) (limit : Z) :
  extract_quantity (PyStr.lower m) = extract_quantity m
  /\ extract_menu_items (PyStr.lower m) menu = extract_menu_items m menu
  /\ KnowledgeBase.search kb (PyStr.lower m) category limit
     = KnowledgeBase.search kb m category limit.
Proof.
  split; [|split].
  - unfold extract_quantity, PyStr.findall_digits.
    rewrite lower_idem, findall_digits_go_lower. reflexivity.
  - unfold extract_menu_items. rewrite lower_idem. reflexivity.
  - unfold KnowledgeBase.search. rewrite lower_idem. reflexivity.
Qed.

(** X25.  A message that is empty or made of blanks is classified
    UNKNOWN: it gets the help reply, with no action and no data, and the
    cart of the user stays as it is. *)
Theorem blank_message_gets_help (kb : KnowledgeBase)
    (st : gmap string (@context num)) (message user_id : string)
    (menu_items : list menu_item) (orders : option (list order_rec)) :
  blank message ->
  classify_intent message = UNKNOWN
  /\ snd (process kb st message user_id menu_items orders)
     = Returned (Reply RHelp None None)
  /\ cart (session_of (fst (process kb st message user_id menu_items orders))
             user_id)
     = cart (session_of st user_id).
Proof.
  intros Hb.
  assert (classify_intent message = UNKNOWN) as Hi.
  { unfold classify_intent, PyStr.strip.
    rewrite (lstrip_blank _ (blank_lower _ Hb)). vm_compute. reflexivity. }
  split; [exact Hi|].
  rewrite (process_message_state num_zero num_add num_mul). cbv zeta.
  rewrite Hi. cbn [fst snd handle]. rewrite session_of_insert.
  split; reflexivity.
Qed.

(** *** The sections of the menu text *)

Lemma first_seen_snoc (l : list string) (k : string) :
  first_seen (l ++ [k])
  = if existsb (String.eqb k) (first_seen l) then first_seen l
    else first_seen l ++ [k].
Proof. unfold first_seen. rewrite fold_left_app. reflexivity. Qed.

Lemma existsb_eqb_In (k : string) (l : list string) :
  existsb (String.eqb k) l = true <-> In k l.
Proof.
  rewrite existsb_exists. split.
  - intros (x & Hx & He). apply String.eqb_eq in He. subst. exact Hx.
  - intros H. exists k. split; [exact H | apply String.eqb_refl].
Qed.

Lemma first_seen_spec (l : list string) :
  List.NoDup (first_seen l) /\ forall k, In k (first_seen l) <-> In k l.
Proof.
  induction l as [|k l [Hnd Hin]] using rev_ind.
  - split; [constructor | intros k; reflexivity].
  - rewrite first_seen_snoc.
    destruct (existsb (String.eqb k) (first_seen l)) eqn:He.
    + apply existsb_eqb_In in He. split; [exact Hnd|].
      intros x. rewrite in_app_iff, Hin. simpl. split; [auto|].
      intros [H | [<- | []]]; [exact H | apply Hin, He].
    + assert (~ In k (first_seen l)) as Hk.
      { rewrite <- existsb_eqb_In, He. discriminate. }
      split.
      * apply List.NoDup_app; [exact Hnd | repeat constructor; intros [] |].
        intros x Hx [<- | []]. exact (Hk Hx).
      * intros x. rewrite !in_app_iff, Hin. reflexivity.
Qed.

Lemma group_add_map (F : string -> list (@menu_item num)) (keys : list string)
    (c : string) (i : menu_item) :
  List.NoDup keys ->
  group_add c i (map (fun k => (k, F k)) keys)
  = map (fun k => (k, if String.eqb k c then F k ++ [i] else F k)) keys
    ++ (if existsb (String.eqb c) keys then [] else [(c, [i])]).
Proof.
  induction 1 as [|k keys Hk Hnd IH]; simpl; [reflexivity|].
  rewrite (String.eqb_sym c k). destruct (String.eqb k c) eqn:Hkc; simpl.
  - apply String.eqb_eq in Hkc. subst k. rewrite List.app_nil_r. f_equal.
    apply map_ext_in. intros x Hx.
    assert (String.eqb x c = false) as ->; [|reflexivity].
    apply String.eqb_neq. intros ->. exact (Hk Hx).
  - rewrite IH. reflexivity.
Qed.

Lemma filter_snoc {A : Type} (f : A -> bool) (l : list A) (x : A) :
  List.filter f (l ++ [x]) = List.filter f l ++ (if f x then [x] else []).
Proof. rewrite List.filter_app. reflexivity. Qed.

Lemma filter_all_false {A : Type} (f : A -> bool) (l : list A) :
  Forall (fun y => f y = false) l -> List.filter f l = [].
Proof.
  induction 1 as [|x l Hx _ IH]; simpl; [reflexivity|]. rewrite Hx. exact IH.
Qed.

Lemma group_by_category_spec (items : list (@menu_item num)) :
  group_by_category items
  = map (fun k =>
           (k, List.filter (fun i => String.eqb (mi_category i) k) items))
      (first_seen (map mi_category items)).
Proof.
  induction items as [|x items IH] using rev_ind; [reflexivity|].
  unfold group_by_category in *. rewrite fold_left_app. cbn [fold_left].
  rewrite IH, List.map_app. cbn [map]. rewrite first_seen_snoc.
  destruct (first_seen_spec (map mi_category items)) as [Hnd Hin].
  rewrite (group_add_map _ _ _ _ Hnd).
  destruct (existsb (String.eqb (mi_category x))
              (first_seen (map mi_category items))) eqn:He.
  - rewrite List.app_nil_r. apply map_ext. intros k. rewrite filter_snoc.
    rewrite (String.eqb_sym k). destruct (String.eqb (mi_category x) k);
      [reflexivity | rewrite List.app_nil_r; reflexivity].
  - rewrite List.map_app. cbn [map]. f_equal.
    + apply map_ext. intros k. rewrite filter_snoc.
      rewrite (String.eqb_sym k). destruct (String.eqb (mi_category x) k);
        [reflexivity | rewrite List.app_nil_r; reflexivity].
    + rewrite filter_snoc, String.eqb_refl.
      assert (List.filter
                (fun i => String.eqb (mi_category i) (mi_category x)) items
              = []) as ->; [|reflexivity].
      assert (~ In (mi_category x) (map mi_category items)) as Hx.
      { rewrite <- Hin, <- existsb_eqb_In, He. discriminate. }
      apply filter_all_false. apply List.Forall_forall. intros y Hy.
      apply String.eqb_neq. intros Heq. apply Hx. rewrite <- Heq.
      apply in_map, Hy.
Qed.

(** X26.  The menu text has one section for each category of the items
    it lists, in the order in which the categories first appear; a section
    holds the listed items of its category, in menu order, so every listed
    item is in exactly one section.  The text is the no-items line exactly
    when no item is listed. *)
Theorem menu_sections_spec (menu_items : list (@menu_item num))
    (category : option string) :
  let listed := selected_items menu_items category in
  match menu_sections menu_items category with
  | None => listed = []
  | Some sections =>
      listed <> []
      /\ sections
         = map (fun k =>
                  (k, List.filter (fun i => String.eqb (mi_category i) k) listed))
             (first_seen (map mi_category listed))
      /\ List.NoDup (map fst sections)
      /\ (forall k, In k (map fst sections) <-> In k (map mi_category listed))
  end.
Proof.
  cbv zeta. unfold menu_sections.
  destruct (selected_items menu_items category) as [|x l] eqn:Hl; [reflexivity|].
  rewrite group_by_category_spec.
  destruct (first_seen_spec (map mi_category (x :: l))) as [Hnd Hin].
  split; [discriminate|]. split; [reflexivity|].
  rewrite map_map. cbn [fst]. rewrite map_id. split; [exact Hnd | exact Hin].
Qed.

End MessageFacts.

(** ** The further properties on concrete inputs *)

Lemma sample_kb_reachable : reachable_kb sample_kb.
Proof.
  unfold sample_kb. cbv zeta. repeat apply kb_add. apply kb_start.
Qed.

Lemma process_message_reads_own_session_witness :
  snd (process_message PyFloat.zero PyFloat.add PyFloat.mul sample_kb ∅ "yes" "555" sample_menu None)
  = snd (process_message PyFloat.zero PyFloat.add PyFloat.mul sample_kb
           (fst (process_message PyFloat.zero PyFloat.add PyFloat.mul sample_kb ∅ "order two cola"
                   "777" sample_menu None))
           "yes" "555" sample_menu None).
Proof.
  refine (proj1 (process_message_reads_own_session PyFloat.zero PyFloat.add PyFloat.mul sample_kb ∅
                   (fst (process_message PyFloat.zero PyFloat.add PyFloat.mul sample_kb ∅
                           "order two cola" "777" sample_menu None))
                   "yes" "555" sample_menu None _)).
  vm_compute. reflexivity.
Defined.

Lemma unused_fields_stay_empty_witness :
  @pending_order PyFloat.float (Context [CartItem 3 "Cola" price_1_99 2] None (Some ORDER_INTENT) [])
  = None.
Proof.
  refine (proj1 (unused_fields_stay_empty PyFloat.zero PyFloat.add PyFloat.mul
                   (fst (process_message PyFloat.zero PyFloat.add PyFloat.mul sample_kb ∅
                           "order two cola" "555" sample_menu None))
                   "555"
                   (Context [CartItem 3 "Cola" price_1_99 2] None (Some ORDER_INTENT) [])
                   _ _)).
  - apply reach_message, reach_start.
  - vm_compute. reflexivity.
Defined.

Lemma cart_changes_only_by_order_or_cancel_witness :
  let st :=
    fst (process_message PyFloat.zero PyFloat.add PyFloat.mul sample_kb ∅ "order two cola" "555"
           sample_menu None) in
  cart (session_of
          (fst (process_message PyFloat.zero PyFloat.add PyFloat.mul sample_kb st "Hello there" "555"
                  sample_menu None))
          "555")
  = cart (session_of st "555").
Proof.
  refine (cart_changes_only_by_order_or_cancel PyFloat.zero PyFloat.add PyFloat.mul sample_kb _
            "Hello there" "555" sample_menu None _ _);
    vm_compute; discriminate.
Defined.

Lemma cancel_order_empties_cart_witness :
  let st :=
    fst (process_message PyFloat.zero PyFloat.add PyFloat.mul sample_kb ∅ "order two cola" "555"
           sample_menu None) in
  cart (session_of
          (fst (process_message PyFloat.zero PyFloat.add PyFloat.mul sample_kb st "cancel" "555"
                  sample_menu None))
          "555")
  = [].
Proof.
  refine (proj1 (cancel_order_empties_cart PyFloat.zero PyFloat.add PyFloat.mul sample_kb sample_kb _
                   "cancel" "555" sample_menu sample_menu None None _)).
  vm_compute. reflexivity.
Defined.


Lemma track_order_by_number_witness :
  let r :=
    snd (process_message PyFloat.zero PyFloat.add PyFloat.mul sample_kb ∅ "track order #1" "777" sample_menu
           (Some sample_orders)) in
  let n := digits_value "1" in
  match sample_orders with
  | [] => r = Returned (Reply RNoOrdersYet None None)
  | _ :: _ =>
      (~ readable "1" -> r = Raised ValueError)
      /\ (readable "1" -> n <> 0 ->
          match List.find (fun o => o_id o =? n) sample_orders with
          | Some o =>
              o_id o = n /\ In o sample_orders
              /\ r = Returned (Reply (ROrderStatus o) (Some "show_order_status")
                                 (Some (DataOrder o)))
          | None =>
              (forall o, In o sample_orders -> o_id o <> n)
              /\ r = Returned (Reply (ROrderNotFound n) None None)
          end)
  end.
Proof.
  refine (track_order_by_number PyFloat.zero PyFloat.add PyFloat.mul sample_kb ∅ "track order #1"
            "777" sample_menu sample_orders "1" _ _).
  - vm_compute. reflexivity.
  - exists "track order #", "". repeat split. discriminate.
Defined.

Lemma track_order_without_number_witness :
  exists o,
    snd (process_message PyFloat.zero PyFloat.add PyFloat.mul sample_kb ∅ "track my order" "777"
           sample_menu (Some sample_orders))
    = Returned (Reply (ROrderStatus o) (Some "show_order_status")
                  (Some (DataOrder o)))
    /\ In o sample_orders
    /\ match List.filter (fun o => String.eqb (phone_str o) "777") sample_orders
       with
       | [] => head sample_orders = Some o
       | _ :: _ =>
           last (List.filter (fun o => String.eqb (phone_str o) "777")
                   sample_orders) = Some o
           /\ phone_str o = "777"
       end.
Proof.
  refine (track_order_without_number PyFloat.zero PyFloat.add PyFloat.mul sample_kb ∅ "track my order"
            "777" sample_menu sample_orders _ _ _ _).
  - vm_compute. reflexivity.
  - left. vm_compute. reflexivity.
  - discriminate.
  - repeat constructor.
Defined.

Lemma chat_stores_confirmed_cart_witness :
  let st :=
    fst (process_message PyFloat.zero PyFloat.add PyFloat.mul sample_kb ∅ "order two cola" "555" sample_menu
           None) in
  let u := chat_user (Some "555") in
  let before := cart (session_of st u) in
  let p := process_message PyFloat.zero PyFloat.add PyFloat.mul sample_kb st "yes" u sample_menu
             (Some sample_orders) in
  let out :=
    chat PyFloat.zero PyFloat.add PyFloat.mul sample_kb st "yes" (Some "555") sample_menu sample_orders
      (DbCommits (Some 3) true) in
  match snd out with
  | Some o =>
      classify_intent "yes" = CONFIRM_ORDER /\ before <> []
      /\ priced PyFloat.mul before /\ printed before
      /\ cart_total PyFloat.zero PyFloat.add PyFloat.mul before = Returned (so_total_amount o)
      /\ so_items o
         = map (fun item => (menu_item_id item, quantity item, ci_price item))
             before
      /\ so_status o = "Pending"
      /\ so_customer_phone o
         = (if String.eqb u "anonymous" then None else Some u)
      /\ cart (session_of (fst (fst out)) u) = []
      /\ exists r,
           snd p = Returned r
           /\ snd (fst out)
              = if PyStr.printable 3
                then Returned (OrderPlaced r 3 (so_total_amount o))
                else Raised ValueError
  | None =>
      (classify_intent "yes" <> CONFIRM_ORDER \/ before = []
       \/ ~ (priced PyFloat.mul before /\ printed before))
      /\ fst (fst out) = fst p
      /\ snd (fst out)
         = match snd p with
           | Returned r => Returned (Forwarded r)
           | Raised e => Raised e
           end
  end.
Proof.
  exact (proj1 (chat_stores_confirmed_cart PyFloat.zero PyFloat.add PyFloat.mul sample_kb
                  (fst (process_message PyFloat.zero PyFloat.add PyFloat.mul sample_kb ∅ "order two cola" "555"
                          sample_menu None))
                  "yes" (Some "555") sample_menu sample_orders
                  (DbCommits (Some 3) true) 3 eq_refl eq_refl)).
Defined.

Lemma chat_confirm_twice_witness :
  let st :=
    fst (process_message PyFloat.zero PyFloat.add PyFloat.mul sample_kb ∅ "order two cola" "555"
           sample_menu None) in
  let first :=
    chat PyFloat.zero PyFloat.add PyFloat.mul sample_kb st "yes" (Some "555") sample_menu sample_orders
      (DbCommits (Some 3) true) in
  snd (chat PyFloat.zero PyFloat.add PyFloat.mul sample_kb (fst (fst first)) "yes" (Some "555")
         sample_menu sample_orders (DbCommits (Some 4) true))
  = None.
Proof.
  refine (proj1 (chat_confirm_twice PyFloat.zero PyFloat.add PyFloat.mul sample_kb sample_kb _ "yes"
                   (Some "555") sample_menu sample_menu sample_orders
                   sample_orders (DbCommits (Some 3) true)
                   (DbCommits (Some 4) true) 3 _ _ _));
    vm_compute; reflexivity.
Defined.

Lemma persona_reply_from_persona_entries_witness :
  exists r,
    snd (process_message PyFloat.zero PyFloat.add PyFloat.mul sample_kb ∅ "who are you" "555" sample_menu None)
    = Returned r
    /\ action r = Some "persona_response" /\ data r = None
    /\ match KnowledgeBase.search sample_kb "who are you" (Some "persona") 1 with
       | e :: _ =>
           r_response r = RPersona e /\ e_category e = "persona"
           /\ In e (entries sample_kb)
       | [] => r_response r = RPersonaDefault
       end.
Proof.
  refine (persona_reply_from_persona_entries PyFloat.zero PyFloat.add PyFloat.mul sample_kb ∅
            "who are you" "555" sample_menu None _).
  vm_compute. reflexivity.
Defined.

Lemma kb_query_reply_witness :
  (length (KnowledgeBase.search sample_kb "is it gluten free" None 2) <= 2)%nat.
Proof.
  refine (proj1 (kb_query_reply PyFloat.zero PyFloat.add PyFloat.mul sample_kb (∅ : gmap string (@context PyFloat.float))
                   "is it gluten free" "555" sample_menu None _)).
  vm_compute. reflexivity.
Defined.

Lemma item_details_first_mentioned_witness :
  let r :=
    snd (process_message PyFloat.zero PyFloat.add PyFloat.mul sample_kb ∅ "tell me about the cola"
           "555" sample_menu None) in
  (exists before item after,
     sample_menu = before ++ item :: after
     /\ mentions (normalized "tell me about the cola") item
     /\ Forall (fun i => ~ mentions (normalized "tell me about the cola") i)
          before
     /\ r = Returned (Reply (RItem item) (Some "show_item")
                        (Some (DataItem item))))
  \/ (Forall (fun i => ~ mentions (normalized "tell me about the cola") i)
        sample_menu
      /\ r = Returned (Reply RItemNotFound None None)).
Proof.
  refine (item_details_first_mentioned PyFloat.zero PyFloat.add PyFloat.mul sample_kb ∅
            "tell me about the cola" "555" sample_menu None _).
  vm_compute. reflexivity.
Defined.

Lemma kb_identifiers_unique_witness :
  StronglySorted Z.lt (map e_id (entries sample_kb)).
Proof.
  refine (proj1 (kb_identifiers_unique sample_kb _)).
  exact sample_kb_reachable.
Defined.

Lemma add_entry_then_get_witness :
  let out :=
    KnowledgeBase.add_entry sample_kb "2024-03-01T00:00:00" "2024-03-01T00:00:00"
      "faqs" "Opening hours" "We are open all day." None in
  KnowledgeBase.get_by_id (fst out) (e_id (snd out)) = Some (snd out).
Proof.
  refine (proj1 (add_entry_then_get sample_kb "2024-03-01T00:00:00"
                   "2024-03-01T00:00:00" "faqs" "Opening hours"
                   "We are open all day." None _)).
  exact sample_kb_reachable.
Defined.

Lemma delete_entry_then_get_witness :
  KnowledgeBase.get_by_id (fst (KnowledgeBase.delete_entry sample_kb 2)) 2 = None.
Proof.
  refine (proj1 (delete_entry_then_get sample_kb 2 _)).
  exact sample_kb_reachable.
Defined.

Lemma search_limit_prefix_witness :
  KnowledgeBase.search sample_kb "gluten" None 1
  = take (Z.to_nat 1) (KnowledgeBase.search sample_kb "gluten" None 2).
Proof.
  refine (search_limit_prefix sample_kb "gluten" None 1 2 _ _); lia.
Defined.

Lemma search_in_category_witness :
  KnowledgeBase.search sample_kb "gluten" (Some "menu") 5
  = KnowledgeBase.search
      (KB (KnowledgeBase.get_by_category sample_kb "menu")
         (_id_counter sample_kb))
      "gluten" None 5.
Proof.
  refine (proj1 (search_in_category sample_kb "gluten" "menu" 5 _)).
  discriminate.
Defined.

Lemma blank_message_gets_help_witness : classify_intent "   " = UNKNOWN.
Proof.
  refine (proj1 (blank_message_gets_help PyFloat.zero PyFloat.add PyFloat.mul sample_kb
                   (∅ : gmap string (@context PyFloat.float)) "   " "555" sample_menu None _)).
  vm_compute. reflexivity.
Defined.

(** ** The order of the pattern table *)

Lemma get_app_r (pre s : string) (n : nat) :
  String.get (n + String.length pre) (pre +:+ s) = String.get n s.
Proof.
  induction pre as [|c pre IH]; simpl.
  - rewrite Nat.add_0_r. reflexivity.
  - rewrite Nat.add_succ_r. exact IH.
Qed.

Lemma length_snoc (pre : string) (c : ascii) :
  String.length (pre +:+ String c "") = S (String.length pre).
Proof. induction pre as [|d pre IH]; simpl; [reflexivity | rewrite IH; reflexivity]. Qed.

Lemma track_word_matches (pre post : string) :
  delimited pre post ->
  pattern_matches track_pattern (pre +:+ "track" +:+ post).
Proof.
  intros [Hpre Hpost].
  set (text := pre +:+ "track" +:+ post).
  assert (forall n, String.get (n + String.length pre) text
                    = String.get n ("track" +:+ post)) as Hget
    by (intros n; apply get_app_r).
  assert (Re.boundary text (0 + String.length pre) = true) as Hb1.
  { unfold Re.boundary, Re.word_at. rewrite (Hget 0%nat). cbn [String.get].
    change (PyStr.isword "t") with true. rewrite xorb_true_r.
    apply negb_true_iff. destruct Hpre as [-> | (p & c & -> & Hc)]; [reflexivity|].
    cbn [Nat.add]. rewrite length_snoc. unfold text.
    rewrite app_assoc.
    pose proof (get_app_r p (String c "" +:+ "track" +:+ post) 0) as H.
    cbn [Nat.add] in H. rewrite H. cbn. exact Hc. }
  assert (Re.boundary text (5 + String.length pre) = true) as Hb2.
  { change (Re.boundary text (5 + String.length pre))
      with (xorb (Re.word_at text (4 + String.length pre))
              (Re.word_at text (5 + String.length pre))).
    unfold Re.word_at. rewrite (Hget 4%nat), (Hget 5%nat).
    change (String.get 4 ("track" +:+ post)) with (Some "k"%char).
    change (String.get 5 ("track" +:+ post)) with (String.get 0 post).
    change (PyStr.isword "k") with true.
    destruct Hpost as [-> | (c & p & -> & Hc)]; cbn [String.get];
      [reflexivity|].
    rewrite Hc. reflexivity. }
  unfold pattern_matches.
  assert (exists r, Re.compile track_pattern = Some r) as [r Hr]
    by (vm_compute; eauto).
  pose proof Hr as Hr'. vm_compute in Hr'. injection Hr' as <-.
  eexists _, (0 + String.length pre)%nat, (5 + String.length pre)%nat.
  split; [exact Hr|]. split.
  { unfold text. clear. induction pre as [|c pre IH]; simpl; lia. }
  cbn [denotes].
  exists (0 + String.length pre)%nat. split; [auto|].
  exists (5 + String.length pre)%nat. split.
  - left.
    exists (1 + String.length pre)%nat. split.
    { eexists. split; [apply (Hget 0%nat)|]. split; reflexivity. }
    exists (2 + String.length pre)%nat. split.
    { eexists. split; [apply (Hget 1%nat)|]. split; reflexivity. }
    exists (3 + String.length pre)%nat. split.
    { eexists. split; [apply (Hget 2%nat)|]. split; reflexivity. }
    exists (4 + String.length pre)%nat. split.
    { eexists. split; [apply (Hget 3%nat)|]. split; reflexivity. }
    exists (5 + String.length pre)%nat. split.
    { eexists. split; [apply (Hget 4%nat)|]. split; reflexivity. }
    reflexivity.
  - exists (5 + String.length pre)%nat. split; [auto | reflexivity].
Qed.

(** X27.  A message in which [track] stands as a word of its own is
    never taken for an order, a confirmation or a cancellation: it is
    classified TRACK_ORDER or one of the four categories before it in the
    table. *)
Theorem track_word_never_an_order (m pre post : string) :
  PyStr.strip (PyStr.lower m) = pre +:+ "track" +:+ post ->
  delimited pre post ->
  In (classify_intent m)
    [GREETING; MENU_QUERY; CATEGORY_QUERY; ITEM_DETAILS; TRACK_ORDER].
Proof.
  intros Ht Hd. unfold classify_intent. rewrite Ht.
  assert (any_pattern [track_pattern] (pre +:+ "track" +:+ post) = true) as H.
  { apply any_pattern_spec. exists track_pattern.
    split; [left; reflexivity | apply track_word_matches, Hd]. }
  unfold track_pattern in H. unfold INTENT_PATTERNS. cbn [first_intent].
  rewrite H. cbv iota.
  repeat match goal with
         | |- context [if any_pattern ?p ?t then _ else _] =>
             destruct (any_pattern p t)
         end; simpl; tauto.
Qed.

Lemma track_word_never_an_order_witness :
  In (classify_intent "Please TRACK my order")
    [GREETING; MENU_QUERY; CATEGORY_QUERY; ITEM_DETAILS; TRACK_ORDER].
Proof.
  refine (track_word_never_an_order "Please TRACK my order" "please "
            " my order" _ _).
  - vm_compute. reflexivity.
  - split; right.
    + exists "please", " "%char. split; reflexivity.
    + exists " "%char, "my order". split; reflexivity.
Defined.

(** ** What a search finds *)

Lemma add_per_word_count (w : Z) (test : string -> bool) (words : list string) :
  forall score,
    KnowledgeBase.add_per_word w test words score
    = score + w * count_words test words.
Proof.
  unfold KnowledgeBase.add_per_word, count_words.
  induction words as [|x words IH]; intros score; simpl; [lia|].
  rewrite IH. destruct (test x); simpl length; lia.
Qed.

Lemma count_words_pos (test : string -> bool) (words : list string) :
  0 <= count_words test words <= Z.of_nat (length words)
  /\ (0 < count_words test words <->
      exists word, In word words /\ test word = true).
Proof.
  unfold count_words. split.
  - pose proof (filter_length_le test words). lia.
  - split.
    + intros H. destruct (List.filter test words) as [|x l] eqn:Hf;
        [simpl in H; lia|].
      exists x. apply filter_In. rewrite Hf. left. reflexivity.
    + intros (x & Hx & Ht).
      assert (In x (List.filter test words)) as Hin by (apply filter_In; auto).
      destruct (List.filter test words); [destruct Hin | simpl; lia].
Qed.

Lemma in_list_In (word : string) (l : list string) :
  KnowledgeBase.in_list word l = true <-> In word l.
Proof. apply existsb_eqb_In. Qed.

Lemma score_of_sum (ql : string) (qw : list string) (e : entry) :
  KnowledgeBase.score_of ql qw e
  = (if PyStr.contains ql (PyStr.lower (e_title e)) then 50 else 0)
    + (if PyStr.contains ql (PyStr.lower (e_content e)) then 30 else 0)
    + 20 * count_words
             (fun word =>
                KnowledgeBase.in_list word (map PyStr.lower (e_tags e))) qw
    + 10 * count_words
             (fun word => PyStr.contains word (PyStr.lower (e_title e))) qw
    + 5 * count_words
            (fun word => PyStr.contains word (PyStr.lower (e_content e))) qw.
Proof.
  unfold KnowledgeBase.score_of. cbv zeta. rewrite !add_per_word_count.
  destruct (PyStr.contains ql (PyStr.lower (e_title e)));
    destruct (PyStr.contains ql (PyStr.lower (e_content e))); lia.
Qed.

Lemma score_of_relevant (ql : string) (e : entry) :
  0 <= KnowledgeBase.score_of ql (KnowledgeBase.words_of ql) e
       <= 80 + 35 * Z.of_nat (length (KnowledgeBase.words_of ql))
  /\ (0 < KnowledgeBase.score_of ql (KnowledgeBase.words_of ql) e <->
      relevant ql e).
Proof.
  rewrite score_of_sum.
  set (qw := KnowledgeBase.words_of ql).
  destruct (count_words_pos
              (fun word => KnowledgeBase.in_list word (map PyStr.lower (e_tags e)))
              qw) as [B1 P1].
  destruct (count_words_pos
              (fun word => PyStr.contains word (PyStr.lower (e_title e))) qw)
    as [B2 P2].
  destruct (count_words_pos
              (fun word => PyStr.contains word (PyStr.lower (e_content e))) qw)
    as [B3 P3].
  assert (forall word, In word qw <-> In word (PyStr.split ql)) as Hw.
  { intros word. unfold qw, KnowledgeBase.words_of.
    rewrite <- !list_elem_of_In. apply elem_of_remove_dups. }
  split.
  - destruct (PyStr.contains ql (PyStr.lower (e_title e)));
      destruct (PyStr.contains ql (PyStr.lower (e_content e))); lia.
  - unfold relevant. cbv zeta. rewrite <- !contains_spec. split.
    + intros Hpos.
      destruct (PyStr.contains ql (PyStr.lower (e_title e))); [auto|].
      destruct (PyStr.contains ql (PyStr.lower (e_content e))); [auto|].
      right. right.
      assert (0 < count_words
                    (fun word =>
                       KnowledgeBase.in_list word (map PyStr.lower (e_tags e)))
                    qw
              \/ 0 < count_words
                       (fun word => PyStr.contains word (PyStr.lower (e_title e)))
                       qw
              \/ 0 < count_words
                       (fun word =>
                          PyStr.contains word (PyStr.lower (e_content e))) qw)
        as [H | [H | H]] by lia.
      * apply P1 in H as (word & Hin & Ht). exists word.
        split; [apply Hw, Hin|]. left. apply in_list_In, Ht.
      * apply P2 in H as (word & Hin & Ht). exists word.
        split; [apply Hw, Hin|]. right. left. apply contains_spec, Ht.
      * apply P3 in H as (word & Hin & Ht). exists word.
        split; [apply Hw, Hin|]. right. right. apply contains_spec, Ht.
    + intros [H | [H | (word & Hin & [H | [H | H]])]].
      * rewrite H. destruct (PyStr.contains ql (PyStr.lower (e_content e))); lia.
      * rewrite H. destruct (PyStr.contains ql (PyStr.lower (e_title e))); lia.
      * assert (0 < count_words
                      (fun word =>
                         KnowledgeBase.in_list word (map PyStr.lower (e_tags e)))
                      qw) as Hc.
        { apply P1. exists word. split; [apply Hw, Hin | apply in_list_In, H]. }
        destruct (PyStr.contains ql (PyStr.lower (e_title e)));
          destruct (PyStr.contains ql (PyStr.lower (e_content e))); lia.
      * assert (0 < count_words
                      (fun word => PyStr.contains word (PyStr.lower (e_title e)))
                      qw) as Hc.
        { apply P2. exists word. split; [apply Hw, Hin | apply contains_spec, H]. }
        destruct (PyStr.contains ql (PyStr.lower (e_title e)));
          destruct (PyStr.contains ql (PyStr.lower (e_content e))); lia.
      * assert (0 < count_words
                      (fun word =>
                         PyStr.contains word (PyStr.lower (e_content e))) qw)
          as Hc.
        { apply P3. exists word. split; [apply Hw, Hin | apply contains_spec, H]. }
        destruct (PyStr.contains ql (PyStr.lower (e_title e)));
          destruct (PyStr.contains ql (PyStr.lower (e_content e))); lia.
Qed.

(** X28.  With a limit that is at least the size of the store, a search
    returns exactly the entries of the store that pass the category filter
    and that the query says something about: its whole text occurs in the
    title or the content, or one of its words is a tag or occurs in the
    title or the content.  The score of an entry is never negative, and at
    most 80 plus 35 for every distinct word of the query. *)
Theorem search_finds_relevant (kb : KnowledgeBase) (query : string)
    (category : option string) (limit : Z) :
  Z.of_nat (length (entries kb)) <= limit ->
  let ql := PyStr.lower query in
  (forall e,
     In e (KnowledgeBase.search kb query category limit) <->
     In e (entries kb) /\ KnowledgeBase.skipped category e = false
     /\ relevant ql e)
  /\ (forall e,
        0 <= KnowledgeBase.score_of ql (KnowledgeBase.words_of ql) e
             <= 80 + 35 * Z.of_nat (length (KnowledgeBase.words_of ql))).
Proof.
  intros Hl. cbv zeta. split; [|intros e; apply score_of_relevant].
  intros e. rewrite search_unfold. cbv zeta.
  set (ql := PyStr.lower query). set (qw := KnowledgeBase.words_of ql).
  set (mk := fun e => Scored e (KnowledgeBase.score_of ql qw e)).
  set (found := hits kb ql qw category).
  assert (slice_to (KnowledgeBase.sort_desc (map mk found)) limit
          = KnowledgeBase.sort_desc (map mk found)) as ->.
  { rewrite slice_to_take.
    assert ((0 <=? limit) = true) as -> by (apply Z.leb_le; lia).
    apply take_ge.
    rewrite (Permutation_length (sort_desc_perm _)), length_map.
    pose proof (filter_length_le
                  (fun e => negb (KnowledgeBase.skipped category e)
                            && (0 <? KnowledgeBase.score_of ql qw e))
                  (entries kb)).
    unfold found, hits. lia. }
  assert (Permutation (map s_entry (KnowledgeBase.sort_desc (map mk found)))
            found) as Hp.
  { rewrite (Permutation_map s_entry (sort_desc_perm (map mk found))).
    rewrite map_map. simpl. rewrite map_id. reflexivity. }
  split.
  - intros H. apply (Permutation_in _ Hp) in H. apply hits_spec in H.
    destruct H as (H1 & H2 & H3). split; [exact H1|]. split; [exact H2|].
    apply score_of_relevant, H3.
  - intros (H1 & H2 & H3). apply (Permutation_in _ (Permutation_sym Hp)).
    apply hits_spec. split; [exact H1|]. split; [exact H2|].
    apply score_of_relevant, H3.
Qed.

Lemma search_finds_relevant_witness :
  Z.of_nat (length (entries sample_kb)) <= 3
  /\ ((forall e,
         In e (KnowledgeBase.search sample_kb "Refund policy" None 3) <->
         In e (entries sample_kb) /\ KnowledgeBase.skipped None e = false
         /\ relevant (PyStr.lower "Refund policy") e)
      /\ (forall e,
            0 <= KnowledgeBase.score_of (PyStr.lower "Refund policy")
                   (KnowledgeBase.words_of (PyStr.lower "Refund policy")) e
                 <= 80 + 35 * Z.of_nat
                                (length (KnowledgeBase.words_of
                                           (PyStr.lower "Refund policy"))))).
Proof.
  assert (Z.of_nat (length (entries sample_kb)) <= 3) as H
    by (vm_compute; discriminate).
  split; [exact H|].
  exact (search_finds_relevant sample_kb "Refund policy" None 3 H).
Defined.

(** ** Category queries *)

Section CategoryFacts.

Context {num : Type} {num_eq_dec : EqDecision num}.
Variable num_zero : num.
Variable num_add : num -> num -> num.
Variable num_mul : num -> Z -> option num.

Local Abbreviation process := (process_message num_zero num_add num_mul).

Lemma known_categories_lower :
  Forall (fun k => PyStr.lower (PyStr.capitalize k) = k
                   /\ truthy_str (Some (PyStr.capitalize k)) = true)
    known_categories.
Proof. repeat constructor. Qed.

(** X29.  The reply to a CATEGORY_QUERY message names the first known
    category, in the order pizza, drink, dessert, side, appetizer,
    beverage, whose name occurs in the lower-cased message, capitalized;
    the menu text then lists the items whose category is that name,
    whatever the case.  When no known category occurs, as for the word
    [category] alone, no category is named and the whole menu is listed. *)
Theorem category_query_lists_category (kb : KnowledgeBase)
    (st : gmap string (@context num)) (message user_id : string)
    (menu_items : list menu_item) (orders : option (list order_rec)) :
  classify_intent message = CATEGORY_QUERY ->
  let r := snd (process kb st message user_id menu_items orders) in
  let text := PyStr.lower message in
  (exists before k after,
     known_categories = before ++ k :: after
     /\ occurs k text /\ Forall (fun k' => ~ occurs k' text) before
     /\ r = Returned
              (Reply (RMenu menu_items (Some (PyStr.capitalize k)))
                 (Some "show_category")
                 (Some (DataCategory (Some (PyStr.capitalize k)))))
     /\ selected_items menu_items (Some (PyStr.capitalize k))
        = List.filter
            (fun i => String.eqb (PyStr.lower (mi_category i)) k) menu_items)
  \/ (Forall (fun k => ~ occurs k text) known_categories
      /\ r = Returned (Reply (RMenu menu_items None) (Some "show_category")
                         (Some (DataCategory None)))
      /\ selected_items menu_items None = menu_items).
Proof.
  intros Hi. cbv zeta.
  rewrite (process_message_state num_zero num_add num_mul). cbv zeta.
  rewrite Hi. cbn [snd handle].
  pose proof (find_split (fun cat => PyStr.contains cat (PyStr.lower message))
                known_categories) as Hf.
  destruct (List.find (fun cat => PyStr.contains cat (PyStr.lower message))
              known_categories) as [k|].
  - destruct Hf as (before & after & Hk & Hc & Hb). left.
    exists before, k, after. split; [exact Hk|].
    split; [apply contains_spec, Hc|]. split.
    { eapply List.Forall_impl; [|exact Hb]. intros k'. apply not_contains. }
    split; [reflexivity|].
    pose proof known_categories_lower as Hall. rewrite Hk in Hall.
    apply Forall_app in Hall as [_ Hall]. inversion Hall as [|? ? [Hl Ht] _]; subst.
    unfold selected_items. rewrite Ht. cbn [default from_option id].
    rewrite Hl. reflexivity.
  - right. split.
    { eapply List.Forall_impl; [|exact Hf]. intros k'. apply not_contains. }
    split; reflexivity.
Qed.

End CategoryFacts.

Lemma category_query_lists_category_witness :
  let r :=
    snd (process_message PyFloat.zero PyFloat.add PyFloat.mul sample_kb ∅ "any DRINK for me?" "555"
           sample_menu None) in
  let text := PyStr.lower "any DRINK for me?" in
  (exists before k after,
     known_categories = before ++ k :: after
     /\ occurs k text /\ Forall (fun k' => ~ occurs k' text) before
     /\ r = Returned
              (Reply (RMenu sample_menu (Some (PyStr.capitalize k)))
                 (Some "show_category")
                 (Some (DataCategory (Some (PyStr.capitalize k)))))
     /\ selected_items sample_menu (Some (PyStr.capitalize k))
        = List.filter
            (fun i => String.eqb (PyStr.lower (mi_category i)) k) sample_menu)
  \/ (Forall (fun k => ~ occurs k text) known_categories
      /\ r = Returned (Reply (RMenu sample_menu None) (Some "show_category")
                         (Some (DataCategory None)))
      /\ selected_items sample_menu None = sample_menu).
Proof.
  refine (category_query_lists_category PyFloat.zero PyFloat.add PyFloat.mul sample_kb ∅
            "any DRINK for me?" "555" sample_menu None _).
  vm_compute. reflexivity.
Defined.
